(** * office-analyzer: the scraper's normalise / deduplicate / merge pipeline

    A shallow embedding of [src/scraper/scraper.py].  Python values are an
    inductive type, dictionaries are finite maps with string keys, floats are
    IEEE binary64 numbers (the kernel's primitive floats), and a computation
    that may raise is a value of [res].  The C library's trigonometric
    functions, the runtime's float rounding and printing, the decimal
    digits of the interpreter's Unicode database, the geocoding service and
    the clock are the parameters of the development. *)

From Stdlib Require Import ZArith Floats Ascii String List Bool Lia.
From stdpp Require Import base option list strings pretty gmap.

Set Warnings "-inexact-float,-register-all".
Local Open Scope Z_scope.

(** ** Python values and exceptions *)

Inductive exn : Set :=
| TypeError
| ValueError
| OverflowError
| KeyError
| OSError.

Inductive res (A : Type) : Type :=
| Ok (a : A)
| Raise (e : exn).

Arguments Ok {A} a.
Arguments Raise {A} e.

#[export] Instance res_ret : MRet res := fun _ a => Ok a.

#[export] Instance res_bind : MBind res := fun _ _ f m =>
  match m with
  | Ok a => f a
  | Raise e => Raise e
  end.

(** What a raw record or a listing holds: the values [json.loads] gives,
    [None], [bool], [int], [float], [str], and the lists and dicts an
    adapter may pass through.  A string is the UTF-8 encoding of the
    Python string. *)
Inductive value : Type :=
| VNone
| VBool (b : bool)
| VInt (z : Z)
| VFloat (f : float)
| VStr (s : string)
| VList (items : list value)
| VDict (items : list (string * value)).

(** A raw record and a listing are both Python dicts with string keys. *)
Abbreviation dict := (gmap string value).

(** [d.get(k)]: the value under [k], [None] when the key is absent. *)
Definition get (d : dict) (k : string) : value := default VNone (d !! k).

(** [d.get(k, dflt)]. *)
Definition get_or (d : dict) (k : string) (dflt : value) : value :=
  default dflt (d !! k).

(** [d[k]]: raises [KeyError] when the key is absent. *)
Definition subscript (d : dict) (k : string) : res value :=
  match d !! k with
  | Some v => Ok v
  | None => Raise KeyError
  end.

(** Truth value testing: [None], [False], zero of either numeric type
    (also [-0.0]), the empty string, the empty list and the empty dict
    are false; a NaN is true. *)
Definition truthy (v : value) : bool :=
  match v with
  | VNone => false
  | VBool b => b
  | VInt z => negb (z =? 0)
  | VFloat f => negb (PrimFloat.eqb f 0%float)
  | VStr s => negb (String.eqb s "")
  | VList items => match items with [] => false | _ => true end
  | VDict items => match items with [] => false | _ => true end
  end.

Definition is_none (v : value) : bool :=
  match v with
  | VNone => true
  | _ => false
  end.

(** A number in Python's sense: [bool] is a subclass of [int]. *)
Definition is_number (v : value) : bool :=
  match v with
  | VBool _ | VInt _ | VFloat _ => true
  | VNone | VStr _ | VList _ | VDict _ => false
  end.

(** ** Floats and the [math] module *)

Local Open Scope float_scope.

(** The conversion of a Python [int] to a C double: correctly rounded, ties
    to even; an integer beyond the double range gives an infinity here and
    [OverflowError] in [as_double]. *)
Definition float_of_Z (z : Z) : float :=
  SF2Prim (binary_normalize prec emax z 0%Z false).

(** [PyFloat_AsDouble]: how [math.radians] reads its argument. *)
Definition as_double (v : value) : res float :=
  match v with
  | VFloat f => Ok f
  | VInt z =>
      let f := float_of_Z z in
      if is_infinity f then Raise OverflowError else Ok f
  | VBool b => Ok (if b then 1 else 0)
  | VNone | VStr _ | VList _ | VDict _ => Raise TypeError
  end.

(** The platform under the interpreter: the C library's [sin], [cos], [asin]
    and [pow], [float.__round__] with a number of digits, [repr] of a
    float, [str] of a list or a dict, and the decimal digits of the
    interpreter's Unicode database ([unicodedata.decimal] of a code
    point). *)
Class Platform : Type := {
  c_sin : float -> float;
  c_cos : float -> float;
  c_asin : float -> float;
  c_pow : float -> float -> float;
  float_round : float -> Z -> float;
  float_repr : float -> string;
  container_str : value -> string;
  unicode_decimal : N -> option Z
}.

(** [math_1] of CPython's [mathmodule.c], which wraps [sin], [cos], [asin]
    and [sqrt]: a NaN out of a number, or an infinity out of a finite
    number, is a [ValueError]. *)
Definition math_1 (func : float -> float) (x : float) : res float :=
  let r := func x in
  if is_nan r && negb (is_nan x) then Raise ValueError
  else if is_infinity r && is_finite x then Raise ValueError
  else Ok r.

(** [math.radians]: the argument times pi / 180. *)
Definition deg_to_rad : float := 3.141592653589793 / 180.

Definition radians (v : value) : res float :=
  x ← as_double v; Ok (x * deg_to_rad).

Section Math.
Context {P : Platform}.

Definition math_sin : float -> res float := math_1 c_sin.
Definition math_cos : float -> res float := math_1 c_cos.
Definition math_asin : float -> res float := math_1 c_asin.
Definition math_sqrt : float -> res float := math_1 PrimFloat.sqrt.

(** [x ** 2] on a float ([float_pow] with the exponent 2.0): the special
    cases CPython sorts out itself, then the platform's [pow] on the
    absolute value; an infinite result is an [OverflowError]. *)
Definition float_pow2 (iv : float) : res float :=
  if is_nan iv then Ok iv
  else if is_infinity iv then Ok (abs iv)
  else if iv =? 0 then Ok 0
  else
    let iv := if iv <? 0 then - iv else iv in
    if iv =? 1 then Ok 1
    else
      let ix := c_pow iv 2 in
      if is_infinity ix then Raise OverflowError else Ok ix.

(** The inner function of [deduplicate]: great-circle distance in km. *)
Definition haversine (lat1 lng1 lat2 lng2 : value) : res float :=
  lat1 ← radians lat1;
  lng1 ← radians lng1;
  lat2 ← radians lat2;
  lng2 ← radians lng2;
  let dlat := lat2 - lat1 in
  let dlng := lng2 - lng1 in
  s1 ← math_sin (dlat / 2);
  p1 ← float_pow2 s1;
  c1 ← math_cos lat1;
  c2 ← math_cos lat2;
  s2 ← math_sin (dlng / 2);
  p2 ← float_pow2 s2;
  let a := p1 + c1 * c2 * p2 in
  q ← math_sqrt a;
  r ← math_asin q;
  Ok (12742 * r).

End Math.

(** ** [deduplicate] *)

Section Deduplicate.
Context {P : Platform}.

(** The body of the inner loop for one accepted listing: the guard on the
    four coordinates (a truth test, so a zero counts as absent), then the
    distance against the threshold of 0.1 km. *)
Definition is_dup_of (listing existing : dict) : res bool :=
  if truthy (get listing "lat") && truthy (get listing "lng") &&
     truthy (get existing "lat") && truthy (get existing "lng")
  then
    lat1 ← subscript listing "lat";
    lng1 ← subscript listing "lng";
    lat2 ← subscript existing "lat";
    lng2 ← subscript existing "lng";
    dist ← haversine lat1 lng1 lat2 lng2;
    Ok (dist <? 0.1)
  else Ok false.

(** The inner loop [for existing in unique], with its [break]: the value of
    [is_dup] when the loop ends. *)
Fixpoint scan_unique (listing : dict) (unique : list dict) : res bool :=
  match unique with
  | [] => Ok false
  | existing :: rest =>
      b ← is_dup_of listing existing;
      if b : bool then Ok true else scan_unique listing rest
  end.

(** The outer loop [for listing in listings], threading [unique]. *)
Fixpoint dedup_loop (listings unique : list dict) : res (list dict) :=
  match listings with
  | [] => Ok unique
  | listing :: rest =>
      is_dup ← scan_unique listing unique;
      dedup_loop rest (if is_dup : bool then unique else unique ++ [listing])
  end.

Definition deduplicate (listings : list dict) : res (list dict) :=
  dedup_loop listings [].

End Deduplicate.

(** ** [merge_with_existing] *)

(** What [json.load] returns for a file it can decode: an array of objects
    (what an earlier run wrote), or a document of another shape. *)
Inductive document : Type :=
| JArray (existing : list dict)
| JOther.

(** The content of an output file that exists: one that [open] fails on,
    one that [json.load] cannot decode, or a decoded document. *)
Inductive content : Type :=
| CannotOpen
| Undecodable
| Decoded (doc : document).

(** The state of [OUTPUT_FILE] when the merge runs. *)
Inductive store : Type :=
| NoFile
| File (c : content).

(** The [try] block: [open] raises an [OSError], [json.load] a
    [JSONDecodeError] (a [ValueError]), and [existing + new_listings] a
    [TypeError] when the document is not a list. *)
Definition load_and_append (c : content) (new_listings : list dict) : res (list dict) :=
  match c with
  | CannotOpen => Raise OSError
  | Undecodable => Raise ValueError
  | Decoded (JArray existing) => Ok (existing ++ new_listings)
  | Decoded JOther => Raise TypeError
  end.

Section Merge.
Context {P : Platform}.

Definition merge_with_existing (st : store) (new_listings : list dict) : res (list dict) :=
  let all_listings :=
    match st with
    | File c =>
        match load_and_append c new_listings with
        | Ok all_listings => all_listings
        | Raise _ => new_listings
        end
    | NoFile => new_listings
    end in
  deduplicate all_listings.

End Merge.

(** ** Texts

    A Python string is a sequence of code points, and a [string] here is
    its UTF-8 encoding: the literals of the sources are the same bytes in
    this file.  Concatenation, [startswith], and [replace], [split] and
    [lower] on ASCII characters work on the bytes as they do on the code
    points; the patterns, [str.strip], [int], [float] and slices read code
    points, which [utf8_decode] gives. *)

Local Open Scope N_scope.

(** What a byte starts: a character of one byte, or a sequence, with the
    bits the byte brings, the number of bytes to come and the least code
    point such a sequence encodes; [None] for a byte that starts
    nothing. *)
Definition utf8_head (b : N) : option (N * nat * N) :=
  if b <? 0x80 then Some (b, 0%nat, 0)
  else if b <? 0xC0 then None
  else if b <? 0xE0 then Some (b - 0xC0, 1%nat, 0x80)
  else if b <? 0xF0 then Some (b - 0xE0, 2%nat, 0x800)
  else if b <? 0xF8 then Some (b - 0xF0, 3%nat, 0x10000)
  else None.

Definition is_continuation (b : N) : bool := (0x80 <=? b) && (b <? 0xC0).

(** The code point that stands for bytes that encode none. *)
Definition replacement : N := 0xFFFD.

(** The code points of a text, with the bits read, the bytes to come and
    the least code point of a sequence under way. *)
Fixpoint utf8_decode_from (s : string) (acc : N) (more : nat) (low : N) : list N :=
  match s with
  | EmptyString =>
      match more with
      | O => []
      | S _ => [replacement]
      end
  | String c r =>
      let b := N_of_ascii c in
      let fresh := fun _ : unit =>
        match utf8_head b with
        | Some (bits, O, _) => bits :: utf8_decode_from r 0 O 0
        | Some (bits, n, low) => utf8_decode_from r bits n low
        | None => replacement :: utf8_decode_from r 0 O 0
        end in
      match more with
      | O => fresh tt
      | S k =>
          if is_continuation b then
            let acc := acc * 64 + (b - 0x80) in
            match k with
            | O => (if acc <? low then replacement else acc) :: utf8_decode_from r 0 O 0
            | S _ => utf8_decode_from r acc k low
            end
          else replacement :: fresh tt
      end
  end.

Definition utf8_decode (s : string) : list N := utf8_decode_from s 0 O 0.

Definition utf8_byte (b : N) (rest : string) : string := String (ascii_of_N b) rest.

Definition utf8_encode_char (cp : N) (rest : string) : string :=
  if cp <? 0x80 then utf8_byte cp rest
  else if cp <? 0x800 then
    utf8_byte (0xC0 + cp / 64) (utf8_byte (0x80 + cp mod 64) rest)
  else if cp <? 0x10000 then
    utf8_byte (0xE0 + cp / 4096)
      (utf8_byte (0x80 + cp / 64 mod 64) (utf8_byte (0x80 + cp mod 64) rest))
  else
    utf8_byte (0xF0 + cp / 262144)
      (utf8_byte (0x80 + cp / 4096 mod 64)
        (utf8_byte (0x80 + cp / 64 mod 64) (utf8_byte (0x80 + cp mod 64) rest))).

Fixpoint utf8_encode (l : list N) : string :=
  match l with
  | [] => EmptyString
  | cp :: rest => utf8_encode_char cp (utf8_encode rest)
  end.

(** The white space of [str.strip] and of the patterns' [\s]: the code
    points [str.isspace] holds of. *)
Definition is_space (cp : N) : bool :=
  ((0x9 <=? cp) && (cp <=? 0xD)) || ((0x1C <=? cp) && (cp <=? 0x20)) ||
  (cp =? 0x85) || (cp =? 0xA0) || (cp =? 0x1680) ||
  ((0x2000 <=? cp) && (cp <=? 0x200A)) ||
  (cp =? 0x2028) || (cp =? 0x2029) || (cp =? 0x202F) || (cp =? 0x205F) ||
  (cp =? 0x3000).

(** The blocks Basic Latin to Latin Extended-B and Latin Extended
    Additional, where the letters of Vietnamese stand: they hold no decimal
    digit but the ASCII ones, in every version of the Unicode database. *)
Definition latin (cp : N) : bool :=
  (cp <? 0x250) || ((0x1E00 <=? cp) && (cp <=? 0x1EFF)).

(** The decimal digits, with their values: what the patterns' [\d]
    matches and what [int] and [float] read.  Outside the Latin blocks
    they are the interpreter's. *)
Definition decimal {P : Platform} (cp : N) : option Z :=
  if (0x30 <=? cp) && (cp <=? 0x39) then Some (Z.of_N cp - 48)%Z
  else if latin cp then None
  else unicode_decimal cp.

Definition is_decimal {P : Platform} (cp : N) : bool :=
  match decimal cp with
  | Some _ => true
  | None => false
  end.

(** [str.strip()]. *)
Fixpoint lstrip (l : list N) : list N :=
  match l with
  | cp :: r => if is_space cp then lstrip r else l
  | [] => []
  end.

Fixpoint rstrip (l : list N) : list N :=
  match l with
  | cp :: r =>
      let r' := rstrip r in
      if is_space cp && match r' with [] => true | _ => false end
      then [] else cp :: r'
  | [] => []
  end.

Definition strip (s : string) : string :=
  utf8_encode (rstrip (lstrip (utf8_decode s))).

(** [s[:n]], the first [n] characters: a byte that continues a character
    stays with it. *)
Fixpoint first_chars (n : nat) (s : string) : string :=
  match s with
  | String c r =>
      if is_continuation (N_of_ascii c) then String c (first_chars n r)
      else
        match n with
        | O => EmptyString
        | S n' => String c (first_chars n' r)
        end
  | EmptyString => EmptyString
  end.

(** [len(s)]. *)
Fixpoint char_count (s : string) : nat :=
  match s with
  | String c r =>
      if is_continuation (N_of_ascii c) then char_count r else S (char_count r)
  | EmptyString => O
  end.

(** ** Dates and [datetime.strptime(s, "%Y-%m-%d")] *)

Local Open Scope Z_scope.

Record date : Set := mkdate { year : Z; month : Z; day : Z }.

Definition is_leap (y : Z) : bool :=
  (y mod 4 =? 0) && (negb (y mod 100 =? 0) || (y mod 400 =? 0)).

Definition days_in_month (y m : Z) : Z :=
  match m with
  | 1 | 3 | 5 | 7 | 8 | 10 | 12 => 31
  | 4 | 6 | 9 | 11 => 30
  | 2 => if is_leap y then 29 else 28
  | _ => 0
  end.

(** The dates the [date] constructor accepts. *)
Definition valid_date (d : date) : bool :=
  (1 <=? year d) && (year d <=? 9999) &&
  (1 <=? month d) && (month d <=? 12) &&
  (1 <=? day d) && (day d <=? days_in_month (year d) (month d)).

(** A regular expression as a backtracking matcher on code points: the
    matches at the head of the input with what follows each, in the order
    the engine tries them. *)
Definition matcher (A : Type) : Type := list N -> list (A * list N).

Definition m_ret {A} (a : A) : matcher A := fun s => [(a, s)].

Definition m_bind {A B} (m : matcher A) (f : A -> matcher B) : matcher B :=
  fun s => flat_map (fun ar => f (fst ar) (snd ar)) (m s).

Definition m_alt {A} (p q : matcher A) : matcher A := fun s => p s ++ q s.

Definition digit_val (cp : N) : Z := Z.of_N cp - 48.

(** One ASCII digit between [lo] and [hi]: the classes [[0-2]], [[1-9]]
    and so on. *)
Definition m_digit (lo hi : Z) : matcher Z := fun s =>
  match s with
  | cp :: r =>
      if (lo <=? digit_val cp) && (digit_val cp <=? hi) then [(digit_val cp, r)] else []
  | [] => []
  end.

(** [\d]: one decimal digit of any script, with the value [int] gives
    it. *)
Definition m_decimal {P : Platform} : matcher Z := fun s =>
  match s with
  | cp :: r =>
      match decimal cp with
      | Some v => [(v, r)]
      | None => []
      end
  | [] => []
  end.

Definition m_lit (c : ascii) : matcher unit := fun s =>
  match s with
  | cp :: r => if (N_of_ascii c =? cp)%N then [(tt, r)] else []
  | [] => []
  end.

Section Strptime.
Context {P : Platform}.

(** [%Y]: [\d\d\d\d]. *)
Definition re_year : matcher Z :=
  m_bind m_decimal (fun a =>
  m_bind m_decimal (fun b =>
  m_bind m_decimal (fun c =>
  m_bind m_decimal (fun d =>
  m_ret (1000 * a + 100 * b + 10 * c + d))))).

(** [%m]: [1[0-2]|0[1-9]|[1-9]]. *)
Definition re_month : matcher Z :=
  m_alt (m_bind (m_lit "1") (fun _ => m_bind (m_digit 0 2) (fun b => m_ret (10 + b))))
 (m_alt (m_bind (m_lit "0") (fun _ => m_digit 1 9))
        (m_digit 1 9)).

(** [%d]: [3[0-1]|[1-2]\d|0[1-9]|[1-9]| [1-9]]. *)
Definition re_day : matcher Z :=
  m_alt (m_bind (m_lit "3") (fun _ => m_bind (m_digit 0 1) (fun b => m_ret (30 + b))))
 (m_alt (m_bind (m_digit 1 2) (fun a => m_bind m_decimal (fun b => m_ret (10 * a + b))))
 (m_alt (m_bind (m_lit "0") (fun _ => m_digit 1 9))
 (m_alt (m_digit 1 9)
        (m_bind (m_lit " ") (fun _ => m_digit 1 9))))).

(** What follows the year in the format: [-%m-%d]. *)
Definition re_month_day : matcher (Z * Z) :=
  m_bind (m_lit "-") (fun _ =>
  m_bind re_month (fun m =>
  m_bind (m_lit "-") (fun _ =>
  m_bind re_day (fun d =>
  m_ret (m, d))))).

Definition re_ymd : matcher date :=
  m_bind re_year (fun y =>
  m_bind re_month_day (fun md =>
  m_ret (mkdate y (fst md) (snd md)))).

(** [datetime.strptime(s, "%Y-%m-%d").date()]: the first match of the
    format's expression at the start of [s], which has to end where [s]
    ends and to name a date of the calendar; [TypeError] when [s] is not a
    string. *)
Definition strptime_ymd (v : value) : res date :=
  match v with
  | VStr s =>
      match re_ymd (utf8_decode s) with
      | (d, rest) :: _ =>
          if match rest with [] => true | _ => false end && valid_date d
          then Ok d else Raise ValueError
      | [] => Raise ValueError
      end
  | _ => Raise TypeError
  end.

End Strptime.

(** [date.isoformat()]: ["%04d-%02d-%02d"]. *)
Definition digit_char (n : Z) : ascii := ascii_of_N (Z.to_N (48 + n)).

Definition pad2 (n : Z) (rest : string) : string :=
  String (digit_char (n / 10)) (String (digit_char (n mod 10)) rest).

Definition pad4 (n : Z) (rest : string) : string :=
  String (digit_char (n / 1000)) (String (digit_char (n / 100 mod 10))
    (String (digit_char (n / 10 mod 10)) (String (digit_char (n mod 10)) rest))).

Definition isoformat (d : date) : string :=
  pad4 (year d) (String "-" (pad2 (month d) (String "-" (pad2 (day d) "")))).

(** ** [calculate_months_on_market] *)

Section Months.
Context {P : Platform}.
Context (today : date).

Definition calculate_months_on_market (posting_date_str : value) : res value :=
  if negb (truthy posting_date_str) then Ok VNone
  else
    match strptime_ymd posting_date_str with
    | Ok posted =>
        let months := (year today - year posted) * 12 + (month today - month posted) in
        Ok (VInt (Z.max 0 months))
    | Raise ValueError | Raise TypeError => Ok VNone
    | Raise e => Raise e
    end.

End Months.

(** ** [geocode_address] *)

(** [str(v)], as an f-string formats a value. *)
Definition py_str {P : Platform} (v : value) : string :=
  match v with
  | VNone => "None"
  | VBool b => if b then "True" else "False"
  | VInt z => pretty z
  | VFloat f => float_repr f
  | VStr s => s
  | VList _ | VDict _ => container_str v
  end.

(** [s.split(",")[0]]: what stands before the first comma. *)
Fixpoint before_comma (s : string) : string :=
  match s with
  | String c r => if Ascii.eqb c "," then EmptyString else String c (before_comma r)
  | EmptyString => EmptyString
  end.

(** One call of [geolocator.geocode]: a location, no match, or an
    exception (a timeout, a service error). *)
Inductive geo_reply : Type :=
| GeoFound (latitude longitude : float)
| GeoNone
| GeoError.

Section Normalize.
Context {P : Platform}.
Context (nominatim : string -> geo_reply).
Context (today : date).

(** The pair [geocode_address] returns; every exception inside its [try]
    is caught, also the [AttributeError] of [address.split] on a value that
    is not a string. *)
Definition geocode_address (address : value) : value * value :=
  match nominatim (py_str address +:+ ", Đà Nẵng, Vietnam") with
  | GeoFound la lo => (VFloat la, VFloat lo)
  | GeoError => (VNone, VNone)
  | GeoNone =>
      match address with
      | VStr a =>
          let simplified := strip (before_comma a) in
          match nominatim (simplified +:+ ", Da Nang, Vietnam") with
          | GeoFound la lo => (VFloat la, VFloat lo)
          | _ => (VNone, VNone)
          end
      | _ => (VNone, VNone)
      end
  end.

(** [round(v, ndigits)] with [ndigits >= 0]: an [int] (or [bool]) comes
    back as an [int], a float goes through [float.__round__], anything
    else has no [__round__]. *)
Definition py_round (v : value) (ndigits : Z) : res value :=
  match v with
  | VFloat f => Ok (VFloat (float_round f ndigits))
  | VInt z => Ok (VInt z)
  | VBool b => Ok (VInt (if b then 1 else 0))
  | VNone | VStr _ | VList _ | VDict _ => Raise TypeError
  end.

(** [v == n] for an [int] literal [n] that a double holds exactly. *)
Definition py_eq_int (v : value) (n : Z) : bool :=
  match v with
  | VInt z => z =? n
  | VBool b => (if b then 1 else 0) =? n
  | VFloat f => PrimFloat.eqb f (float_of_Z n)
  | VNone | VStr _ | VList _ | VDict _ => false
  end.

(** The coordinates after the geocoding step.  The pause that follows a
    call of the service ([time.sleep]) has no counterpart here. *)
Definition resolve_coordinates (raw : dict) : value * value :=
  let lat := get raw "lat" in
  let lng := get raw "lng" in
  if negb (truthy lat) || negb (truthy lng) then
    let address := get_or raw "address" (VStr "") in
    if truthy address then geocode_address address else (lat, lng)
  else (lat, lng).

Definition normalize_listing (raw : dict) (source : string) : res (option dict) :=
  let '(lat, lng) := resolve_coordinates raw in
  if negb (truthy lat) || negb (truthy lng) then Ok None
  else
    let months := get raw "monthsOnMarket" in
    months ←
      (if is_none months && truthy (get raw "postingDate") then
         posting_date ← subscript raw "postingDate";
         calculate_months_on_market today posting_date
       else Ok months);
    let area := get raw "area" in
    let floors := get raw "floors" in
    let single_floor := get raw "singleFloor" in
    let single_floor :=
      if is_none single_floor && truthy floors
      then VBool (py_eq_int floors 1) else single_floor in
    let name := get_or raw "name" (VStr "Unknown Office") in
    let address := get_or raw "address" (VStr "") in
    rlat ← py_round lat 7;
    rlng ← py_round lng 7;
    Ok (Some (list_to_map
      [ ("name", name);
        ("address", address);
        ("lat", rlat);
        ("lng", rlng);
        ("grade", get_or raw "grade" (VStr ""));
        ("price", get raw "price");
        ("area", area);
        ("floors", floors);
        ("year", get raw "year");
        ("monthsOnMarket", months);
        ("singleFloor", single_floor);
        ("source", VStr source);
        ("sourceUrl", get_or raw "sourceUrl" (VStr ""));
        ("scrapedAt", VStr (isoformat today)) ])).

End Normalize.

(** ** A platform to evaluate examples on

    Truncated power series stand in for the C library (accurate for the
    small angles of the examples), scaling by a power of ten for
    [float.__round__], one fixed text for the [repr] of a float and one for
    the [str] of a list or dict, which no example formats, and the
    Arabic-Indic and the fullwidth digits for the decimal digits outside the
    Latin blocks.  The theorems below hold for every platform; this one only
    runs the definitions on concrete listings. *)

Module Sample.

Local Open Scope float_scope.

Definition sin_series (x : float) : float :=
  let t := x * x in
  x * (1 - t / 6 * (1 - t / 20 * (1 - t / 42 * (1 - t / 72 * (1 - t / 110 * (1 - t / 156)))))).

Definition cos_series (x : float) : float :=
  let t := x * x in
  1 - t / 2 * (1 - t / 12 * (1 - t / 30 * (1 - t / 56 * (1 - t / 90 * (1 - t / 132 * (1 - t / 182)))))).

Definition asin_series (x : float) : float :=
  let t := x * x in
  x * (1 + t * (1 / 6 + t * (3 / 40 + t * (15 / 336 + t * (105 / 3456))))).

Definition pow_square (x y : float) : float :=
  if y =? 2 then x * x else nan.

Definition two52 : float := 4503599627370496.

Definition nearest_integer (t : float) : float :=
  if abs t <? two52
  then if t <? 0 then (t - two52) + two52 else (t + two52) - two52
  else t.

Definition round_scaled (f : float) (ndigits : Z) : float :=
  let scale := float_of_Z (10 ^ ndigits) in
  if is_finite f then nearest_integer (f * scale) / scale else f.

Definition two_scripts (cp : N) : option Z :=
  if ((0x660 <=? cp) && (cp <=? 0x669))%N then Some (Z.of_N cp - 0x660)%Z
  else if ((0xFF10 <=? cp) && (cp <=? 0xFF19))%N then Some (Z.of_N cp - 0xFF10)%Z
  else None.

#[export] Instance platform : Platform := {
  c_sin := sin_series;
  c_cos := cos_series;
  c_asin := asin_series;
  c_pow := pow_square;
  float_round := round_scaled;
  float_repr := fun _ => "0.0"%string;
  container_str := fun _ => "[]"%string;
  unicode_decimal := two_scripts
}.

End Sample.

(** ** [main] *)

(** The names of [SCRAPERS], in their order. *)
Definition SCRAPERS : list string :=
  [ "batdongsan.com.vn"; "alonhadat.com.vn"; "chotot.com"; "muaban.net";
    "dothi.net"; "cafeland.vn"; "homedy.com" ]%string.

(** The truth value of a dict: it is not empty. *)
Definition dict_truthy (d : dict) : bool := negb (Nat.eqb (size d) 0).

(** How the save at the end of a run goes: the file is written and
    closed; or the directory cannot be made or the file cannot be opened,
    and nothing is touched; or [open(OUTPUT_FILE, "w")] has emptied the
    file and [json.dump] or the closing raises, which leaves the file
    with what was written of the text until then. *)
Inductive write_outcome : Type :=
| Written
| OpenFails
| Interrupted (partial : content).

Section Main.
Context {P : Platform}.
Context (nominatim : string -> geo_reply).
Context (today : date).

(** What building a source's scraper and calling its [scrape] gives: the
    raw records, or an exception. *)
Context (scrape : string -> res (list dict)).

(** How the save goes. *)
Context (write : write_outcome).

(** The loop [for raw in raw_listings], threading [normalized]. *)
Fixpoint normalize_all (source_name : string) (raw_listings normalized : list dict)
    : res (list dict) :=
  match raw_listings with
  | [] => Ok normalized
  | raw :: rest =>
      listing ← normalize_listing nominatim today raw source_name;
      normalize_all source_name rest
        (match listing with
         | Some l => if dict_truthy l then normalized ++ [l] else normalized
         | None => normalized
         end)
  end.

(** The body of the [try] for one source. *)
Definition scrape_source (source_name : string) : res (list dict) :=
  raw_listings ← scrape source_name;
  normalize_all source_name raw_listings [].

(** The loop over the sources, threading [all_listings] and [errors]; an
    error is recorded with the exception in place of its message. *)
Fixpoint run_sources (sources : list string) (all_listings : list dict)
    (errors : list (string * exn)) : list dict * list (string * exn) :=
  match sources with
  | [] => (all_listings, errors)
  | source_name :: rest =>
      match scrape_source source_name with
      | Ok normalized => run_sources rest (all_listings ++ normalized) errors
      | Raise e => run_sources rest all_listings (errors ++ [(source_name, e)])
      end
  end.

(** [main] on a store: the store it leaves and the exit status, or the
    exception that ends the run.  The file is opened once, after the
    merge, for the whole merged list. *)
Definition main (st : store) : store * res Z :=
  let '(all_listings, errors) := run_sources SCRAPERS [] [] in
  match merge_with_existing st all_listings with
  | Ok final =>
      match write with
      | Written =>
          (File (Decoded (JArray final)),
           Ok (match errors with [] => 0 | _ => 1 end))
      | OpenFails => (st, Raise OSError)
      | Interrupted partial => (File partial, Raise OSError)
      end
  | Raise e => (st, Raise e)
  end.

End Main.

(** ** The site adapters: text *)

(** [str.lower()], and [str.replace] of one ASCII character by another or
    by nothing, on the bytes.  Of [lower] only the ASCII letters are kept:
    the patterns applied to a lowered text read digits, dots and white
    space, which have no case, and the letters [t] and [r], which no
    character but [T] and [R] lowers to. *)
Definition lower_char (c : ascii) : ascii :=
  let n := N_of_ascii c in
  if ((65 <=? n) && (n <=? 90))%N then ascii_of_N (n + 32) else c.

Fixpoint lower (s : string) : string :=
  match s with
  | String c r => String (lower_char c) (lower r)
  | EmptyString => EmptyString
  end.

Fixpoint replace_char (a b : ascii) (s : string) : string :=
  match s with
  | String c r => String (if Ascii.eqb c a then b else c) (replace_char a b r)
  | EmptyString => EmptyString
  end.

Fixpoint remove_char (a : ascii) (s : string) : string :=
  match s with
  | String c r => if Ascii.eqb c a then remove_char a r else String c (remove_char a r)
  | EmptyString => EmptyString
  end.

Definition starts_with (prefix s : string) : bool := String.prefix prefix s.

(** [[c]+] for a class of characters, greedy: the non-empty prefixes of
    the input inside the class, the longest first. *)
Fixpoint m_plus (class : N -> bool) (s : list N) : list (list N * list N) :=
  match s with
  | cp :: r =>
      if class cp
      then map (fun gr => (cp :: fst gr, snd gr)) (m_plus class r) ++ [([cp], r)]
      else []
  | [] => []
  end.

(** [[c]*]: the same, and the empty match last. *)
Definition m_star (class : N -> bool) : matcher (list N) :=
  fun s => m_plus class s ++ [([], s)].

(** One character of a class, and a literal text. *)
Definition m_class (class : N -> bool) : matcher N := fun s =>
  match s with
  | cp :: r => if class cp then [(cp, r)] else []
  | [] => []
  end.

Fixpoint m_points (t : list N) : matcher unit :=
  match t with
  | cp :: t' => m_bind (m_class (N.eqb cp)) (fun _ => m_points t')
  | [] => m_ret tt
  end.

Definition m_text (t : string) : matcher unit := m_points (utf8_decode t).

(** [re.search]: the first match at the leftmost position that has one. *)
Fixpoint re_search {A} (m : matcher A) (s : list N) : option A :=
  match m s with
  | (a, _) :: _ => Some a
  | [] =>
      match s with
      | _ :: r => re_search m r
      | [] => None
      end
  end.

(** ** The site adapters: numbers *)

Local Open Scope float_scope.

(** The double nearest to [n / d], ties to even, for [n >= 0] and
    [d > 0]. *)
Definition float_of_ratio (n d : Z) : float :=
  match n with
  | Z0 => 0
  | _ =>
      let '(q, e, loc) := SFdiv_core_binary prec emax n 0 d 0 in
      SF2Prim (binary_round_aux prec emax false q e loc)
  end.

Local Open Scope Z_scope.

(** What stands before the first dot, and what follows it. *)
Fixpoint split_dot (s : list N) : list N * option (list N) :=
  match s with
  | cp :: r =>
      if (cp =? 0x2E)%N then ([], Some r)
      else let '(before, after) := split_dot r in (cp :: before, after)
  | [] => ([], None)
  end.

Section Numbers.
Context {P : Platform}.

(** The value of a text of decimal digits. *)
Fixpoint digits_value (s : list N) (acc : Z) : option Z :=
  match s with
  | cp :: r =>
      match decimal cp with
      | Some v => digits_value r (10 * acc + v)
      | None => None
      end
  | [] => Some acc
  end.

(** [float(s)] for a text [s] of digits and dots, which is all the groups
    of the patterns hold: digits with at most one dot, correctly rounded,
    and [ValueError] for anything else. *)
Definition float_of_digits (s : list N) : res float :=
  let '(whole, fraction) := split_dot s in
  let fraction := default [] fraction in
  match whole ++ fraction with
  | [] => Raise ValueError
  | digits =>
      match digits_value digits 0 with
      | Some n => Ok (float_of_ratio n (10 ^ Z.of_nat (length fraction)))
      | None => Raise ValueError
      end
  end.

(** [int(s)] for a text of digits: [ValueError] on the empty text, and on
    one longer than the interpreter's limit for such conversions, when it
    has one. *)
Definition int_of_digits (max_str_digits : option nat) (s : list N) : res Z :=
  match digits_value s 0 with
  | Some n =>
      match s with
      | [] => Raise ValueError
      | _ =>
          match max_str_digits with
          | Some limit =>
              if (limit <? length s)%nat then Raise ValueError else Ok n
          | None => Ok n
          end
      end
  | None => Raise ValueError
  end.

End Numbers.

(** [int(x)] for a float: towards zero; an infinity is an
    [OverflowError], a NaN a [ValueError]. *)
Definition int_of_float (x : float) : res Z :=
  match Prim2SF x with
  | S754_zero _ => Ok 0
  | S754_finite sign m e =>
      let magnitude :=
        match e with
        | Zneg k => Z.pos m / 2 ^ Z.pos k
        | _ => Z.pos m * 2 ^ e
        end in
      Ok (if sign then - magnitude else magnitude)
  | S754_infinity _ => Raise OverflowError
  | S754_nan => Raise ValueError
  end.

(** ** The site adapters: [_parse_price], [_parse_area], [_parse_date] *)

Section Parsers.
Context {P : Platform}.

Definition digit_or_dot (cp : N) : bool := is_decimal cp || (cp =? 0x2E)%N.

Definition digit_comma_dot (cp : N) : bool :=
  is_decimal cp || (cp =? 0x2C)%N || (cp =? 0x2E)%N.

(** [([\d.]+)\s*(triệu|tr)], giving group 1. *)
Definition re_price : matcher (list N) :=
  m_bind (m_plus digit_or_dot) (fun amount =>
  m_bind (m_star is_space) (fun _ =>
  m_bind (m_alt (m_text "triệu") (m_text "tr")) (fun _ =>
  m_ret amount))).

(** [([\d.]+)]. *)
Definition re_number : matcher (list N) := m_plus digit_or_dot.

(** [([\d,.]+)\s*m], giving group 1. *)
Definition re_area : matcher (list N) :=
  m_bind (m_plus digit_comma_dot) (fun amount =>
  m_bind (m_star is_space) (fun _ =>
  m_bind (m_lit "m") (fun _ =>
  m_ret amount))).

(** [int(float(amount) * 1_000_000)]. *)
Definition millions (amount : list N) : res value :=
  x ← float_of_digits amount;
  n ← int_of_float (PrimFloat.mul x 1000000);
  Ok (VInt n).

(** [_parse_price] of alonhadat, chotot, homedy and muaban. *)
Definition parse_price (text : string) : res value :=
  if String.eqb text "" then Ok VNone
  else
    let text := remove_char " " (replace_char "," "." (lower text)) in
    match re_search re_price (utf8_decode text) with
    | Some amount => millions amount
    | None => Ok VNone
    end.

(** [_parse_area], the same in the four adapters that have it. *)
Definition parse_area (text : string) : res value :=
  if String.eqb text "" then Ok VNone
  else
    match re_search re_area (utf8_decode text) with
    | Some amount =>
        x ← float_of_digits
              (map (fun cp => if (cp =? 0x2C)%N then 0x2E%N else cp) amount);
        n ← int_of_float x;
        Ok (VInt n)
    | None => Ok VNone
    end.

End Parsers.

Section Batdongsan.
Context {P : Platform}.

(** The interpreter's limit on the digits of [int(str)], and the text of
    the day [n] days before now,
    [(datetime.now() - timedelta(days=n)).strftime("%Y-%m-%d")], which
    raises when the day is out of range. *)
Context (max_str_digits : option nat).
Context (days_ago : Z -> res string).

(** The body of the [try] of batdongsan's [_parse_price]. *)
Definition parse_price_body (text : string) : res value :=
  match re_search re_price (utf8_decode text) with
  | Some amount => millions amount
  | None =>
      match re_search re_number (utf8_decode (remove_char "." text)) with
      | Some amount =>
          if (6 <? length amount)%nat
          then n ← int_of_digits max_str_digits amount; Ok (VInt n)
          else Ok VNone
      | None => Ok VNone
      end
  end.

(** batdongsan's [_parse_price]: [ValueError] and [TypeError] are caught. *)
Definition parse_price_batdongsan (text : string) : res value :=
  if String.eqb text "" then Ok VNone
  else
    let text := remove_char " " (replace_char "," "." (lower text)) in
    match parse_price_body text with
    | Raise ValueError | Raise TypeError => Ok VNone
    | outcome => outcome
    end.

(** [(\d{2})/(\d{2})/(\d{4})], giving the text
    [f"{group(3)}-{group(2)}-{group(1)}"]. *)
Definition re_dmy : matcher string :=
  m_bind (m_class is_decimal) (fun d1 =>
  m_bind (m_class is_decimal) (fun d2 =>
  m_bind (m_lit "/") (fun _ =>
  m_bind (m_class is_decimal) (fun m1 =>
  m_bind (m_class is_decimal) (fun m2 =>
  m_bind (m_lit "/") (fun _ =>
  m_bind (m_class is_decimal) (fun y1 =>
  m_bind (m_class is_decimal) (fun y2 =>
  m_bind (m_class is_decimal) (fun y3 =>
  m_bind (m_class is_decimal) (fun y4 =>
  m_ret (utf8_encode
           [y1; y2; y3; y4; 0x2D; m1; m2; 0x2D; d1; d2]%N))))))))))).

(** [(\d+)\s*ngày] and [(\d+)\s*tháng], giving group 1. *)
Definition re_count (unit_word : string) : matcher (list N) :=
  m_bind (m_plus is_decimal) (fun count =>
  m_bind (m_star is_space) (fun _ =>
  m_bind (m_text unit_word) (fun _ =>
  m_ret count))).

(** batdongsan's [_parse_date]: every exception of the [try] is caught. *)
Definition parse_date (text : string) : value :=
  if String.eqb text "" then VNone
  else
    let points := utf8_decode text in
    match re_search re_dmy points with
    | Some iso => VStr iso
    | None =>
        match re_search (re_count "ngày") points with
        | Some count =>
            match n ← int_of_digits max_str_digits count; days_ago n with
            | Ok day => VStr day
            | Raise _ => VNone
            end
        | None =>
            match re_search (re_count "tháng") points with
            | Some count =>
                match n ← int_of_digits max_str_digits count; days_ago (n * 30) with
                | Ok day => VStr day
                | Raise _ => VNone
                end
            | None => VNone
            end
        end
    end.

End Batdongsan.

(** ** Vocabulary of the statements *)

Section Vocabulary.
Context {P : Platform}.

(** Both coordinates pass the truth test of [deduplicate]'s guard. *)
Definition located (x : dict) : bool :=
  truthy (get x "lat") && truthy (get x "lng").

(** The distance [deduplicate] computes for an incoming [x] against an
    accepted [y]. *)
Definition distance (x y : dict) : res float :=
  haversine (get x "lat") (get x "lng") (get y "lat") (get y "lng").

Definition is_ok {A} (r : res A) : bool :=
  match r with
  | Ok _ => true
  | Raise _ => false
  end.

(** [x] passes the guard against [y] and lies less than 100 m from it. *)
Definition duplicate_of (x y : dict) : bool :=
  located x && located y &&
  match distance x y with
  | Ok d => PrimFloat.ltb d 0.1
  | Raise _ => false
  end.

(** Every distance the loops may ask for among the listings of [l] is
    computed without an exception. *)
Definition comparable (l : list dict) : bool :=
  forallb (fun x => forallb (fun y =>
    negb (located x && located y) || is_ok (distance x y)) l) l.

(** A coordinate that is a numeric zero. *)
Definition is_zero_number (v : value) : bool :=
  match v with
  | VInt z => z =? 0
  | VFloat f => PrimFloat.eqb f 0%float
  | _ => false
  end.

End Vocabulary.

(** What [isoformat] prints after the year, and the test that the
    expression's first match on it is the month and the day, to the end. *)
Definition month_day_text (m d : Z) : string :=
  String "-" (pad2 m (String "-" (pad2 d ""))).

Definition month_day_parsed {P : Platform} (m d : Z) : bool :=
  match re_month_day (utf8_decode (month_day_text m d)) with
  | ((m', d'), []) :: _ => (m' =? m) && (d' =? d)
  | _ => false
  end.

(** The months between the posting date and today, floored at zero: the
    value [calculate_months_on_market] returns for a date it can parse. *)
Definition months_between (today posted : date) : Z :=
  Z.max 0 ((year today - year posted) * 12 + (month today - month posted)).

(** [posted] is a later day than [today]. *)
Definition date_after (posted today : date) : Prop :=
  year today < year posted \/
  (year today = year posted /\
   (month today < month posted \/
    (month today = month posted /\ day today < day posted))).

(** The two derived fields of a listing, as functions of the raw record. *)
Definition derived_months {P : Platform} (today : date) (raw : dict) : value :=
  match get raw "monthsOnMarket" with
  | VNone =>
      match strptime_ymd (get raw "postingDate") with
      | Ok posted => VInt (months_between today posted)
      | Raise _ => VNone
      end
  | explicit => explicit
  end.

Definition derived_single_floor (raw : dict) : value :=
  match get raw "singleFloor" with
  | VNone =>
      if truthy (get raw "floors")
      then VBool (py_eq_int (get raw "floors") 1) else VNone
  | explicit => explicit
  end.

Definition is_str (v : value) : bool :=
  match v with
  | VStr _ => true
  | _ => false
  end.

Definition is_list (v : value) : bool :=
  match v with
  | VList _ => true
  | _ => false
  end.

Definition is_dict (v : value) : bool :=
  match v with
  | VDict _ => true
  | _ => false
  end.

(** The length of a string field, 0 for a value that is not a string. *)
Definition text_length (v : value) : nat :=
  match v with
  | VStr s => String.length s
  | _ => 0%nat
  end.

(** The first [n] bytes of a text: [s[:n]] for a text of ASCII
    characters. *)
Fixpoint take_chars (n : nat) (s : string) : string :=
  match n, s with
  | S n', String c r => String c (take_chars n' r)
  | _, _ => EmptyString
  end.

(** The listing [normalize_listing] builds, given the derived and the
    rounded values. *)
Definition listing_of {P : Platform} (today : date) (raw : dict) (source : string)
    (rlat rlng : value) : dict :=
  list_to_map
    [ ("name", get_or raw "name" (VStr "Unknown Office"));
      ("address", get_or raw "address" (VStr ""));
      ("lat", rlat);
      ("lng", rlng);
      ("grade", get_or raw "grade" (VStr ""));
      ("price", get raw "price");
      ("area", get raw "area");
      ("floors", get raw "floors");
      ("year", get raw "year");
      ("monthsOnMarket", derived_months today raw);
      ("singleFloor", derived_single_floor raw);
      ("source", VStr source);
      ("sourceUrl", get_or raw "sourceUrl" (VStr ""));
      ("scrapedAt", VStr (isoformat today)) ].

(** One of the two coordinates is a numeric zero. *)
Definition zero_coordinate (d : dict) : bool :=
  is_zero_number (get d "lat") || is_zero_number (get d "lng").

(** ** The site adapters: [_parse_listing] *)

(** What the selector queries of a [_parse_listing] find in one item of a
    result page: the text of the title element, the text of the whole
    item, the item's own [href], the [href] of the title element when it
    is a link, the [href] of the first link inside the item, and the texts
    of the price, area, address and date elements; [None] where the query
    finds no element. *)
Record card : Type := mkcard {
  title : option string;
  whole_text : string;
  own_href : string;
  title_href : option string;
  inner_href : option string;
  price_text : option string;
  area_text : option string;
  address_text : option string;
  date_text : option string
}.

(** [if link and not link.startswith("http"): link = BASE_URL + link]. *)
Definition absolute_link (base link : string) : string :=
  if negb (String.eqb link "") && negb (starts_with "http" link)
  then base +:+ link else link.

(** [parse(el.get_text(strip=True)) if el else None]. *)
Definition parse_if (parse : string -> res value) (text : option string) : res value :=
  match text with
  | Some t => parse t
  | None => Ok VNone
  end.

(** [link = item.get("href", "")], then the first inner link when that is
    empty. *)
Definition own_or_inner_link (item : card) : string :=
  if String.eqb (own_href item) "" then default EmptyString (inner_href item)
  else own_href item.

(** The record the adapters of alonhadat, homedy and muaban return, and
    their common end: the prices and areas are parsed before the test on
    the name and the address. *)
Definition site_record (name address link : string) (price area : value) : dict :=
  <["name" := VStr (first_chars 100 name)]>
  (<["address" := VStr address]>
  (<["price" := price]>
  (<["area" := area]>
  (<["sourceUrl" := VStr link]> ∅)))).

Section SiteListings.
Context {P : Platform}.

Definition finish_listing (item : card) (name link : string) : res (option dict) :=
  price ← parse_if parse_price (price_text item);
  area ← parse_if parse_area (area_text item);
  let address := default EmptyString (address_text item) in
  if String.eqb name "" && String.eqb address "" then Ok None
  else Ok (Some (site_record name address link price area)).

Definition parse_listing_alonhadat (item : card) : res (option dict) :=
  let name := default EmptyString (title item) in
  let link :=
    match inner_href item with
    | Some href => absolute_link "https://alonhadat.com.vn" href
    | None => EmptyString
    end in
  finish_listing item name link.

Definition parse_listing_homedy (item : card) : res (option dict) :=
  let name := default EmptyString (title item) in
  let link := default EmptyString (title_href item) in
  let link :=
    if String.eqb link "" then default EmptyString (inner_href item) else link in
  finish_listing item name (absolute_link "https://homedy.com" link).

Definition parse_listing_muaban (item : card) : res (option dict) :=
  let name := default EmptyString (title item) in
  finish_listing item name
    (absolute_link "https://muaban.net" (own_or_inner_link item)).

Section BatdongsanListing.
Context (max_str_digits : option nat).
Context (days_ago : Z -> res string).

Definition parse_listing_batdongsan (item : card) : res (option dict) :=
  let name := default EmptyString (title item) in
  let name := if String.eqb name "" then first_chars 80 (whole_text item) else name in
  let link := absolute_link "https://batdongsan.com.vn" (own_or_inner_link item) in
  price ← parse_if (parse_price_batdongsan max_str_digits) (price_text item);
  area ← parse_if parse_area (area_text item);
  let address := default EmptyString (address_text item) in
  let posting_date :=
    match date_text item with
    | Some t => parse_date max_str_digits days_ago t
    | None => VNone
    end in
  if String.eqb name "" && String.eqb address "" then Ok None
  else Ok (Some (<["postingDate" := posting_date]>
                   (site_record name address link price area))).

End BatdongsanListing.

(** chotot's [_parse_html_listing]: no area, and an empty address. *)
Definition parse_html_listing (item : card) : res (option dict) :=
  let name := default EmptyString (title item) in
  let link := absolute_link "https://www.chotot.com" (own_or_inner_link item) in
  price ← parse_if parse_price (price_text item);
  if String.eqb name "" then Ok None
  else Ok (Some (<["name" := VStr (first_chars 100 name)]>
                (<["address" := VStr ""]>
                (<["price" := price]>
                (<["sourceUrl" := VStr link]> ∅))))).

End SiteListings.

(** The loop over the items of a page: an item whose parsing raises, or
    gives nothing, is passed over. *)
Fixpoint collect_items (parse : card -> res (option dict)) (items : list card)
    (listings : list dict) : list dict :=
  match items with
  | [] => listings
  | item :: rest =>
      collect_items parse rest
        (match parse item with
         | Ok (Some listing) =>
             if dict_truthy listing then listings ++ [listing] else listings
         | _ => listings
         end)
  end.

(** ** Concrete records for the examples *)

Definition listing_at (lat lng : value) : dict :=
  <["lat" := lat]> (<["lng" := lng]> ∅).

(** Three offices in Da Nang on one meridian: [office_b] about 50 m and
    [office_c] about 150 m north of [office_a]. *)
Definition office_a : dict := listing_at (VFloat 16.0544) (VFloat 108.2022).
Definition office_b : dict := listing_at (VFloat 16.05485) (VFloat 108.2022).
Definition office_c : dict := listing_at (VFloat 16.05575) (VFloat 108.2022).

(** Points near the equator whose distances the sample platform computes
    as exactly 0.05 km and 0.15 km: [near_50] and [near_150] from
    [near_base], and [north_50] from [on_equator], whose latitude is 0. *)
Definition near_base : dict := listing_at (VFloat 0.0001) (VFloat 108.2022).
Definition near_50 : dict :=
  listing_at (VFloat 0.0005496608029593652) (VFloat 108.2022).
Definition near_150 : dict :=
  listing_at (VFloat 0.0014489824088780958) (VFloat 108.2022).
Definition on_equator : dict := listing_at (VInt 0) (VFloat 108.2022).
Definition north_50 : dict :=
  listing_at (VFloat 0.0004496608029593653) (VFloat 108.2022).

(** A geocoding service that finds nothing, and a day to run on. *)
Definition no_match : string -> geo_reply := fun _ => GeoNone.
Definition mid_july : date := mkdate 2024 7 15.

Definition raw_located : dict :=
  <["lat" := VFloat 16.0544]> (<["lng" := VFloat 108.2022]> ∅).

(** Raw records: coordinates out of any range; a posting date; a floor
    count of 0; a long name and a null address; coordinates as text; a
    zero latitude. *)
Definition raw_out_of_range : dict :=
  <["lat" := VInt 500]> (<["lng" := VInt 500]> ∅).
Definition raw_posted : dict :=
  <["postingDate" := VStr "2024-01-15"]> raw_located.
Definition raw_no_floor : dict := <["floors" := VInt 0]> raw_located.
Definition long_name : string :=
  "Van phong cho thue trung tam thanh pho Da Nang gan bien My Khe dien tich lon gia tot day du noi that cao cap".
Definition raw_long_name : dict :=
  <["name" := VStr long_name]> (<["address" := VNone]> raw_located).
Definition raw_cut_name : dict :=
  <["name" := VStr (take_chars 100 long_name)]>
    (<["address" := VStr "Hai Chau"]> raw_located).
Definition raw_text_coordinates : dict :=
  <["lat" := VStr "16.0544"]> (<["lng" := VStr "108.2022"]> ∅).
Definition raw_list_coordinates : dict :=
  <["lat" := VList [VFloat 16.0544]]> (<["lng" := VFloat 108.2022]> ∅).
Definition raw_zero_latitude : dict :=
  <["lat" := VInt 0]> (<["lng" := VFloat 108.2022]> ∅).
Definition raw_zero_with_address : dict :=
  <["address" := VStr "Hai Chau, 12 Bach Dang"]> raw_zero_latitude.

Definition raw_one_floor : dict := <["floors" := VInt 1]> raw_located.

(** The listing the sample platform builds from a raw record at the
    coordinates of [raw_located]. *)
Definition listed (raw : dict) (source : string) : dict :=
  listing_of (P := Sample.platform) mid_july raw source
    (VFloat (Sample.round_scaled 16.0544 7))
    (VFloat (Sample.round_scaled 108.2022 7)).

(** No listing of [l] is a duplicate of one that stands before it. *)
Definition separated {P : Platform} (l : list dict) : Prop :=
  forall i j y z, (i < j)%nat -> l !! i = Some z -> l !! j = Some y ->
    duplicate_of y z = false.

(** The fourteen fields of a listing. *)
Definition listing_fields : gset string :=
  list_to_set
    [ "name"; "address"; "lat"; "lng"; "grade"; "price"; "area"; "floors";
      "year"; "monthsOnMarket"; "singleFloor"; "source"; "sourceUrl";
      "scrapedAt" ]%string.

(** The list [merge_with_existing] hands to [deduplicate]. *)
Definition merge_input (st : store) (new_listings : list dict) : list dict :=
  match st with
  | File (Decoded (JArray existing)) => existing ++ new_listings
  | _ => new_listings
  end.

Section MainVocabulary.
Context {P : Platform}.
Context (nominatim : string -> geo_reply).
Context (today : date).
Context (scrape : string -> res (list dict)).

(** What a source adds to the batch: its normalized listings, or nothing
    when its [try] raises. *)
Definition contribution (source_name : string) : list dict :=
  match scrape_source nominatim today scrape source_name with
  | Ok normalized => normalized
  | Raise _ => []
  end.

(** The error a source adds, when its [try] raises. *)
Definition failure (source_name : string) : option (string * exn) :=
  match scrape_source nominatim today scrape source_name with
  | Ok _ => None
  | Raise e => Some (source_name, e)
  end.

End MainVocabulary.

(** A listing whose latitude is a text; a service that knows one place;
    a raw record with an address of two comma-delimited segments. *)
Definition text_listing : dict := listing_at (VStr "16.0544") (VFloat 108.2022).

Definition one_place : string -> geo_reply := fun query =>
  if String.eqb query "Hai Chau, Da Nang, Vietnam"
  then GeoFound 16.0544 108.2022 else GeoNone.

Definition raw_address : dict :=
  <["address" := VStr "Hai Chau, 12 Bach Dang"]> ∅.

(** What the sources return in the example run: two records from
    chotot.com, the second with coordinates as text; one record from
    homedy.com; an exception from dothi.net; nothing from the others. *)
Definition sample_scrape : string -> res (list dict) := fun source =>
  if String.eqb source "chotot.com" then Ok [raw_located; raw_text_coordinates]
  else if String.eqb source "homedy.com" then Ok [raw_one_floor]
  else if String.eqb source "dothi.net" then Raise OSError
  else Ok [].

Definition no_records : string -> res (list dict) := fun _ => Ok [].

(** Tests on the outcome of a parser, and the texts of prices and areas
    the statements range over. *)
Definition is_int (r : res value) (n : Z) : bool :=
  match r with
  | Ok (VInt z) => z =? n
  | _ => false
  end.

Definition is_int_within (r : res value) (lo hi : Z) : bool :=
  match r with
  | Ok (VInt z) => (lo <=? z) && (z <=? hi)
  | _ => false
  end.

(** The text [DD/MM/YYYY] of a date, with what follows it; a text without
    the letter [t] in either case; bytes, and code points, without the
    letter [t]. *)
Definition dmy_text (d : date) (rest : string) : string :=
  pad2 (day d) (String "/" (pad2 (month d) (String "/" (pad4 (year d) rest)))).

Definition no_unit (s : string) : bool :=
  forallb (fun c => negb (Ascii.eqb (lower_char c) "t")) (list_ascii_of_string s).

Definition no_t_byte (s : string) : bool :=
  forallb (fun c => negb (Ascii.eqb c "t")) (list_ascii_of_string s).

Definition no_t (l : list N) : bool :=
  forallb (fun cp => negb (cp =? 0x74)%N) l.

Section ParserTests.
Context {P : Platform}.

Definition whole_price_read (limit : option nat) (n : Z) : bool :=
  is_int (parse_price (pretty n +:+ " triệu/tháng")) (n * 1000000) &&
  is_int (parse_price (pretty n +:+ "tr")) (n * 1000000) &&
  is_int (parse_price_batdongsan limit (pretty n +:+ " triệu/tháng")) (n * 1000000).

Definition decimal_price_read (n d : Z) : bool :=
  is_int_within (parse_price (pretty n +:+ "," +:+ pretty d +:+ " triệu"))
    (n * 1000000 + d * 100000 - 1) (n * 1000000 + d * 100000).

Definition area_read (n : Z) : bool :=
  is_int (parse_area (pretty n +:+ " m²")) n &&
  is_int (parse_area (pretty n +:+ "m2")) n &&
  forallb (fun d => is_int (parse_area (pretty n +:+ "," +:+ pretty d +:+ " m2")) n)
    (map Z.of_nat (seq 0 10)).

(** A text without a decimal digit of any script. *)
Definition no_digit (s : string) : bool :=
  forallb (fun cp => negb (is_decimal cp)) (utf8_decode s).

(** The test that the patterns of [_parse_date] read the count of
    ["<n> ngày trước"] and of ["<n> tháng trước"]. *)
Definition count_read (n : Z) : bool :=
  let days := utf8_decode (pretty n +:+ " ngày trước") in
  let months := utf8_decode (pretty n +:+ " tháng trước") in
  match re_search re_dmy days, re_search (re_count "ngày") days,
        re_search re_dmy months, re_search (re_count "ngày") months,
        re_search (re_count "tháng") months with
  | None, Some c1, None, None, Some c2 =>
      match int_of_digits (Some 3%nat) c1, int_of_digits (Some 3%nat) c2 with
      | Ok k1, Ok k2 => (k1 =? n)%Z && (k2 =? n)%Z
      | _, _ => false
      end
  | _, _, _, _, _ => false
  end.

End ParserTests.

(** The five adapters that read the items of a result page, and the
    method each applies to an item: [_parse_listing], and
    [_parse_html_listing] for chotot. *)
Inductive site : Set := Alonhadat | Batdongsan | Chotot | Homedy | Muaban.

Section Sites.
Context {P : Platform}.
Context (max_str_digits : option nat).
Context (days_ago : Z -> res string).

Definition parse_listing (s : site) : card -> res (option dict) :=
  match s with
  | Alonhadat => parse_listing_alonhadat
  | Batdongsan => parse_listing_batdongsan max_str_digits days_ago
  | Chotot => parse_html_listing
  | Homedy => parse_listing_homedy
  | Muaban => parse_listing_muaban
  end.

End Sites.

(** What the loop over the items appends for one item. *)
Definition item_listing (parse : card -> res (option dict)) (item : card) : option dict :=
  match parse item with
  | Ok (Some listing) => if dict_truthy listing then Some listing else None
  | _ => None
  end.

(** An empty link or one that starts with [http]. *)
Definition is_link (link : string) : bool :=
  String.eqb link "" || starts_with "http" link.

Definition none_or_int (v : value) : bool :=
  match v with
  | VNone | VInt _ => true
  | _ => false
  end.

Definition none_or_str (v : value) : bool :=
  match v with
  | VNone | VStr _ => true
  | _ => false
  end.

(** The shape of a record an adapter returns for an item. *)
Record site_record_shape (r : dict) : Prop := {
  shape_lat : r !! "lat" = None;
  shape_lng : r !! "lng" = None;
  shape_months : r !! "monthsOnMarket" = None;
  shape_name : exists name, r !! "name" = Some (VStr name) /\
                 (char_count name <= 100)%nat;
  shape_address : exists address, r !! "address" = Some (VStr address);
  shape_named : truthy (get r "name") || truthy (get r "address") = true;
  shape_link : exists link, r !! "sourceUrl" = Some (VStr link) /\ is_link link = true;
  shape_price : none_or_int (get r "price") = true;
  shape_area : none_or_int (get r "area") = true;
  shape_date : none_or_str (get r "postingDate") = true
}.

(** An item of a result page, the record homedy's adapter returns for it,
    an item whose price cannot be converted, and the days before
    [mid_july] that the examples ask for. *)
Definition sample_card : card :=
  {| title := Some "Van phong Hai Chau";
     whole_text := "Van phong Hai Chau 15 triệu/tháng 45,5 m² 05/03/2024";
     own_href := "";
     title_href := Some "/van-phong-hai-chau-1";
     inner_href := Some "/van-phong-hai-chau-1";
     price_text := Some "15 triệu/tháng";
     area_text := Some "45,5 m²";
     address_text := Some "Hai Chau, 12 Bach Dang";
     date_text := Some "05/03/2024" |}.

Definition sample_record : dict :=
  site_record "Van phong Hai Chau" "Hai Chau, 12 Bach Dang"
    "https://homedy.com/van-phong-hai-chau-1" (VInt 15000000) (VInt 45).

Definition bad_card : card :=
  {| title := Some "Van phong Son Tra";
     whole_text := "Van phong Son Tra 1.2.3 tr";
     own_href := "";
     title_href := None;
     inner_href := None;
     price_text := Some "1.2.3 tr";
     area_text := None;
     address_text := None;
     date_text := None |}.

Definition sample_days_ago : Z -> res string := fun n =>
  if n =? 3 then Ok "2024-07-12"%string
  else if n =? 90 then Ok "2024-04-16"%string
  else Raise OverflowError.

Definition homedy_scrape : string -> res (list dict) := fun _ =>
  Ok (collect_items (parse_listing (P := Sample.platform) None sample_days_ago Homedy)
        [sample_card; bad_card] []).

Definition html_scrape : string -> res (list dict) := fun _ =>
  Ok (collect_items (parse_html_listing (P := Sample.platform))
        [sample_card; bad_card] []).

(** * Properties *)

(** ** The [res] monad *)

Lemma res_bind_ok {A B} (f : A -> res B) (a : A) : Ok a ≫= f = f a.
Proof. reflexivity. Qed.

Lemma res_bind_raise {A B} (f : A -> res B) (e : exn) : Raise e ≫= f = Raise e.
Proof. reflexivity. Qed.

Lemma res_bind_inv {A B} (f : A -> res B) (m : res A) (b : B) :
  m ≫= f = Ok b -> exists a, m = Ok a /\ f a = Ok b.
Proof.
  destruct m as [a|e]; cbn; intros H.
  - exists a. split; [reflexivity | exact H].
  - discriminate H.
Qed.

Lemma res_bind_assoc {A B C} (m : res A) (f : A -> res B) (g : B -> res C) :
  (m ≫= f) ≫= g = m ≫= (fun a => f a ≫= g).
Proof. destruct m; reflexivity. Qed.

(** ** The two loops of [deduplicate] *)

Section DedupFacts.
Context {P : Platform}.

Lemma scan_unique_app (x : dict) (u v : list dict) :
  scan_unique x (u ++ v) =
  scan_unique x u ≫= (fun b : bool => if b then Ok true else scan_unique x v).
Proof.
  induction u as [|y u IH]; cbn.
  - reflexivity.
  - destruct (is_dup_of x y) as [[|]|e]; cbn; [reflexivity | exact IH | reflexivity].
Qed.

(** The scan answers [false] exactly when every comparison does. *)
Lemma scan_unique_false (x : dict) (u : list dict) :
  scan_unique x u = Ok false <-> Forall (fun y => is_dup_of x y = Ok false) u.
Proof.
  induction u as [|y u IH]; cbn.
  - split; [constructor | reflexivity].
  - split.
    + destruct (is_dup_of x y) as [[|]|e] eqn:E; cbn; try discriminate.
      intros H. constructor; [exact E | now apply IH].
    + intros H. inversion H as [|? ? Hy Hu]; subst.
      rewrite Hy. cbn. now apply IH.
Qed.

(** The scan answers [true] exactly when it reaches an accepted listing
    whose comparison does, every comparison before it answering [false]. *)
Lemma scan_unique_true (x : dict) (u : list dict) :
  scan_unique x u = Ok true <->
  exists u1 y u2, u = u1 ++ y :: u2 /\
    Forall (fun z => is_dup_of x z = Ok false) u1 /\ is_dup_of x y = Ok true.
Proof.
  induction u as [|y u IH]; cbn.
  - split; [discriminate |].
    intros (u1 & z & u2 & E & _). destruct u1; discriminate E.
  - split.
    + destruct (is_dup_of x y) as [[|]|e] eqn:E; cbn; try discriminate.
      * intros _. exists [], y, u. repeat split; [constructor | exact E].
      * intros H. apply IH in H as (u1 & z & u2 & -> & Hu1 & Hz).
        exists (y :: u1), z, u2. repeat split; [constructor; assumption | exact Hz].
    + intros (u1 & z & u2 & E & Hu1 & Hz).
      destruct u1 as [|y' u1]; cbn in E; injection E as -> ->.
      * rewrite Hz. reflexivity.
      * inversion Hu1 as [|? ? Hy Hu]; subst. rewrite Hy. cbn.
        apply IH. exists u1, z, u2. repeat split; assumption.
Qed.

Lemma dedup_loop_app (l1 l2 u : list dict) :
  dedup_loop (l1 ++ l2) u = dedup_loop l1 u ≫= dedup_loop l2.
Proof.
  revert u. induction l1 as [|x l1 IH]; intros u; cbn.
  - reflexivity.
  - destruct (scan_unique x u) as [b|e]; cbn; [apply IH | reflexivity].
Qed.

(** One more listing at the end of the input. *)
Lemma deduplicate_snoc (l : list dict) (x : dict) :
  deduplicate (l ++ [x]) =
  deduplicate l ≫= (fun u =>
    scan_unique x u ≫= (fun b : bool => Ok (if b then u else u ++ [x]))).
Proof.
  unfold deduplicate. rewrite dedup_loop_app.
  destruct (dedup_loop l []) as [u|e]; cbn; [| reflexivity].
  destruct (scan_unique x u) as [b|e]; reflexivity.
Qed.

(** The loop only appends: the result extends [unique] by a subsequence
    of the input. *)
Lemma dedup_loop_extends (l u r : list dict) :
  dedup_loop l u = Ok r -> exists w, r = u ++ w /\ sublist w l.
Proof.
  revert u. induction l as [|x l IH]; intros u; cbn.
  - intros [= <-]. exists []. split; [now rewrite app_nil_r | constructor].
  - intros H. apply res_bind_inv in H as (b & Hb & H).
    apply IH in H as (w & -> & Hw). destruct b.
    + exists w. split; [reflexivity | now apply sublist_cons].
    + exists (x :: w). split; [now rewrite <- app_assoc | now apply sublist_skip].
Qed.

End DedupFacts.

(** ** The comparison of two listings *)

Section CompareFacts.
Context {P : Platform}.

Lemma subscript_truthy (d : dict) (k : string) :
  truthy (get d k) = true -> subscript d k = Ok (get d k).
Proof.
  unfold get, subscript. destruct (d !! k) as [v|]; cbn; [reflexivity | discriminate].
Qed.

(** The comparison, with the subscripts resolved. *)
Lemma is_dup_of_distance (x y : dict) :
  is_dup_of x y =
  if located x && located y
  then distance x y ≫= (fun d => Ok (PrimFloat.ltb d 0.1))
  else Ok false.
Proof.
  unfold is_dup_of, located, distance.
  rewrite <- !andb_assoc.
  destruct (truthy (get x "lat")) eqn:E1; cbn [andb]; [| reflexivity].
  destruct (truthy (get x "lng")) eqn:E2; cbn [andb]; [| reflexivity].
  destruct (truthy (get y "lat")) eqn:E3; cbn [andb]; [| reflexivity].
  destruct (truthy (get y "lng")) eqn:E4; cbn [andb]; [| reflexivity].
  rewrite !subscript_truthy by assumption. reflexivity.
Qed.

Lemma is_dup_of_true (x y : dict) :
  is_dup_of x y = Ok true <-> duplicate_of x y = true.
Proof.
  rewrite is_dup_of_distance. unfold duplicate_of.
  destruct (located x && located y); cbn; [| split; discriminate].
  destruct (distance x y) as [d|e]; cbn; [| split; discriminate].
  split; [now intros [= ->] | now intros ->].
Qed.

(** Where the distance is computed, the comparison is the predicate. *)
Lemma is_dup_of_comparable (x y : dict) :
  negb (located x && located y) || is_ok (distance x y) = true ->
  is_dup_of x y = Ok (duplicate_of x y).
Proof.
  rewrite is_dup_of_distance. unfold duplicate_of.
  destruct (located x && located y); cbn; [| reflexivity].
  destruct (distance x y); cbn; [reflexivity | discriminate].
Qed.

Lemma comparable_elem (l : list dict) (x y : dict) :
  comparable l = true -> x ∈ l -> y ∈ l ->
  is_dup_of x y = Ok (duplicate_of x y).
Proof.
  unfold comparable. rewrite forallb_forall. intros H Hx Hy.
  apply is_dup_of_comparable.
  apply list_elem_of_In in Hx, Hy.
  specialize (H x Hx). rewrite forallb_forall in H. exact (H y Hy).
Qed.

Lemma comparable_sublist (l l' : list dict) :
  comparable l = true -> l' ⊆ l -> comparable l' = true.
Proof.
  unfold comparable. rewrite !forallb_forall. intros H Hsub x Hx.
  rewrite forallb_forall. intros y Hy.
  apply list_elem_of_In, Hsub, list_elem_of_In in Hx.
  apply list_elem_of_In, Hsub, list_elem_of_In in Hy.
  specialize (H x Hx). rewrite forallb_forall in H. exact (H y Hy).
Qed.

(** Among comparable listings the scan is [existsb]. *)
Lemma scan_unique_comparable (l u : list dict) (x : dict) :
  comparable l = true -> x ∈ l -> u ⊆ l ->
  scan_unique x u = Ok (existsb (duplicate_of x) u).
Proof.
  intros Hl Hx. induction u as [|y u IH]; intros Hu; cbn.
  - reflexivity.
  - rewrite (comparable_elem l x y Hl Hx) by (apply Hu; left).
    cbn. destruct (duplicate_of x y); cbn; [reflexivity |].
    apply IH. intros z Hz. apply Hu. now right.
Qed.

End CompareFacts.

(** ** First seen wins *)

Section DedupTheorems.
Context {P : Platform}.

(** Among comparable listings both loops return. *)
Lemma dedup_loop_total (L l u : list dict) :
  comparable L = true -> l ⊆ L -> u ⊆ L ->
  exists r, dedup_loop l u = Ok r /\ r ⊆ L.
Proof.
  intros HL. revert u. induction l as [|x l IH]; intros u Hl Hu; cbn.
  - exists u. split; [reflexivity | exact Hu].
  - rewrite (scan_unique_comparable L u x HL) by (try apply Hl; try exact Hu; left).
    cbn. apply IH.
    + intros z Hz. apply Hl. now right.
    + destruct (existsb (duplicate_of x) u); [exact Hu |].
      intros z Hz. apply elem_of_app in Hz as [Hz|Hz]; [now apply Hu |].
      apply list_elem_of_singleton in Hz as ->. apply Hl. left.
Qed.

Lemma deduplicate_total (l : list dict) :
  comparable l = true -> exists r, deduplicate l = Ok r /\ r ⊆ l.
Proof.
  intros H. apply (dedup_loop_total l l [] H); [reflexivity |].
  intros z Hz. inversion Hz.
Qed.

Lemma deduplicate_sublist (l r : list dict) :
  deduplicate l = Ok r -> sublist r l.
Proof.
  intros H. apply dedup_loop_extends in H as (w & -> & Hw). exact Hw.
Qed.

(** What was accepted stays accepted, at its place. *)
Lemma deduplicate_prefix (l l' v : list dict) :
  deduplicate (l ++ l') = Ok v ->
  exists u, deduplicate l = Ok u /\ u `prefix_of` v.
Proof.
  unfold deduplicate. rewrite dedup_loop_app. intros H.
  apply res_bind_inv in H as (u & Hu & H).
  exists u. split; [exact Hu |].
  apply dedup_loop_extends in H as (w & -> & _). now exists w.
Qed.

Lemma deduplicate_head (x : dict) (l v : list dict) :
  deduplicate (x :: l) = Ok v -> exists v', v = x :: v'.
Proof.
  intros H. apply (deduplicate_prefix [x] l v) in H as (u & Hu & [w ->]).
  cbn in Hu. injection Hu as <-. now exists w.
Qed.

Lemma deduplicate_pair (a b : dict) :
  deduplicate [a; b] =
  is_dup_of b a ≫= (fun dup : bool => Ok (if dup then [a] else [a; b])).
Proof.
  cbn. destruct (is_dup_of b a) as [[|]|e]; reflexivity.
Qed.

Lemma merge_loaded (existing new_listings : list dict) :
  merge_with_existing (File (Decoded (JArray existing))) new_listings =
  deduplicate (existing ++ new_listings).
Proof. reflexivity. Qed.

(** C3 (amended).  Deduplication keeps the first seen.  For listings whose
    distances are computed: the listings before [x] give an accepted list
    [u], a subsequence of the input, and [x] is dropped when it is a
    duplicate of a member of [u] (both with non-zero coordinates, less than
    100 m apart) and appended to [u] otherwise; whatever follows, the list
    accepted so far stays a prefix of the result, and the first listing of
    the input heads it.  For [a] and [b] that are duplicates of each other,
    merging [b] into a store holding [a] keeps [a] alone, and merging [a]
    into a store holding [b] keeps [b] alone. *)
Theorem first_seen_wins (l : list dict) (x a b : dict) :
  comparable (l ++ [x]) = true ->
  duplicate_of b a = true ->
  duplicate_of a b = true ->
  (exists u, deduplicate l = Ok u /\ sublist u l /\
     deduplicate (l ++ [x]) =
       Ok (if existsb (duplicate_of x) u then u else u ++ [x])) /\
  (forall l' v, deduplicate (l ++ l') = Ok v ->
     exists u, deduplicate l = Ok u /\ u `prefix_of` v) /\
  (forall y l' v, deduplicate (y :: l') = Ok v -> exists v', v = y :: v') /\
  merge_with_existing (File (Decoded (JArray [a]))) [b] = Ok [a] /\
  merge_with_existing (File (Decoded (JArray [b]))) [a] = Ok [b].
Proof.
  intros Hc Hba Hab. repeat split.
  - assert (Hl : comparable l = true).
    { apply (comparable_sublist (l ++ [x])); [exact Hc |].
      intros z Hz. apply elem_of_app. now left. }
    destruct (deduplicate_total l Hl) as (u & Hu & Hsub).
    exists u. split; [exact Hu |]. split; [now apply deduplicate_sublist |].
    rewrite deduplicate_snoc, Hu. cbn.
    rewrite (scan_unique_comparable (l ++ [x]) u x Hc).
    + reflexivity.
    + apply elem_of_app. right. left.
    + intros z Hz. apply elem_of_app. left. now apply Hsub.
  - intros l' v. apply deduplicate_prefix.
  - intros y l' v. apply deduplicate_head.
  - rewrite merge_loaded. cbn [app]. rewrite deduplicate_pair.
    apply is_dup_of_true in Hba. now rewrite Hba.
  - rewrite merge_loaded. cbn [app]. rewrite deduplicate_pair.
    apply is_dup_of_true in Hab. now rewrite Hab.
Qed.

(** C4 (amended).  The duplicate test is the computed great-circle distance
    against 0.1 km, for listings with non-zero coordinates: two such
    listings are merged into one when the distance is below the threshold
    and kept apart otherwise, so kept apart at 0.15 km and merged at
    0.05 km; and the scan classifies [x] as a duplicate exactly when some
    accepted listing with non-zero coordinates lies less than 0.1 km from
    [x], itself with non-zero coordinates. *)
Theorem proximity_threshold (a b x : dict) (d : float) (u : list dict) :
  located a = true ->
  located b = true ->
  distance b a = Ok d ->
  comparable (x :: u) = true ->
  deduplicate [a; b] = Ok (if PrimFloat.ltb d 0.1 then [a] else [a; b]) /\
  (d = 0.15%float -> deduplicate [a; b] = Ok [a; b]) /\
  (d = 0.05%float -> deduplicate [a; b] = Ok [a]) /\
  (scan_unique x u = Ok true <->
   exists y d', y ∈ u /\ located x = true /\ located y = true /\
     distance x y = Ok d' /\ PrimFloat.ltb d' 0.1 = true).
Proof.
  intros Ha Hb Hd Hc.
  assert (E : deduplicate [a; b] = Ok (if PrimFloat.ltb d 0.1 then [a] else [a; b])).
  { rewrite deduplicate_pair, is_dup_of_distance, Hb, Ha, Hd. reflexivity. }
  split; [exact E |]. split; [| split].
  - intros ->. exact E.
  - intros ->. exact E.
  - rewrite (scan_unique_comparable (x :: u) u x Hc);
      [| left | intros z Hz; now right].
    split.
    + intros [= H]. apply existsb_exists in H as (y & Hy & H).
      unfold duplicate_of in H.
      apply andb_prop in H as [H H3]. apply andb_prop in H as [H1 H2].
      destruct (distance x y) as [d'|e] eqn:Ed; [| discriminate].
      exists y, d'. repeat split; try assumption. now apply list_elem_of_In.
    + intros (y & d' & Hy & H1 & H2 & Ed & H3). f_equal.
      apply existsb_exists. exists y. split; [now apply list_elem_of_In |].
      unfold duplicate_of. now rewrite H1, H2, Ed.
Qed.

End DedupTheorems.

(** ** Merging a collection with itself *)

Section Remerge.
Context {P : Platform}.

(** After the loop, every listing of the input that is a duplicate of
    itself is found in the accepted list. *)
Lemma dedup_loop_rescan (l u r : list dict) :
  Forall (fun x => duplicate_of x x = true) l ->
  dedup_loop l u = Ok r ->
  Forall (fun x => scan_unique x r = Ok true) l.
Proof.
  intros Hself. revert u. induction Hself as [|x l Hx Hl IH]; intros u H.
  - constructor.
  - cbn in H. apply res_bind_inv in H as (b & Hb & H).
    constructor; [| exact (IH _ H)].
    apply dedup_loop_extends in H as (w & -> & _).
    rewrite scan_unique_app. destruct b.
    + now rewrite Hb.
    + rewrite scan_unique_app, Hb. cbn.
      apply is_dup_of_true in Hx. now rewrite Hx.
Qed.

(** A list in which every input listing finds a duplicate is left as it
    is by the loop. *)
Lemma dedup_loop_fixed (l r : list dict) :
  Forall (fun x => scan_unique x r = Ok true) l ->
  dedup_loop l r = Ok r.
Proof.
  induction 1 as [|x l Hx Hl IH]; cbn; [reflexivity |].
  rewrite Hx. exact IH.
Qed.

(** C2 (amended).  For every sequence of listings each of which is a
    duplicate of itself (non-zero coordinates, at a computed distance
    below 100 m from themselves), merging the sequence into a store that
    holds it gives what deduplicating the sequence gives. *)
Theorem remerge_idempotent (l : list dict) :
  Forall (fun x => duplicate_of x x = true) l ->
  merge_with_existing (File (Decoded (JArray l))) l = deduplicate l.
Proof.
  intros Hself. rewrite merge_loaded. unfold deduplicate.
  rewrite dedup_loop_app.
  destruct (dedup_loop l []) as [r|e] eqn:E; cbn; [| reflexivity].
  apply dedup_loop_fixed. exact (dedup_loop_rescan l [] r Hself E).
Qed.

End Remerge.

(** ** Zero coordinates in [deduplicate] *)

Section ZeroCoordinates.
Context {P : Platform}.

Lemma truthy_zero_number (v : value) :
  is_zero_number v = true -> truthy v = false.
Proof.
  destruct v as [|b|z|f|s|l|d]; cbn; try discriminate; now intros ->.
Qed.

Lemma not_located_never_duplicate (x y : dict) :
  located x = false -> is_dup_of x y = Ok false /\ is_dup_of y x = Ok false.
Proof.
  intros H. rewrite !is_dup_of_distance, H, andb_false_r. split; reflexivity.
Qed.

Lemma not_located_scan (x : dict) (u : list dict) :
  located x = false -> scan_unique x u = Ok false.
Proof.
  intros H. apply scan_unique_false, Forall_forall. intros y _.
  exact (proj1 (not_located_never_duplicate x y H)).
Qed.

Lemma dedup_loop_retains (x : dict) (l u r : list dict) :
  located x = false ->
  dedup_loop l u = Ok r ->
  x ∈ l \/ x ∈ u -> x ∈ r.
Proof.
  intros Hx. revert u. induction l as [|y l IH]; intros u H Hin; cbn in H.
  - injection H as <-. destruct Hin as [Hin|Hin]; [inversion Hin | exact Hin].
  - apply res_bind_inv in H as (b & Hb & H).
    apply (IH _ H). destruct Hin as [Hin|Hin].
    + apply elem_of_cons in Hin as [->|Hin]; [| now left].
      rewrite (not_located_scan _ u Hx) in Hb. injection Hb as <-.
      right. apply elem_of_app. right. left.
    + right. destruct b; [exact Hin | apply elem_of_app; now left].
Qed.

End ZeroCoordinates.

(** ** Parsing what [isoformat] prints *)

Lemma range_elem (lo n : nat) (k : Z) :
  Z.of_nat lo <= k < Z.of_nat (lo + n) -> In k (map Z.of_nat (seq lo n)).
Proof.
  intros H. apply in_map_iff. exists (Z.to_nat k). split; [lia |].
  apply in_seq. lia.
Qed.

Lemma digit_char_code (n : Z) :
  0 <= n <= 9 -> N_of_ascii (digit_char n) = Z.to_N (48 + n).
Proof.
  intros H.
  assert (A : forallb (fun k => (N_of_ascii (digit_char k) =? Z.to_N (48 + k))%N)
                (map Z.of_nat (seq 0 10)) = true) by reflexivity.
  rewrite forallb_forall in A.
  apply N.eqb_eq, A, (range_elem 0 10). lia.
Qed.

(** A byte below 128 is a character of its own. *)
Lemma decode_ascii (c : ascii) (r : string) :
  (N_of_ascii c <? 0x80)%N = true ->
  utf8_decode (String c r) = N_of_ascii c :: utf8_decode r.
Proof.
  intros H. unfold utf8_decode. cbn [utf8_decode_from]. unfold utf8_head.
  now rewrite H.
Qed.

Lemma decode_digit_char (n : Z) (r : string) :
  0 <= n <= 9 ->
  utf8_decode (String (digit_char n) r) = Z.to_N (48 + n) :: utf8_decode r.
Proof.
  intros H. rewrite decode_ascii; rewrite (digit_char_code n H); [reflexivity |].
  apply N.ltb_lt. lia.
Qed.

Lemma digit_val_code (n : Z) : 0 <= n -> digit_val (Z.to_N (48 + n)) = n.
Proof. intros H. unfold digit_val. lia. Qed.

Lemma m_digit_code (lo hi n : Z) (r : list N) :
  0 <= n <= 9 -> lo <= n <= hi ->
  m_digit lo hi (Z.to_N (48 + n) :: r) = [(n, r)].
Proof.
  intros H09 Hn. unfold m_digit. rewrite (digit_val_code n) by lia.
  destruct (Z.leb_spec lo n); [| lia].
  destruct (Z.leb_spec n hi); [| lia]. reflexivity.
Qed.

Section IsoFacts.
Context {P : Platform}.

Lemma decimal_code (n : Z) : 0 <= n <= 9 -> decimal (Z.to_N (48 + n)) = Some n.
Proof.
  intros H. unfold decimal.
  destruct (N.leb_spec 0x30 (Z.to_N (48 + n))); [| lia].
  destruct (N.leb_spec (Z.to_N (48 + n)) 0x39); [| lia].
  cbn [andb]. f_equal. lia.
Qed.

Lemma m_decimal_code (n : Z) (r : list N) :
  0 <= n <= 9 -> m_decimal (Z.to_N (48 + n) :: r) = [(n, r)].
Proof. intros H. unfold m_decimal. now rewrite (decimal_code n H). Qed.

Lemma re_year_pad4 (y : Z) (r : string) :
  0 <= y <= 9999 -> re_year (utf8_decode (pad4 y r)) = [(y, utf8_decode r)].
Proof.
  intros Hy.
  assert (H3 : 0 <= y / 1000 <= 9) by (Z.div_mod_to_equations; lia).
  assert (H2 : 0 <= y / 100 mod 10 <= 9) by (Z.div_mod_to_equations; lia).
  assert (H1 : 0 <= y / 10 mod 10 <= 9) by (Z.div_mod_to_equations; lia).
  assert (H0 : 0 <= y mod 10 <= 9) by (Z.div_mod_to_equations; lia).
  unfold re_year, pad4, m_bind, m_ret.
  rewrite (decode_digit_char _ _ H3), (decode_digit_char _ _ H2),
    (decode_digit_char _ _ H1), (decode_digit_char _ _ H0).
  rewrite (m_decimal_code _ _ H3). cbn [flat_map fst snd].
  rewrite (m_decimal_code _ _ H2). cbn [flat_map fst snd].
  rewrite (m_decimal_code _ _ H1). cbn [flat_map fst snd].
  rewrite (m_decimal_code _ _ H0). cbn [flat_map fst snd app].
  do 2 f_equal. clear H3 H2 H1 H0. Z.div_mod_to_equations. lia.
Qed.

Lemma month_day_parsed_all :
  forallb (fun m => forallb (month_day_parsed m) (map Z.of_nat (seq 1 31)))
          (map Z.of_nat (seq 1 12)) = true.
Proof. vm_compute. reflexivity. Qed.

Lemma re_month_day_iso (m d : Z) :
  1 <= m <= 12 -> 1 <= d <= 31 ->
  exists more,
    re_month_day (utf8_decode (month_day_text m d)) = ((m, d), []) :: more.
Proof.
  intros Hm Hd. pose proof month_day_parsed_all as H.
  rewrite forallb_forall in H. specialize (H m (range_elem 1 12 m ltac:(lia))).
  rewrite forallb_forall in H. specialize (H d (range_elem 1 31 d ltac:(lia))).
  unfold month_day_parsed in H.
  destruct (re_month_day (utf8_decode (month_day_text m d)))
    as [|[[m' d'] [|cp rest]] more]; try discriminate.
  apply andb_prop in H as [Hm' Hd'].
  apply Z.eqb_eq in Hm', Hd'. subst.
  now exists more.
Qed.

End IsoFacts.

Lemma days_in_month_le (y m : Z) : days_in_month y m <= 31.
Proof.
  unfold days_in_month.
  repeat match goal with
         | |- context [match ?x with _ => _ end] => destruct x
         end; lia.
Qed.

Lemma valid_date_bounds (d : date) :
  valid_date d = true ->
  1 <= year d <= 9999 /\ 1 <= month d <= 12 /\ 1 <= day d <= 31.
Proof.
  unfold valid_date. intros H. pose proof (days_in_month_le (year d) (month d)).
  repeat (apply andb_prop in H as [H ?]). lia.
Qed.

Section StrptimeFacts.
Context {P : Platform}.

(** [strptime] reads back every date that [isoformat] prints. *)
Lemma strptime_isoformat (d : date) :
  valid_date d = true -> strptime_ymd (VStr (isoformat d)) = Ok d.
Proof.
  intros Hv. destruct (valid_date_bounds d Hv) as (Hy & Hm & Hd).
  destruct (re_month_day_iso (month d) (day d) Hm Hd) as (more & E).
  unfold strptime_ymd, isoformat, re_ymd, m_bind.
  rewrite re_year_pad4 by lia. cbn [flat_map fst snd].
  fold (month_day_text (month d) (day d)). rewrite E.
  cbn [flat_map fst snd app m_ret]. destruct d as [y m dd]. cbn [year month day] in *.
  cbn [andb]. rewrite Hv. reflexivity.
Qed.

(** [strptime] raises nothing but [ValueError] and [TypeError]. *)
Lemma strptime_raises (v : value) (e : exn) :
  strptime_ymd v = Raise e -> e = ValueError \/ e = TypeError.
Proof.
  unfold strptime_ymd.
  destruct v as [| | | |s| |]; try (intros [= <-]; now right).
  destruct (re_ymd (utf8_decode s)) as [|[d rest] more]; [intros [= <-]; now left |].
  destruct (match rest with [] => true | _ => false end && valid_date d);
    [discriminate |].
  intros [= <-]. now left.
Qed.

End StrptimeFacts.

Section MonthsFacts.
Context {P : Platform}.
Context (today : date).

(** The [try] of [calculate_months_on_market] catches what [strptime]
    raises: a date that parses gives the month count, anything else
    [None]. *)
Lemma calculate_months_spec (v : value) :
  calculate_months_on_market today v =
  Ok (match strptime_ymd v with
      | Ok posted => VInt (months_between today posted)
      | Raise _ => VNone
      end).
Proof.
  unfold calculate_months_on_market.
  destruct (truthy v) eqn:Et; cbn [negb].
  - destruct (strptime_ymd v) as [posted|e] eqn:E; [reflexivity |].
    destruct (strptime_raises v e E) as [-> | ->]; reflexivity.
  - destruct v as [|b|z|f|s|l|d]; cbn in Et |- *; try reflexivity.
    destruct s; [reflexivity | discriminate].
Qed.

Lemma months_between_after (posted : date) :
  valid_date today = true -> valid_date posted = true ->
  date_after posted today -> months_between today posted = 0.
Proof.
  intros Ht Hp Ha.
  apply valid_date_bounds in Ht, Hp. unfold months_between, date_after in *. lia.
Qed.

End MonthsFacts.

(** ** [normalize_listing] *)

Section NormalizeFacts.
Context {P : Platform}.
Context (nominatim : string -> geo_reply).
Context (today : date).

Abbreviation resolve := (resolve_coordinates nominatim).
Abbreviation normalize := (normalize_listing nominatim today).

Lemma months_step (raw : dict) :
  (if is_none (get raw "monthsOnMarket") && truthy (get raw "postingDate")
   then posting_date ← subscript raw "postingDate";
        calculate_months_on_market today posting_date
   else Ok (get raw "monthsOnMarket")) = Ok (derived_months today raw).
Proof.
  unfold derived_months.
  destruct (get raw "monthsOnMarket"); cbn [is_none andb]; try reflexivity.
  destruct (truthy (get raw "postingDate")) eqn:Et.
  - rewrite subscript_truthy by exact Et. cbn. apply calculate_months_spec.
  - pose proof (calculate_months_spec today (get raw "postingDate")) as H.
    unfold calculate_months_on_market in H. rewrite Et in H. cbn in H.
    exact H.
Qed.

Lemma single_floor_step (raw : dict) :
  (if is_none (get raw "singleFloor") && truthy (get raw "floors")
   then VBool (py_eq_int (get raw "floors") 1)
   else get raw "singleFloor") = derived_single_floor raw.
Proof.
  unfold derived_single_floor.
  destruct (get raw "singleFloor"); reflexivity.
Qed.

(** [normalize_listing] in one equation: the discard, then the two
    roundings, the only steps that may raise. *)
Lemma normalize_listing_eq (raw : dict) (source : string) :
  normalize raw source =
  let lat := fst (resolve raw) in
  let lng := snd (resolve raw) in
  if truthy lat && truthy lng then
    rlat ← py_round lat 7;
    rlng ← py_round lng 7;
    Ok (Some (listing_of today raw source rlat rlng))
  else Ok None.
Proof.
  unfold normalize_listing. destruct (resolve raw) as [lat lng].
  cbn [fst snd]. rewrite <- negb_andb.
  destruct (truthy lat && truthy lng); cbn [negb]; [| reflexivity].
  rewrite months_step, single_floor_step. reflexivity.
Qed.

Lemma py_round_number (v : value) (n : Z) (r : value) :
  py_round v n = Ok r -> is_number r = true.
Proof.
  destruct v; cbn; try discriminate; now intros [= <-].
Qed.

Lemma py_round_of_number (v : value) (n : Z) :
  is_number v = true -> exists r, py_round v n = Ok r.
Proof.
  destruct v; cbn; try discriminate; intros _; eexists; reflexivity.
Qed.

Lemma py_round_not_number (v : value) (n : Z) :
  is_number v = false -> py_round v n = Raise TypeError.
Proof. destruct v; cbn; try discriminate; reflexivity. Qed.

(** What a returned listing is made of. *)
Lemma normalize_listing_some (raw : dict) (source : string) (listing : dict) :
  normalize raw source = Ok (Some listing) ->
  truthy (fst (resolve raw)) = true /\ truthy (snd (resolve raw)) = true /\
  exists rlat rlng,
    py_round (fst (resolve raw)) 7 = Ok rlat /\
    py_round (snd (resolve raw)) 7 = Ok rlng /\
    listing = listing_of today raw source rlat rlng.
Proof.
  rewrite normalize_listing_eq. cbn zeta.
  destruct (truthy (fst (resolve raw))) eqn:E1; [| discriminate].
  destruct (truthy (snd (resolve raw))) eqn:E2; [| discriminate].
  cbn [andb]. intros H.
  apply res_bind_inv in H as (rlat & Hlat & H).
  apply res_bind_inv in H as (rlng & Hlng & H).
  injection H as <-. split; [reflexivity |]. split; [reflexivity |].
  exists rlat, rlng. split; [exact Hlat |]. split; [exact Hlng | reflexivity].
Qed.

End NormalizeFacts.

Section NormalizeTheorems.
Context {P : Platform}.
Context (nominatim : string -> geo_reply).
Context (today : date).

Abbreviation resolve := (resolve_coordinates nominatim).
Abbreviation normalize := (normalize_listing nominatim today).

(** C1 (amended).  A record whose coordinates are not resolved (one of
    them fails the truth test after the geocoding step) is discarded, and
    every listing [normalize_listing] returns holds under ["lat"] and
    ["lng"] the rounded resolved coordinates, which are numbers and so not
    null.  No range is checked. *)
Theorem coordinates_resolved (raw : dict) (source : string) :
  (truthy (fst (resolve raw)) && truthy (snd (resolve raw)) = false ->
   normalize raw source = Ok None) /\
  (forall listing, normalize raw source = Ok (Some listing) ->
   truthy (fst (resolve raw)) = true /\ truthy (snd (resolve raw)) = true /\
   exists rlat rlng,
     py_round (fst (resolve raw)) 7 = Ok rlat /\
     py_round (snd (resolve raw)) 7 = Ok rlng /\
     listing !! "lat" = Some rlat /\ listing !! "lng" = Some rlng /\
     is_number rlat = true /\ is_number rlng = true).
Proof.
  split.
  - intros H. rewrite normalize_listing_eq. cbn zeta. now rewrite H.
  - intros listing H.
    apply normalize_listing_some in H as (H1 & H2 & rlat & rlng & Hlat & Hlng & ->).
    split; [exact H1 |]. split; [exact H2 |].
    exists rlat, rlng. split; [exact Hlat |]. split; [exact Hlng |].
    split; [reflexivity |]. split; [reflexivity |].
    split; eapply py_round_number; eassumption.
Qed.

(** C5.  The ["monthsOnMarket"] of a returned listing: an explicit value
    of the raw record when there is one; otherwise, from a posting date
    that [strptime] reads, and it reads every date in ISO form, the month
    difference against today floored at zero; otherwise null.  A posting
    date of 2024-01-15 gives 6 on 2024-07-15, and a posting date after
    today gives 0. *)
Theorem months_on_market (raw : dict) (source : string) (listing : dict) :
  normalize raw source = Ok (Some listing) ->
  listing !! "monthsOnMarket" = Some (derived_months today raw) /\
  (get raw "monthsOnMarket" <> VNone ->
   derived_months today raw = get raw "monthsOnMarket") /\
  (forall posted, get raw "monthsOnMarket" = VNone ->
   valid_date posted = true ->
   get raw "postingDate" = VStr (isoformat posted) ->
   derived_months today raw =
     VInt (Z.max 0 ((year today - year posted) * 12 + (month today - month posted)))) /\
  (get raw "monthsOnMarket" = VNone ->
   is_ok (strptime_ymd (get raw "postingDate")) = false ->
   derived_months today raw = VNone) /\
  calculate_months_on_market (mkdate 2024 7 15) (VStr "2024-01-15") = Ok (VInt 6) /\
  (forall posted, valid_date today = true -> valid_date posted = true ->
   date_after posted today ->
   calculate_months_on_market today (VStr (isoformat posted)) = Ok (VInt 0)).
Proof.
  intros H.
  apply normalize_listing_some in H as (_ & _ & rlat & rlng & _ & _ & ->).
  split; [reflexivity |]. split; [| split; [| split; [| split]]].
  - unfold derived_months. destruct (get raw "monthsOnMarket"); congruence.
  - intros posted Hm Hv Hp. unfold derived_months.
    rewrite Hm, Hp, (strptime_isoformat posted Hv). reflexivity.
  - intros Hm Hp. unfold derived_months. rewrite Hm.
    destruct (strptime_ymd (get raw "postingDate")); [discriminate | reflexivity].
  - reflexivity.
  - intros posted Ht Hv Ha.
    rewrite calculate_months_spec, (strptime_isoformat posted Hv).
    now rewrite (months_between_after today posted Ht Hv Ha).
Qed.

(** C6 (amended).  The ["singleFloor"] of a returned listing: an explicit
    value of the raw record when there is one; otherwise, for a floor
    count that passes the truth test (present and not zero), whether it
    equals 1; otherwise, also for a floor count of 0, null. *)
Theorem single_floor_derived (raw : dict) (source : string) (listing : dict) :
  normalize raw source = Ok (Some listing) ->
  listing !! "singleFloor" = Some (derived_single_floor raw) /\
  (get raw "singleFloor" <> VNone ->
   derived_single_floor raw = get raw "singleFloor") /\
  (forall z, get raw "singleFloor" = VNone -> get raw "floors" = VInt z ->
   z <> 0 -> derived_single_floor raw = VBool (z =? 1)) /\
  (get raw "singleFloor" = VNone -> truthy (get raw "floors") = false ->
   derived_single_floor raw = VNone).
Proof.
  intros H.
  apply normalize_listing_some in H as (_ & _ & rlat & rlng & _ & _ & ->).
  split; [reflexivity |]. split; [| split].
  - unfold derived_single_floor. destruct (get raw "singleFloor"); congruence.
  - intros z Hs Hf Hz. unfold derived_single_floor. rewrite Hs, Hf. cbn.
    destruct (Z.eqb_spec z 0); [contradiction | reflexivity].
  - intros Hs Hf. unfold derived_single_floor. now rewrite Hs, Hf.
Qed.

Lemma take_chars_length (n : nat) (s : string) :
  (String.length (take_chars n s) <= n)%nat.
Proof.
  revert s. induction n as [|n IH]; intros [|c r]; cbn; try lia.
  specialize (IH r). lia.
Qed.

(** C7 (amended).  The name and the address of a returned listing are the
    raw record's values as they are: the placeholder when the record has
    no ["name"] key, the empty string when it has no ["address"] key; a
    name the adapter cut to 100 characters stays within 100 characters,
    and a string stays a string. *)
Theorem name_and_address (raw : dict) (source : string) (listing : dict) :
  normalize raw source = Ok (Some listing) ->
  listing !! "name" = Some (get_or raw "name" (VStr "Unknown Office")) /\
  listing !! "address" = Some (get_or raw "address" (VStr "")) /\
  (raw !! "name" = None -> listing !! "name" = Some (VStr "Unknown Office")) /\
  (raw !! "address" = None -> listing !! "address" = Some (VStr "")) /\
  (forall s, raw !! "name" = Some (VStr (take_chars 100 s)) ->
   exists name, listing !! "name" = Some (VStr name) /\
     (String.length name <= 100)%nat) /\
  (forall s, raw !! "address" = Some (VStr s) ->
   listing !! "address" = Some (VStr s)).
Proof.
  intros H.
  apply normalize_listing_some in H as (_ & _ & rlat & rlng & _ & _ & ->).
  split; [reflexivity |]. split; [reflexivity |].
  split; [| split; [| split]].
  - intros E. change (Some (get_or raw "name" (VStr "Unknown Office")) =
                      Some (VStr "Unknown Office")).
    unfold get_or. now rewrite E.
  - intros E. change (Some (get_or raw "address" (VStr "")) = Some (VStr "")).
    unfold get_or. now rewrite E.
  - intros s E. exists (take_chars 100 s). split; [| apply take_chars_length].
    change (Some (get_or raw "name" (VStr "Unknown Office")) =
            Some (VStr (take_chars 100 s))).
    unfold get_or. now rewrite E.
  - intros s E. change (Some (get_or raw "address" (VStr "")) = Some (VStr s)).
    unfold get_or. now rewrite E.
Qed.

(** The coordinates the geocoding step gives are floats or null. *)
Lemma geocode_address_numbers (address : value) :
  truthy (fst (geocode_address nominatim address)) &&
    negb (is_number (fst (geocode_address nominatim address))) = false /\
  truthy (snd (geocode_address nominatim address)) &&
    negb (is_number (snd (geocode_address nominatim address))) = false.
Proof.
  unfold geocode_address.
  repeat match goal with
         | |- context [match ?x with _ => _ end] => destruct x
         end; split; cbn [fst snd truthy is_number negb]; try reflexivity;
    apply andb_false_r.
Qed.

(** Whether the resolved coordinates are both true and one of them is not
    a number is decided by the raw record: the geocoding step gives
    floats. *)
Lemma resolve_not_number (raw : dict) :
  truthy (fst (resolve raw)) && truthy (snd (resolve raw)) &&
    (negb (is_number (fst (resolve raw))) || negb (is_number (snd (resolve raw)))) =
  truthy (get raw "lat") && truthy (get raw "lng") &&
    (negb (is_number (get raw "lat")) || negb (is_number (get raw "lng"))).
Proof.
  assert (G : forall r : value * value,
    truthy (fst r) && negb (is_number (fst r)) = false ->
    truthy (snd r) && negb (is_number (snd r)) = false ->
    truthy (fst r) && truthy (snd r) &&
      (negb (is_number (fst r)) || negb (is_number (snd r))) = false).
  { intros [a b]. cbn [fst snd].
    destruct (truthy a), (truthy b), (is_number a), (is_number b); cbn;
      congruence. }
  unfold resolve_coordinates.
  destruct (truthy (get raw "lat")) eqn:E1, (truthy (get raw "lng")) eqn:E2;
    cbn [negb orb andb fst snd]; try (rewrite E1, E2; reflexivity).
  all: destruct (truthy (get_or raw "address" (VStr ""))).
  all: try (destruct (geocode_address_numbers (get_or raw "address" (VStr "")))
              as [H1 H2]; exact (G _ H1 H2)).
  all: cbn [fst snd]; rewrite ?E1, ?E2, ?andb_false_r; reflexivity.
Qed.

(** Whether the two roundings go through. *)
Lemma roundings_ok (source : string) (raw : dict) (lat lng : value) :
  is_ok (if truthy lat && truthy lng then
           rlat ← py_round lat 7;
           rlng ← py_round lng 7;
           Ok (Some (listing_of today raw source rlat rlng))
         else Ok None) =
  negb (truthy lat && truthy lng &&
        (negb (is_number lat) || negb (is_number lng))).
Proof.
  destruct (truthy lat) eqn:T1; [| reflexivity].
  destruct (truthy lng) eqn:T2; [| reflexivity].
  destruct lat, lng; try discriminate; reflexivity.
Qed.

(** C9 (amended).  [normalize_listing] raises exactly when both raw
    coordinates pass the truth test and one of them is not a number (a
    string, a list or a dict), and then it is the [TypeError] of [round];
    a coordinate that is a non-empty string, list or dict beside one that
    passes the truth test always raises; [calculate_months_on_market]
    never raises, and gives null for a posting date [strptime] rejects. *)
Theorem normalize_raises_on_text_coordinates (raw : dict) (source : string) :
  (is_ok (normalize raw source) = false <->
   truthy (get raw "lat") && truthy (get raw "lng") &&
   (negb (is_number (get raw "lat")) || negb (is_number (get raw "lng"))) = true) /\
  (forall e, normalize raw source = Raise e -> e = TypeError) /\
  (truthy (get raw "lat") = true -> truthy (get raw "lng") = true ->
   is_str (get raw "lat") || is_list (get raw "lat") || is_dict (get raw "lat") ||
   is_str (get raw "lng") || is_list (get raw "lng") || is_dict (get raw "lng") = true ->
   normalize raw source = Raise TypeError) /\
  (forall v, exists months,
     calculate_months_on_market today v = Ok months /\
     (is_ok (strptime_ymd v) = false -> months = VNone)).
Proof.
  assert (R : is_ok (normalize raw source) = false <->
    truthy (get raw "lat") && truthy (get raw "lng") &&
    (negb (is_number (get raw "lat")) || negb (is_number (get raw "lng"))) = true).
  { rewrite normalize_listing_eq. cbn zeta.
    rewrite roundings_ok, resolve_not_number. apply negb_false_iff. }
  assert (T : forall e, normalize raw source = Raise e -> e = TypeError).
  { intros e. rewrite normalize_listing_eq. cbn zeta.
    destruct (truthy (fst (resolve raw)) && truthy (snd (resolve raw)));
      [| discriminate].
    destruct (fst (resolve raw)), (snd (resolve raw)); cbn; congruence. }
  split; [exact R |]. split; [exact T |]. split.
  - intros H1 H2 H3.
    destruct (normalize raw source) as [o|e] eqn:E; [| now rewrite (T e eq_refl)].
    assert (F : is_ok (Ok o : res (option dict)) = false); [| discriminate F].
    apply R. rewrite H1, H2. cbn [andb].
    destruct (get raw "lat"), (get raw "lng"); cbn in H3 |- *;
      reflexivity || discriminate H3.
  - intros v. eexists. split; [apply calculate_months_spec |].
    destruct (strptime_ymd v); [discriminate | reflexivity].
Qed.

End NormalizeTheorems.

(** ** Zero coordinates in [normalize_listing] *)

Section ZeroNormalize.
Context {P : Platform}.
Context (nominatim : string -> geo_reply).
Context (today : date).

Abbreviation resolve := (resolve_coordinates nominatim).
Abbreviation normalize := (normalize_listing nominatim today).

Lemma get_delete_ne (k k' : string) (raw : dict) :
  k <> k' -> get (delete k raw) k' = get raw k'.
Proof. intros H. unfold get. now rewrite lookup_delete_ne. Qed.

Lemma get_or_delete_ne (k k' : string) (raw : dict) (dflt : value) :
  k <> k' -> get_or (delete k raw) k' dflt = get_or raw k' dflt.
Proof. intros H. unfold get_or. now rewrite lookup_delete_ne. Qed.

Lemma get_delete_eq (k : string) (raw : dict) : get (delete k raw) k = VNone.
Proof. unfold get. now rewrite lookup_delete_eq. Qed.

(** The listing built does not read the raw coordinates. *)
Lemma listing_of_delete (k : string) (raw : dict) (source : string) (rlat rlng : value) :
  k = "lat"%string \/ k = "lng"%string ->
  listing_of today (delete k raw) source rlat rlng =
  listing_of today raw source rlat rlng.
Proof.
  intros [-> | ->]; unfold listing_of, derived_months, derived_single_floor;
    rewrite !get_delete_ne, !get_or_delete_ne by discriminate; reflexivity.
Qed.

(** A coordinate that fails the truth test might as well be absent. *)
Lemma normalize_absent (k : string) (raw : dict) (source : string) :
  k = "lat"%string \/ k = "lng"%string ->
  truthy (get raw k) = false ->
  normalize raw source = normalize (delete k raw) source.
Proof.
  intros Hk Hz. rewrite !normalize_listing_eq. cbn zeta.
  assert (E : forall rlat rlng,
    listing_of today (delete k raw) source rlat rlng =
    listing_of today raw source rlat rlng)
    by (intros; now apply listing_of_delete).
  unfold resolve_coordinates.
  destruct Hk as [-> | ->];
    rewrite get_delete_eq, !get_delete_ne, !get_or_delete_ne by discriminate;
    rewrite Hz; cbn [truthy negb orb]; rewrite ?orb_true_r;
    (destruct (truthy (get_or raw "address" (VStr "")));
     [ destruct (geocode_address nominatim (get_or raw "address" (VStr "")))
         as [la lo]; cbn [fst snd];
       destruct (truthy la && truthy lo); [| reflexivity];
       destruct (py_round la 7) as [r1|]; [| reflexivity];
       destruct (py_round lo 7) as [r2|]; [| reflexivity];
       cbv [mbind res_bind]; now rewrite E
     | cbn [fst snd truthy andb]; rewrite ?Hz, ?andb_false_r; reflexivity ]).
Qed.

Lemma resolve_falsy (raw : dict) :
  truthy (get raw "lat") && truthy (get raw "lng") = false ->
  resolve raw =
  if truthy (get_or raw "address" (VStr ""))
  then geocode_address nominatim (get_or raw "address" (VStr ""))
  else (get raw "lat", get raw "lng").
Proof.
  intros H. unfold resolve_coordinates. rewrite <- negb_andb, H. reflexivity.
Qed.

Lemma zero_coordinate_falsy (d : dict) :
  zero_coordinate d = true ->
  truthy (get d "lat") && truthy (get d "lng") = false.
Proof.
  unfold zero_coordinate. intros H. apply orb_prop in H as [H|H];
    apply truthy_zero_number in H; rewrite H; [reflexivity | apply andb_false_r].
Qed.

(** C10.  A raw record with a coordinate equal to 0 (or 0.0) is normalized
    as the record without that coordinate.  When its address passes the
    truth test it goes to the geocoding step: the listing returned is the
    one built on the coordinates the service finds for the address,
    rounded, whatever the other raw coordinate is, and the record is
    discarded when the service finds none (or finds a zero); when the
    address fails the truth test the record is discarded.  A listing with
    such a coordinate is never a duplicate of anything in [deduplicate],
    nor anything of it, and it is in the result whenever it is in the
    input. *)
Theorem zero_coordinate_is_absent (raw : dict) (source : string) (x : dict) :
  zero_coordinate raw = true ->
  zero_coordinate x = true ->
  (is_zero_number (get raw "lat") = true ->
   normalize raw source = normalize (delete "lat" raw) source) /\
  (is_zero_number (get raw "lng") = true ->
   normalize raw source = normalize (delete "lng" raw) source) /\
  (truthy (get_or raw "address" (VStr "")) = true ->
   resolve raw = geocode_address nominatim (get_or raw "address" (VStr ""))) /\
  (forall la lo,
   truthy (get_or raw "address" (VStr "")) = true ->
   geocode_address nominatim (get_or raw "address" (VStr "")) =
     (VFloat la, VFloat lo) ->
   truthy (VFloat la) && truthy (VFloat lo) = true ->
   normalize raw source =
     Ok (Some (listing_of today raw source
                 (VFloat (float_round la 7)) (VFloat (float_round lo 7))))) /\
  (truthy (get_or raw "address" (VStr "")) = true ->
   truthy (fst (geocode_address nominatim (get_or raw "address" (VStr "")))) &&
   truthy (snd (geocode_address nominatim (get_or raw "address" (VStr "")))) = false ->
   normalize raw source = Ok None) /\
  (truthy (get_or raw "address" (VStr "")) = false ->
   normalize raw source = Ok None) /\
  (forall y, is_dup_of x y = Ok false /\ is_dup_of y x = Ok false) /\
  (forall u, scan_unique x u = Ok false) /\
  (forall l r, deduplicate l = Ok r -> x ∈ l -> x ∈ r) /\
  (forall l, deduplicate (l ++ [x]) = deduplicate l ≫= (fun u => Ok (u ++ [x]))).
Proof.
  intros Hraw Hx.
  apply zero_coordinate_falsy in Hraw.
  assert (Hloc : located x = false) by (now apply zero_coordinate_falsy).
  repeat apply conj.
  - intros H. apply normalize_absent; [now left | now apply truthy_zero_number].
  - intros H. apply normalize_absent; [now right | now apply truthy_zero_number].
  - intros Ha. now rewrite (resolve_falsy raw Hraw), Ha.
  - intros la lo Ha Hg Ht.
    rewrite normalize_listing_eq, (resolve_falsy raw Hraw), Ha, Hg.
    cbn [fst snd]. rewrite Ht. reflexivity.
  - intros Ha Hg.
    rewrite normalize_listing_eq, (resolve_falsy raw Hraw), Ha.
    cbn zeta. now rewrite Hg.
  - intros Ha. rewrite normalize_listing_eq, (resolve_falsy raw Hraw), Ha.
    cbn [fst snd]. now rewrite Hraw.
  - intros y. now apply not_located_never_duplicate.
  - intros u. now apply not_located_scan.
  - intros l r H Hin. apply (dedup_loop_retains x l [] r Hloc H). now left.
  - intros l. rewrite deduplicate_snoc.
    destruct (deduplicate l) as [u|e]; [| reflexivity]. cbn.
    now rewrite (not_located_scan x u Hloc).
Qed.

End ZeroNormalize.

(** ** The store *)

Section MergeTheorems.
Context {P : Platform}.

(** C8.  When the output file is missing, cannot be read or decoded, or
    does not hold a list, the merge is the deduplication of the new
    listings alone, and it returns whenever the distances among them are
    computed; otherwise it is the deduplication of the existing listings
    followed by the new ones. *)
Theorem merge_degrades (st : store) (existing new_listings : list dict) :
  (st = NoFile \/ st = File CannotOpen \/ st = File Undecodable \/
   st = File (Decoded JOther) ->
   merge_with_existing st new_listings = deduplicate new_listings /\
   (comparable new_listings = true ->
    exists r, merge_with_existing st new_listings = Ok r /\ r ⊆ new_listings)) /\
  merge_with_existing (File (Decoded (JArray existing))) new_listings =
    deduplicate (existing ++ new_listings).
Proof.
  split; [| apply merge_loaded].
  intros Hst.
  assert (E : merge_with_existing st new_listings = deduplicate new_listings)
    by (destruct Hst as [-> | [-> | [-> | ->]]]; reflexivity).
  split; [exact E |].
  intros Hc. rewrite E. now apply deduplicate_total.
Qed.

End MergeTheorems.

(** ** Further properties of the pipeline *)

Section Further.
Context {P : Platform}.
Context (nominatim : string -> geo_reply).
Context (today : date).

(** A raw record with no usable coordinates and no usable address never
    produces a listing. *)
Theorem discard_without_location (raw : dict) (source : string) :
  truthy (get raw "lat") && truthy (get raw "lng") = false ->
  truthy (get_or raw "address" (VStr "")) = false ->
  normalize_listing nominatim today raw source = Ok None.
Proof.
  intros Hc Ha.
  rewrite normalize_listing_eq, (resolve_falsy nominatim raw Hc), Ha.
  cbn [fst snd]. now rewrite Hc.
Qed.

(** Merging never replaces what the store already held: the deduplicated
    existing listings come first in the merged result, in their order. *)
Theorem merge_keeps_existing (existing new_listings merged : list dict) :
  merge_with_existing (File (Decoded (JArray existing))) new_listings = Ok merged ->
  exists kept, deduplicate existing = Ok kept /\ kept `prefix_of` merged.
Proof.
  rewrite merge_loaded. apply deduplicate_prefix.
Qed.

(** The loop keeps its accepted list free of duplicates: no accepted
    listing is a duplicate of one accepted before it. *)
Lemma dedup_loop_separated (L l u r : list dict) :
  comparable L = true -> l ⊆ L -> u ⊆ L ->
  (forall i j y z, (i < j)%nat -> u !! i = Some z -> u !! j = Some y ->
     duplicate_of y z = false) ->
  dedup_loop l u = Ok r ->
  forall i j y z, (i < j)%nat -> r !! i = Some z -> r !! j = Some y ->
    duplicate_of y z = false.
Proof.
  intros HL. revert u. induction l as [|x l IH]; intros u Hl Hu Hsep H; cbn in H.
  - now injection H as <-.
  - assert (Hx : x ∈ L) by (apply Hl; left).
    rewrite (scan_unique_comparable L u x HL Hx Hu) in H. cbn in H.
    assert (Hl' : l ⊆ L) by (intros z Hz; apply Hl; now right).
    destruct (existsb (duplicate_of x) u) eqn:E.
    + exact (IH u Hl' Hu Hsep H).
    + apply (IH (u ++ [x])); [exact Hl' | | | exact H].
      * intros z Hz. apply elem_of_app in Hz as [Hz|Hz]; [now apply Hu |].
        apply list_elem_of_singleton in Hz as ->. exact Hx.
      * intros i j y z Hij Hi Hj.
        destruct (decide (j < length u)%nat) as [Hlt|Hge].
        -- rewrite lookup_app_l in Hi, Hj by lia. exact (Hsep i j y z Hij Hi Hj).
        -- rewrite lookup_app_r in Hj by lia.
           destruct (j - length u)%nat eqn:Ej; [| discriminate Hj].
           injection Hj as <-.
           rewrite lookup_app_l in Hi by lia.
           destruct (duplicate_of x z) eqn:Ed; [| reflexivity].
           assert (Hex : existsb (duplicate_of x) u = true).
           { apply existsb_exists. exists z. split; [| exact Ed].
             apply list_elem_of_In. eapply list_elem_of_lookup_2. exact Hi. }
           congruence.
Qed.

(** Among the listings [deduplicate] returns, none is a duplicate of one
    that stands before it. *)
Theorem deduplicate_separated (l r : list dict) (i j : nat) (y z : dict) :
  comparable l = true ->
  deduplicate l = Ok r ->
  (i < j)%nat -> r !! i = Some z -> r !! j = Some y ->
  duplicate_of y z = false.
Proof.
  intros Hc H. apply (dedup_loop_separated l l [] r Hc); [reflexivity | | | exact H].
  - intros w Hw. inversion Hw.
  - intros i' j' y' z' _ Hi. discriminate Hi.
Qed.

End Further.

(** ** The distance of a listing to itself *)

Section SelfDistance.
Context {P : Platform}.
Local Open Scope float_scope.

Lemma finite_shape (r : float) :
  is_finite r = true ->
  (exists s, Prim2SF r = S754_zero s) \/
  (exists s m e, Prim2SF r = S754_finite s m e).
Proof.
  unfold is_finite, is_nan, is_infinity.
  rewrite !FloatAxioms.eqb_spec, abs_spec.
  destruct (Prim2SF r) as [s| s | | s m e] eqn:E.
  - intros _. left. now exists s.
  - cbn. rewrite orb_true_r. discriminate.
  - cbn. discriminate.
  - intros _. right. now exists s, m, e.
Qed.

Lemma finite_sub_self (r : float) : is_finite r = true -> r - r = 0.
Proof.
  intros H. apply Prim2SF_inj. rewrite sub_spec.
  destruct (finite_shape r H) as [(s & ->) | (s & m & e & ->)].
  - destruct s; reflexivity.
  - unfold SF64sub, SFsub. rewrite Z.sub_diag. reflexivity.
Qed.

Lemma zero_plus_finite_times_zero (t : float) :
  is_finite t = true -> 0 + t * 0 = 0.
Proof.
  intros H. apply Prim2SF_inj. rewrite add_spec, mul_spec.
  destruct (finite_shape t H) as [(s & ->) | (s & m & e & ->)];
    destruct s; reflexivity.
Qed.

Lemma math_1_finite (func : float -> float) (r : float) :
  is_finite (func r) = true -> math_1 func r = Ok (func r).
Proof.
  unfold math_1, is_finite. intros H.
  apply negb_true_iff, orb_false_iff in H as [-> ->]. reflexivity.
Qed.

(** On a platform whose [sin] and [asin] map 0 to 0, a listing with float
    coordinates whose radians are finite, and at whose latitude [cos] and
    its square are finite, is at distance 0 from itself: it is a duplicate
    of itself as soon as its coordinates are not zero. *)
Theorem self_distance_zero (x : dict) (la lo : float) :
  c_sin 0 = 0 -> c_asin 0 = 0 ->
  get x "lat" = VFloat la -> get x "lng" = VFloat lo ->
  is_finite (la * deg_to_rad) = true ->
  is_finite (lo * deg_to_rad) = true ->
  is_finite (c_cos (la * deg_to_rad)) = true ->
  is_finite (c_cos (la * deg_to_rad) * c_cos (la * deg_to_rad)) = true ->
  distance x x = Ok 0 /\ duplicate_of x x = located x.
Proof.
  intros Hsin Hasin Hlat Hlng Fla Flo Fc Fcc.
  assert (E : distance x x = Ok 0).
  { unfold distance, haversine, radians. rewrite Hlat, Hlng.
    cbn [as_double mbind res_bind].
    rewrite (finite_sub_self _ Fla), (finite_sub_self _ Flo).
    change (0 / 2) with 0.
    unfold math_sin, math_cos, math_asin, math_sqrt.
    assert (S0 : math_1 c_sin 0 = Ok 0).
    { apply eq_trans with (Ok (c_sin 0)); [| now rewrite Hsin].
      apply math_1_finite. now rewrite Hsin. }
    rewrite S0. cbn [mbind res_bind].
    change (float_pow2 0) with (Ok 0 : res float). cbn [mbind res_bind].
    rewrite (math_1_finite c_cos _ Fc). cbn [mbind res_bind].
    rewrite (zero_plus_finite_times_zero _ Fcc).
    change (math_1 PrimFloat.sqrt 0) with (Ok 0 : res float). cbn [mbind res_bind].
    assert (A0 : math_1 c_asin 0 = Ok 0).
    { apply eq_trans with (Ok (c_asin 0)); [| now rewrite Hasin].
      apply math_1_finite. now rewrite Hasin. }
    rewrite A0. reflexivity. }
  split; [exact E |].
  unfold duplicate_of. rewrite E. destruct (located x); reflexivity.
Qed.

End SelfDistance.

(** ** More on [deduplicate] *)

Section DedupMore.
Context {P : Platform}.

Lemma separated_existsb (u l : list dict) (x : dict) :
  separated (u ++ x :: l) -> existsb (duplicate_of x) u = false.
Proof.
  intros Hsep. destruct (existsb (duplicate_of x) u) eqn:E; [| reflexivity].
  apply existsb_exists in E as (z & Hz & Hd).
  apply list_elem_of_In, list_elem_of_lookup in Hz as (i & Hi).
  pose proof (lookup_lt_Some _ _ _ Hi) as Hlt.
  rewrite <- (Hsep i (length u) x z Hlt), Hd; [reflexivity | |].
  - now rewrite lookup_app_l.
  - now rewrite list_lookup_middle.
Qed.

Lemma dedup_loop_distinct (l u : list dict) :
  comparable (u ++ l) = true -> separated (u ++ l) ->
  dedup_loop l u = Ok (u ++ l).
Proof.
  revert u. induction l as [|x l IH]; intros u Hc Hsep; cbn.
  - now rewrite app_nil_r.
  - rewrite (scan_unique_comparable (u ++ x :: l) u x Hc).
    + rewrite (separated_existsb u l x Hsep). cbn.
      rewrite (cons_middle x u l), app_assoc in Hc, Hsep |- *.
      exact (IH (u ++ [x]) Hc Hsep).
    + apply elem_of_app. right. left.
    + intros z Hz. apply elem_of_app. now left.
Qed.

(** Listings none of which is a duplicate of an earlier one are all kept,
    in their order. *)
Theorem deduplicate_distinct_kept (l : list dict) :
  comparable l = true -> separated l -> deduplicate l = Ok l.
Proof.
  intros Hc Hsep. exact (dedup_loop_distinct l [] Hc Hsep).
Qed.

(** What [deduplicate] returns is comparable and separated when its input
    is comparable. *)
Lemma deduplicate_output (l r : list dict) :
  comparable l = true -> deduplicate l = Ok r ->
  comparable r = true /\ separated r.
Proof.
  intros Hc H.
  destruct (deduplicate_total l Hc) as (r' & H' & Hsub).
  rewrite H in H'. injection H' as <-.
  split; [exact (comparable_sublist l r Hc Hsub) |].
  intros i j y z. apply (dedup_loop_separated l l [] r Hc); [reflexivity | | | exact H].
  - intros w Hw. inversion Hw.
  - intros i' j' y' z' _ Hi. discriminate Hi.
Qed.

(** Deduplicating twice changes nothing more. *)
Theorem deduplicate_idempotent (l r : list dict) :
  comparable l = true -> deduplicate l = Ok r -> deduplicate r = Ok r.
Proof.
  intros Hc H. destruct (deduplicate_output l r Hc H) as (Hr & Hsep).
  exact (dedup_loop_distinct r [] Hr Hsep).
Qed.

Lemma dedup_loop_covers (x : dict) (l u r : list dict) :
  dedup_loop l u = Ok r -> x ∈ l ->
  x ∈ r \/ exists y, y ∈ r /\ duplicate_of x y = true.
Proof.
  revert u. induction l as [|x' l IH]; intros u H Hin; [inversion Hin |].
  cbn in H. apply res_bind_inv in H as (b & Hb & H).
  apply elem_of_cons in Hin as [-> | Hin]; [| exact (IH _ H Hin)].
  destruct (dedup_loop_extends _ _ _ H) as (w & -> & _). destruct b.
  - right. apply scan_unique_true in Hb as (u1 & y & u2 & -> & _ & Hy).
    exists y. split; [| now apply is_dup_of_true].
    apply elem_of_app. left. apply elem_of_app. right. left.
  - left. apply elem_of_app. left. apply elem_of_app. right. left.
Qed.

(** Every listing of the input is represented in the result: it is
    retained, or it is a duplicate of a listing that is. *)
Theorem deduplicate_covers (l r : list dict) (x : dict) :
  deduplicate l = Ok r -> x ∈ l ->
  x ∈ r \/ exists y, y ∈ r /\ duplicate_of x y = true.
Proof. apply dedup_loop_covers. Qed.

Lemma radians_str (s : string) : radians (VStr s) = Raise TypeError.
Proof. reflexivity. Qed.

(** A coordinate that is a non-empty text passes the guard and reaches
    [radians]: comparing such a listing with a located one raises
    [TypeError], and so does the deduplication of a list in which it
    follows a located listing. *)
Theorem text_coordinate_aborts (x y : dict) (s : string) (rest : list dict) :
  get x "lat" = VStr s -> s <> ""%string ->
  truthy (get x "lng") = true ->
  located y = true ->
  is_dup_of x y = Raise TypeError /\
  deduplicate (y :: x :: rest) = Raise TypeError /\
  merge_with_existing (File (Decoded (JArray [y]))) (x :: rest) = Raise TypeError.
Proof.
  intros Hlat Hs Hlng Hy.
  assert (Hx : located x = true).
  { unfold located. rewrite Hlat, Hlng. cbn.
    destruct s; [contradiction | reflexivity]. }
  assert (E : is_dup_of x y = Raise TypeError).
  { rewrite is_dup_of_distance, Hx, Hy. cbn [andb].
    unfold distance, haversine. now rewrite Hlat, radians_str. }
  assert (D : deduplicate (y :: x :: rest) = Raise TypeError).
  { unfold deduplicate. cbn. now rewrite E. }
  split; [exact E |]. split; [exact D |].
  rewrite merge_loaded. exact D.
Qed.

End DedupMore.

(** ** More on [normalize_listing] and [geocode_address] *)

Section NormalizeMore.
Context {P : Platform}.
Context (today : date).

(** A raw record that carries both coordinates never goes to the geocoding
    service: whatever the service would answer, the result is the same. *)
Theorem given_coordinates_used
    (service other : string -> geo_reply) (raw : dict) (source : string) :
  truthy (get raw "lat") && truthy (get raw "lng") = true ->
  resolve_coordinates service raw = (get raw "lat", get raw "lng") /\
  normalize_listing service today raw source =
    normalize_listing other today raw source.
Proof.
  intros H.
  assert (E : forall n, resolve_coordinates n raw = (get raw "lat", get raw "lng")).
  { intros n. unfold resolve_coordinates. now rewrite <- negb_andb, H. }
  split; [apply E |].
  now rewrite !normalize_listing_eq, !E.
Qed.

Lemma geocode_address_none (service : string -> geo_reply) (address : value) :
  (forall query la lo, service query <> GeoFound la lo) ->
  geocode_address service address = (VNone, VNone).
Proof.
  intros H. unfold geocode_address.
  destruct (service (py_str address +:+ ", Đà Nẵng, Vietnam")) as [la lo| |] eqn:E1;
    [now apply H in E1 | | reflexivity].
  destruct address as [| | | |a| |]; try reflexivity.
  destruct (service (strip (before_comma a) +:+ ", Da Nang, Vietnam"))
    as [la lo| |] eqn:E2; [now apply H in E2 | reflexivity..].
Qed.

(** A service that fails, by an exception or by finding nothing, is never
    fatal: a record without usable coordinates is discarded. *)
Theorem geocoding_failure_discards
    (service : string -> geo_reply) (raw : dict) (source : string) :
  truthy (get raw "lat") && truthy (get raw "lng") = false ->
  (forall query la lo, service query <> GeoFound la lo) ->
  normalize_listing service today raw source = Ok None.
Proof.
  intros Hc Hs. rewrite normalize_listing_eq, (resolve_falsy service raw Hc).
  destruct (truthy (get_or raw "address" (VStr ""))).
  - now rewrite (geocode_address_none service _ Hs).
  - cbn [fst snd]. now rewrite Hc.
Qed.



(** Every listing [normalize_listing] returns has the fourteen fields of
    the schema and no other, carries the identifier of its source and the
    day of the run, and numbers as coordinates. *)
Theorem listing_schema
    (service : string -> geo_reply) (raw : dict) (source : string) (listing : dict) :
  normalize_listing service today raw source = Ok (Some listing) ->
  dom listing = listing_fields /\
  listing !! "source" = Some (VStr source) /\
  listing !! "scrapedAt" = Some (VStr (isoformat today)) /\
  is_number (get listing "lat") = true /\
  is_number (get listing "lng") = true.
Proof.
  intros H.
  apply normalize_listing_some in H as (_ & _ & rlat & rlng & Hlat & Hlng & ->).
  split; [| split; [reflexivity | split; [reflexivity |]]].
  - unfold listing_of, listing_fields. vm_compute. reflexivity.
  - split; [exact (py_round_number _ _ _ Hlat) | exact (py_round_number _ _ _ Hlng)].
Qed.

End NormalizeMore.

(** ** [main] *)

Section MainFacts.
Context {P : Platform}.
Context (nominatim : string -> geo_reply).
Context (today : date).
Context (scrape : string -> res (list dict)).

Abbreviation normalize := (normalize_listing nominatim today).
Abbreviation normalize_all' := (normalize_all nominatim today).
Abbreviation scrape_source' := (scrape_source nominatim today scrape).
Abbreviation run := (run_sources nominatim today scrape).
Abbreviation contribution' := (contribution nominatim today scrape).
Abbreviation failure' := (failure nominatim today scrape).

Lemma normalize_raise_type (raw : dict) (source : string) (e : exn) :
  normalize raw source = Raise e -> e = TypeError.
Proof.
  rewrite normalize_listing_eq. cbn zeta.
  destruct (truthy _ && truthy _); [| discriminate].
  destruct (fst _), (snd _); cbn; congruence.
Qed.

Lemma listing_truthy (raw : dict) (source : string) (l : dict) :
  normalize raw source = Ok (Some l) -> dict_truthy l = true.
Proof.
  intros H.
  apply normalize_listing_some in H as (_ & _ & rlat & rlng & _ & _ & ->).
  reflexivity.
Qed.

(** The inner loop, when it returns: it appends, in order, the listing of
    every record that has one. *)
Lemma normalize_all_ok (source : string) (raws acc r : list dict) :
  normalize_all' source raws acc = Ok r ->
  exists w, r = acc ++ w /\
    Forall (fun l => exists raw, raw ∈ raws /\ normalize raw source = Ok (Some l)) w /\
    Forall (fun raw => is_ok (normalize raw source) = true) raws.
Proof.
  revert acc. induction raws as [|raw raws IH]; intros acc H; cbn in H.
  - injection H as <-. exists []. now rewrite app_nil_r.
  - apply res_bind_inv in H as (o & Ho & H).
    apply IH in H as (w & -> & Hw & Hok).
    assert (Hw' : Forall (fun l => exists raw', raw' ∈ raw :: raws /\
                            normalize raw' source = Ok (Some l)) w).
    { eapply Forall_impl; [exact Hw |]. intros l (raw' & Hin & E).
      exists raw'. split; [now right | exact E]. }
    assert (Hok' : Forall (fun raw' => is_ok (normalize raw' source) = true)
                     (raw :: raws)) by (constructor; [now rewrite Ho | exact Hok]).
    destruct o as [l|].
    + rewrite (listing_truthy raw source l Ho). exists (l :: w).
      split; [now rewrite <- app_assoc |]. split; [| exact Hok'].
      constructor; [| exact Hw']. exists raw. split; [left | exact Ho].
    + exists w. repeat split; assumption.
Qed.

(** The inner loop raises as soon as one record does. *)
Lemma normalize_all_raise (source : string) (raws acc : list dict) (raw : dict) :
  raw ∈ raws -> is_ok (normalize raw source) = false ->
  normalize_all' source raws acc = Raise TypeError.
Proof.
  revert acc. induction raws as [|raw' raws IH]; intros acc Hin Hraw; [inversion Hin |].
  cbn. destruct (normalize raw' source) as [o|e] eqn:E.
  - cbn. apply IH; [| exact Hraw].
    apply elem_of_cons in Hin as [-> | Hin]; [| exact Hin].
    rewrite E in Hraw. discriminate Hraw.
  - cbn. now rewrite (normalize_raise_type raw' source e E).
Qed.

Lemma run_sources_spec (sources : list string) (all_listings : list dict)
    (errors : list (string * exn)) :
  run sources all_listings errors =
  (all_listings ++ concat (map contribution' sources),
   errors ++ omap failure' sources).
Proof.
  revert all_listings errors.
  induction sources as [|source sources IH]; intros all_listings errors; cbn.
  - now rewrite !app_nil_r.
  - unfold contribution, failure.
    destruct (scrape_source' source) as [normalized|e]; rewrite IH; cbn.
    + now rewrite <- app_assoc.
    + now rewrite <- app_assoc.
Qed.

(** The sources are isolated from each other: the batch of a run is the
    concatenation, in the order of the sources, of what each source that
    does not raise contributes, and the errors are the sources that
    raise, in order; so appending sources appends both. *)
Theorem sources_isolated (sources more : list string) :
  run_sources nominatim today scrape sources [] [] =
    (concat (map (contribution nominatim today scrape) sources),
     omap (failure nominatim today scrape) sources) /\
  fst (run_sources nominatim today scrape (sources ++ more) [] []) =
    fst (run_sources nominatim today scrape sources [] []) ++
    fst (run_sources nominatim today scrape more [] []) /\
  snd (run_sources nominatim today scrape (sources ++ more) [] []) =
    snd (run_sources nominatim today scrape sources [] []) ++
    snd (run_sources nominatim today scrape more [] []).
Proof.
  rewrite !run_sources_spec. cbn [fst snd app].
  rewrite map_app, concat_app, omap_app. repeat split.
Qed.

Lemma contribution_elem (source : string) (l : dict) :
  l ∈ contribution' source ->
  exists raws raw, scrape source = Ok raws /\ raw ∈ raws /\
    normalize raw source = Ok (Some l) /\
    Forall (fun raw' => is_ok (normalize raw' source) = true) raws.
Proof.
  unfold contribution, scrape_source. intros Hin.
  destruct (scrape source) as [raws|e]; cbn in Hin; [| inversion Hin].
  destruct (normalize_all' source raws []) as [r|e] eqn:E; [| inversion Hin].
  apply normalize_all_ok in E as (w & -> & Hw & Hok). cbn in Hin.
  rewrite Forall_forall in Hw. destruct (Hw l Hin) as (raw & Hraw & Hl).
  exists raws, raw. repeat split; assumption.
Qed.

Lemma batch_elem (sources : list string) (l : dict) :
  l ∈ fst (run sources [] []) ->
  exists source, source ∈ sources /\ l ∈ contribution' source.
Proof.
  rewrite run_sources_spec. cbn [fst app]. intros Hin.
  apply list_elem_of_In, in_concat in Hin as (c & Hc & Hl).
  apply in_map_iff in Hc as (source & <- & Hs).
  exists source. split; now apply list_elem_of_In.
Qed.

(** Every listing of a run's batch comes from a record of a configured
    source whose records were all normalized without an exception, and it
    names that source and the day of the run. *)
Theorem batch_provenance (sources : list string) (l : dict) :
  l ∈ fst (run_sources nominatim today scrape sources [] []) ->
  exists source raws raw,
    source ∈ sources /\ scrape source = Ok raws /\ raw ∈ raws /\
    normalize_listing nominatim today raw source = Ok (Some l) /\
    Forall (fun raw' =>
              is_ok (normalize_listing nominatim today raw' source) = true) raws /\
    l !! "source" = Some (VStr source) /\
    l !! "scrapedAt" = Some (VStr (isoformat today)).
Proof.
  intros Hin. apply batch_elem in Hin as (source & Hs & Hin).
  apply contribution_elem in Hin as (raws & raw & Hscrape & Hraw & Hl & Hall).
  exists source, raws, raw. repeat split; try assumption.
  - apply normalize_listing_some in Hl as (_ & _ & rlat & rlng & _ & _ & ->).
    reflexivity.
  - apply normalize_listing_some in Hl as (_ & _ & rlat & rlng & _ & _ & ->).
    reflexivity.
Qed.

(** One record whose normalization raises costs its source everything:
    the source is recorded as an error with [TypeError], it adds nothing
    to the batch, and no listing of the batch names it, whatever its other
    records are. *)
Theorem failing_record_drops_source
    (sources : list string) (source : string) (raws : list dict) (raw : dict) :
  scrape source = Ok raws ->
  raw ∈ raws ->
  is_ok (normalize raw source) = false ->
  contribution' source = [] /\
  failure' source = Some (source, TypeError) /\
  (forall l, l ∈ fst (run sources [] []) -> l !! "source" <> Some (VStr source)).
Proof.
  intros Hscrape Hraw Hfail.
  assert (E : scrape_source' source = Raise TypeError).
  { unfold scrape_source. rewrite Hscrape. cbn.
    exact (normalize_all_raise source raws [] raw Hraw Hfail). }
  assert (C : contribution' source = []) by (unfold contribution; now rewrite E).
  split; [exact C |]. split; [unfold failure; now rewrite E |].
  intros l Hin Hsrc. apply batch_elem in Hin as (source' & _ & Hin).
  pose proof Hin as Hin'.
  apply contribution_elem in Hin' as (raws' & raw' & _ & _ & Hl & _).
  apply normalize_listing_some in Hl as (_ & _ & rlat & rlng & _ & _ & ->).
  change (Some (VStr source') = Some (VStr source)) in Hsrc.
  injection Hsrc as ->. rewrite C in Hin. inversion Hin.
Qed.

End MainFacts.

Section MainTheorems.
Context {P : Platform}.
Context (nominatim : string -> geo_reply).
Context (today : date).

Abbreviation main' := (main nominatim today).
Abbreviation contribution' := (contribution nominatim today).
Abbreviation failure' := (failure nominatim today).

Lemma merge_input_eq (st : store) (new_listings : list dict) :
  merge_with_existing st new_listings = deduplicate (merge_input st new_listings).
Proof. destruct st as [|[| |[existing|]]]; reflexivity. Qed.

Lemma main_eq (scrape : string -> res (list dict)) (write : write_outcome)
    (st : store) :
  main' scrape write st =
  match merge_with_existing st (concat (map (contribution' scrape) SCRAPERS)) with
  | Ok final =>
      match write with
      | Written =>
          (File (Decoded (JArray final)),
           Ok (match omap (failure' scrape) SCRAPERS with [] => 0 | _ => 1 end))
      | OpenFails => (st, Raise OSError)
      | Interrupted partial => (File partial, Raise OSError)
      end
  | Raise e => (st, Raise e)
  end.
Proof.
  unfold main. now rewrite run_sources_spec.
Qed.

Lemma omap_nil_iff {A B} (f : A -> option B) (l : list A) :
  omap f l = [] <-> forall x, x ∈ l -> f x = None.
Proof.
  induction l as [|a l IH]; cbn.
  - split; [intros _ x Hx; inversion Hx | reflexivity].
  - destruct (f a) eqn:E.
    + split; [discriminate |]. intros H. specialize (H a ltac:(left)). congruence.
    + rewrite IH. split.
      * intros H x Hx. apply elem_of_cons in Hx as [-> | Hx]; [exact E | now apply H].
      * intros H x Hx. apply H. now right.
Qed.

(** A run that ends normally has written the merge of the batch, and its
    exit status is 0 when no source raised and 1 otherwise.  A run that
    ends with an exception leaves the store as it was when the merge
    raised or the file could not be opened; when the save was interrupted
    after [open] had emptied the file, the file is left with what was
    written until then, whatever the store held. *)
Theorem main_outcome
    (scrape : string -> res (list dict)) (write : write_outcome) (st : store) :
  (forall st' code, main' scrape write st = (st', Ok code) ->
     write = Written /\
     (exists final,
        merge_with_existing st (concat (map (contribution' scrape) SCRAPERS)) =
          Ok final /\
        st' = File (Decoded (JArray final))) /\
     (code = 0 <->
      forall source, source ∈ SCRAPERS ->
        is_ok (scrape_source nominatim today scrape source) = true) /\
     (code = 0 \/ code = 1)) /\
  (forall st' e, main' scrape write st = (st', Raise e) ->
     match write with
     | Interrupted partial =>
         st' = st \/
         (is_ok (merge_with_existing st
                   (concat (map (contribution' scrape) SCRAPERS))) = true /\
          st' = File partial /\ e = OSError)
     | _ => st' = st
     end) /\
  (forall partial, write = Interrupted partial ->
     is_ok (merge_with_existing st
              (concat (map (contribution' scrape) SCRAPERS))) = true ->
     main' scrape write st = (File partial, Raise OSError)).
Proof.
  rewrite main_eq. split; [| split].
  - intros st' code.
    assert (Hnil : omap (failure' scrape) SCRAPERS = [] <->
                   forall source, source ∈ SCRAPERS ->
                     is_ok (scrape_source nominatim today scrape source) = true).
    { rewrite omap_nil_iff. split; intros H source Hs; specialize (H source Hs);
        unfold failure in *;
        destruct (scrape_source nominatim today scrape source);
        try reflexivity; discriminate. }
    remember (omap (failure' scrape) SCRAPERS) as errors eqn:Herr. clear Herr.
    destruct (merge_with_existing st _) as [final|e]; [| discriminate].
    destruct write as [| |partial]; [| discriminate..]. intros [= <- <-].
    split; [reflexivity |]. split; [now exists final |].
    destruct errors as [|err errs].
    + split; [| left; reflexivity].
      split; [intros _; now apply Hnil | reflexivity].
    + split; [| right; reflexivity]. split; [discriminate |].
      intros H. apply Hnil in H. discriminate H.
  - intros st' e.
    destruct (merge_with_existing st _) as [final|e'].
    + destruct write as [| |partial]; [discriminate | now intros [= <- _] |].
      intros [= <- <-]. right. repeat split.
    + destruct write as [| |partial]; intros [= <- _]; [reflexivity.. | now left].
  - intros partial -> Hm.
    destruct (merge_with_existing st _) as [final|e']; [reflexivity | discriminate Hm].
Qed.

Lemma concat_map_nil {A B} (f : A -> list B) (l : list A) :
  (forall x, x ∈ l -> f x = []) -> concat (map f l) = [].
Proof.
  induction l as [|a l IH]; intros H; cbn; [reflexivity |].
  rewrite (H a ltac:(left)), IH; [reflexivity |].
  intros x Hx. apply H. now right.
Qed.

(** A run in which every source returns no record leaves the store of a
    previous run as it is, with exit status 0. *)
Theorem empty_rerun_keeps_store
    (scrape again : string -> res (list dict)) (st st' : store) (code : Z) :
  main' scrape Written st = (st', Ok code) ->
  comparable (merge_input st (concat (map (contribution' scrape) SCRAPERS))) = true ->
  (forall source, source ∈ SCRAPERS -> again source = Ok []) ->
  main' again Written st' = (st', Ok 0).
Proof.
  intros Hrun Hc Hempty. rewrite main_eq in Hrun.
  destruct (merge_with_existing st _) as [final|e] eqn:Em; [| discriminate].
  injection Hrun as <- _.
  rewrite merge_input_eq in Em.
  rewrite main_eq.
  assert (C : concat (map (contribution' again) SCRAPERS) = []).
  { apply concat_map_nil. intros source Hs.
    unfold contribution, scrape_source. now rewrite (Hempty source Hs). }
  assert (F : omap (failure' again) SCRAPERS = []).
  { apply omap_nil_iff. intros source Hs.
    unfold failure, scrape_source. now rewrite (Hempty source Hs). }
  rewrite C, F, merge_loaded, app_nil_r.
  destruct (deduplicate_output _ final Hc Em) as (Hfinal & Hsep).
  now rewrite (dedup_loop_distinct final [] Hfinal Hsep : deduplicate final = Ok final).
Qed.

End MainTheorems.

(** ** The adapters' parsers on the texts of prices and areas *)

Lemma is_int_eq (r : res value) (n : Z) : is_int r n = true -> r = Ok (VInt n).
Proof.
  destruct r as [[| | z | | | |]|]; cbn; try discriminate.
  intros H. apply Z.eqb_eq in H. now subst.
Qed.

Section PriceTheorems.
Context {P : Platform}.

Lemma whole_prices_read (limit : option nat) :
  forallb (whole_price_read limit) (map Z.of_nat (seq 0 (Z.to_nat 10000))) = true.
Proof. vm_compute. reflexivity. Qed.

Lemma decimal_prices_read :
  forallb (fun n => forallb (decimal_price_read n) (map Z.of_nat (seq 0 10)))
    (map Z.of_nat (seq 0 (Z.to_nat 1000))) = true.
Proof. vm_compute. reflexivity. Qed.

Lemma areas_read :
  forallb area_read (map Z.of_nat (seq 0 (Z.to_nat 2000))) = true.
Proof. vm_compute. reflexivity. Qed.

(** A price of a whole number of millions, below ten thousand, written
    with the unit [triệu] or [tr], is read exactly, by the parser of the
    four adapters and by batdongsan's. *)
Theorem whole_millions_read (limit : option nat) (n : Z) :
  0 <= n < 10000 ->
  parse_price (pretty n +:+ " triệu/tháng") = Ok (VInt (n * 1000000)) /\
  parse_price (pretty n +:+ "tr") = Ok (VInt (n * 1000000)) /\
  parse_price_batdongsan limit (pretty n +:+ " triệu/tháng") =
    Ok (VInt (n * 1000000)).
Proof.
  intros Hn. pose proof (whole_prices_read limit) as H.
  rewrite forallb_forall in H.
  specialize (H n (range_elem 0 (Z.to_nat 10000) n ltac:(lia))).
  unfold whole_price_read in H.
  apply andb_prop in H as [H H3]. apply andb_prop in H as [H1 H2].
  repeat split; now apply is_int_eq.
Qed.

(** A price with one decimal is truncated after the multiplication by a
    million in floating point: the result is the exact value or one
    below it, never above. *)
Theorem decimal_price_truncated (n d : Z) :
  0 <= n < 1000 -> 0 <= d <= 9 ->
  exists price,
    parse_price (pretty n +:+ "," +:+ pretty d +:+ " triệu") = Ok (VInt price) /\
    n * 1000000 + d * 100000 - 1 <= price <= n * 1000000 + d * 100000.
Proof.
  intros Hn Hd. pose proof decimal_prices_read as H.
  rewrite forallb_forall in H.
  specialize (H n (range_elem 0 (Z.to_nat 1000) n ltac:(lia))).
  rewrite forallb_forall in H.
  specialize (H d (range_elem 0 10 d ltac:(lia))).
  unfold decimal_price_read, is_int_within in H.
  destruct (parse_price _) as [[| | z | | | |]|]; try discriminate.
  exists z. split; [reflexivity | lia].
Qed.

(** An area below two thousand square metres is read exactly when whole,
    and cut to its whole part when written with one decimal after a
    comma. *)
Theorem area_floor_read (n d : Z) :
  0 <= n < 2000 -> 0 <= d <= 9 ->
  parse_area (pretty n +:+ " m²") = Ok (VInt n) /\
  parse_area (pretty n +:+ "m2") = Ok (VInt n) /\
  parse_area (pretty n +:+ "," +:+ pretty d +:+ " m2") = Ok (VInt n).
Proof.
  intros Hn Hd. pose proof areas_read as H.
  rewrite forallb_forall in H.
  specialize (H n (range_elem 0 (Z.to_nat 2000) n ltac:(lia))).
  unfold area_read in H.
  apply andb_prop in H as [H H3]. apply andb_prop in H as [H1 H2].
  rewrite forallb_forall in H3.
  specialize (H3 d (range_elem 0 10 d ltac:(lia))).
  repeat split; now apply is_int_eq.
Qed.

End PriceTheorems.

(** ** Decoding *)

(** Before a byte below 128 the decoding of a text ends: what comes from
    the text and what comes from the rest are decoded apart. *)
Lemma decode_from_app (a : string) (c : ascii) (r : string) (acc : N) (more : nat)
    (low : N) :
  (N_of_ascii c <? 0x80)%N = true ->
  utf8_decode_from (a +:+ String c r) acc more low =
  utf8_decode_from a acc more low ++ utf8_decode (String c r).
Proof.
  intros Hc. revert acc more low.
  induction a as [|c' a IH]; intros acc more low.
  - change (EmptyString +:+ String c r) with (String c r).
    unfold utf8_decode. cbn [utf8_decode_from]. unfold utf8_head, is_continuation.
    rewrite Hc. apply N.ltb_lt in Hc.
    destruct (N.leb_spec 0x80 (N_of_ascii c)); [lia |].
    destruct more; reflexivity.
  - change (String c' a +:+ String c r) with (String c' (a +:+ String c r)).
    cbn [utf8_decode_from].
    destruct (utf8_head (N_of_ascii c')) as [[[bits [|n]] lo]|];
      destruct more as [|[|k]]; try destruct (is_continuation (N_of_ascii c'));
      rewrite ?IH; reflexivity.
Qed.

Lemma decode_app (a : string) (c : ascii) (r : string) :
  (N_of_ascii c <? 0x80)%N = true ->
  utf8_decode (a +:+ String c r) = utf8_decode a ++ utf8_decode (String c r).
Proof. apply decode_from_app. Qed.

Lemma utf8_head_inv (b bits : N) (n : nat) (lo : N) :
  utf8_head b = Some (bits, n, lo) ->
  (n = O /\ bits = b) \/ (n <> O /\ (0x80 <= lo)%N).
Proof.
  unfold utf8_head.
  repeat match goal with
         | |- (if ?x then _ else _) = _ -> _ => destruct x
         end; intros [= <- <- <-]; (left; now split) || (right; split; [discriminate | lia]).
Qed.

Lemma not_t_code (c : ascii) :
  Ascii.eqb c "t" = false -> negb (N_of_ascii c =? 0x74)%N = true.
Proof.
  intros H. apply negb_true_iff, N.eqb_neq. intros E.
  apply Ascii.eqb_neq in H. apply H.
  rewrite <- (ascii_N_embedding c), E. reflexivity.
Qed.

(** A text without the byte [t] has no code point [t]: a sequence of
    several bytes encodes no code point below 128. *)
Lemma decode_from_no_t (s : string) (acc : N) (more : nat) (low : N) :
  (more <> O -> 0x80 <= low)%N ->
  no_t_byte s = true -> no_t (utf8_decode_from s acc more low) = true.
Proof.
  revert acc more low. induction s as [|c s IH]; intros acc more low Hlow Hs.
  - destruct more; reflexivity.
  - unfold no_t_byte in Hs. cbn [list_ascii_of_string forallb] in Hs.
    apply andb_prop in Hs as [Hc Hs]. apply negb_true_iff in Hc.
    fold (no_t_byte s) in Hs.
    assert (Z0 : no_t (utf8_decode_from s 0 O 0) = true)
      by (apply IH; [congruence | exact Hs]).
    assert (F : no_t (match utf8_head (N_of_ascii c) with
                      | Some (bits, O, _) => bits :: utf8_decode_from s 0 O 0
                      | Some (bits, n, low) => utf8_decode_from s bits n low
                      | None => replacement :: utf8_decode_from s 0 O 0
                      end) = true).
    { destruct (utf8_head (N_of_ascii c)) as [[[bits n] lo]|] eqn:E.
      - destruct (utf8_head_inv _ _ _ _ E) as [[-> ->] | [Hn Hlo]].
        + unfold no_t. cbn [forallb]. fold (no_t (utf8_decode_from s 0 0 0)).
          now rewrite Z0, (not_t_code c Hc).
        + destruct n as [|n]; [contradiction |].
          apply IH; [intros _; exact Hlo | exact Hs].
      - unfold no_t. cbn [forallb]. fold (no_t (utf8_decode_from s 0 0 0)).
        now rewrite Z0. }
    cbn [utf8_decode_from]. destruct more as [|k]; [exact F |].
    destruct (is_continuation (N_of_ascii c)).
    + specialize (Hlow ltac:(discriminate)). destruct k as [|k].
      * unfold no_t. cbn [forallb]. fold (no_t (utf8_decode_from s 0 0 0)).
        rewrite Z0, andb_true_r.
        destruct (N.ltb_spec (acc * 64 + (N_of_ascii c - 128)) low); [reflexivity |].
        apply negb_true_iff, N.eqb_neq. lia.
      * apply IH; [intros _; exact Hlow | exact Hs].
    + unfold no_t. cbn [forallb]. exact F.
Qed.

Lemma decode_no_t (s : string) :
  no_t_byte s = true -> no_t (utf8_decode s) = true.
Proof. apply decode_from_no_t. intros H. now contradiction H. Qed.

(** ** The adapters' parser of dates *)

Lemma re_search_cons {A} (m : matcher A) (cp : N) (r : list N) :
  m (cp :: r) = [] -> re_search m (cp :: r) = re_search m r.
Proof. intros H. cbn [re_search]. now rewrite H. Qed.

Lemma re_search_head {A} (m : matcher A) (s : list N) (a : A) (rest : list N)
    (more : list (A * list N)) :
  m s = (a, rest) :: more -> re_search m s = Some a.
Proof. intros H. destruct s; cbn [re_search]; now rewrite H. Qed.

Lemma m_lit_code (c : ascii) (r : list N) : m_lit c (N_of_ascii c :: r) = [(tt, r)].
Proof. unfold m_lit. now rewrite N.eqb_refl. Qed.

Lemma encode_digit (n : Z) (rest : string) :
  0 <= n <= 9 ->
  utf8_encode_char (Z.to_N (48 + n)) rest = String (digit_char n) rest.
Proof.
  intros H. unfold utf8_encode_char.
  destruct (N.ltb_spec (Z.to_N (48 + n)) 0x80); [reflexivity | lia].
Qed.

Section DateFacts.
Context {P : Platform}.

Lemma m_class_code (n : Z) (r : list N) :
  0 <= n <= 9 ->
  m_class is_decimal (Z.to_N (48 + n) :: r) = [(Z.to_N (48 + n), r)].
Proof.
  intros H. unfold m_class, is_decimal. now rewrite (decimal_code n H).
Qed.

Lemma re_dmy_text (d : date) (rest : string) :
  0 <= day d <= 99 -> 0 <= month d <= 99 -> 0 <= year d <= 9999 ->
  re_dmy (utf8_decode (dmy_text d rest)) = [(isoformat d, utf8_decode rest)].
Proof.
  intros Hd Hm Hy.
  assert (D1 : 0 <= day d / 10 <= 9) by (Z.div_mod_to_equations; lia).
  assert (D0 : 0 <= day d mod 10 <= 9) by (Z.div_mod_to_equations; lia).
  assert (M1 : 0 <= month d / 10 <= 9) by (Z.div_mod_to_equations; lia).
  assert (M0 : 0 <= month d mod 10 <= 9) by (Z.div_mod_to_equations; lia).
  assert (Y3 : 0 <= year d / 1000 <= 9) by (Z.div_mod_to_equations; lia).
  assert (Y2 : 0 <= year d / 100 mod 10 <= 9) by (Z.div_mod_to_equations; lia).
  assert (Y1 : 0 <= year d / 10 mod 10 <= 9) by (Z.div_mod_to_equations; lia).
  assert (Y0 : 0 <= year d mod 10 <= 9) by (Z.div_mod_to_equations; lia).
  unfold re_dmy, dmy_text, pad2, pad4, m_bind.
  rewrite (decode_digit_char _ _ D1), (decode_digit_char _ _ D0).
  rewrite (decode_ascii "/") by reflexivity.
  rewrite (decode_digit_char _ _ M1), (decode_digit_char _ _ M0).
  rewrite (decode_ascii "/") by reflexivity.
  rewrite (decode_digit_char _ _ Y3), (decode_digit_char _ _ Y2),
    (decode_digit_char _ _ Y1), (decode_digit_char _ _ Y0).
  rewrite (m_class_code _ _ D1). cbn [flat_map fst snd app].
  rewrite (m_class_code _ _ D0). cbn [flat_map fst snd app].
  rewrite m_lit_code. cbn [flat_map fst snd app].
  rewrite (m_class_code _ _ M1). cbn [flat_map fst snd app].
  rewrite (m_class_code _ _ M0). cbn [flat_map fst snd app].
  rewrite m_lit_code. cbn [flat_map fst snd app].
  rewrite (m_class_code _ _ Y3). cbn [flat_map fst snd app].
  rewrite (m_class_code _ _ Y2). cbn [flat_map fst snd app].
  rewrite (m_class_code _ _ Y1). cbn [flat_map fst snd app].
  rewrite (m_class_code _ _ Y0). cbn [flat_map fst snd app].
  unfold m_ret, isoformat, pad4, pad2. cbn [utf8_encode].
  rewrite !encode_digit by assumption. reflexivity.
Qed.

Lemma re_dmy_no_digit (cp : N) (r : list N) :
  is_decimal cp = false -> re_dmy (cp :: r) = [].
Proof. intros H. unfold re_dmy, m_bind, m_class. now rewrite H. Qed.

Lemma re_search_dmy_skip (pre s : list N) :
  forallb (fun cp => negb (is_decimal cp)) pre = true ->
  re_search re_dmy (pre ++ s) = re_search re_dmy s.
Proof.
  induction pre as [|cp pre IH]; intros H; [reflexivity |].
  cbn [forallb] in H. apply andb_prop in H as [Hc H]. apply negb_true_iff in Hc.
  cbn [app]. rewrite re_search_cons by now apply re_dmy_no_digit.
  now apply IH.
Qed.

End DateFacts.

Lemma dmy_text_head (d : date) (rest : string) :
  0 <= day d <= 99 ->
  exists c r, dmy_text d rest = String c r /\ (N_of_ascii c <? 0x80)%N = true.
Proof.
  intros H. unfold dmy_text, pad2. eexists _, _. split; [reflexivity |].
  rewrite digit_char_code by (Z.div_mod_to_equations; lia).
  apply N.ltb_lt. Z.div_mod_to_equations. lia.
Qed.

Lemma append_dmy_nonempty (pre : string) (d : date) (rest : string) :
  String.eqb (pre +:+ dmy_text d rest) "" = false.
Proof. destruct pre; reflexivity. Qed.

Section DateTheorems.
Context {P : Platform}.
Context (max_str_digits : option nat).
Context (days_ago : Z -> res string).
Context (today : date).

(** A date written [DD/MM/YYYY], after a text without decimal digits (of
    any script) and before any text, is read by batdongsan's [_parse_date]
    as the ISO text of that date, which [calculate_months_on_market] then
    reads back: the months on the market are those between the date and
    today. *)
Theorem posting_date_round_trip (d : date) (pre rest : string) :
  valid_date d = true -> no_digit pre = true ->
  parse_date max_str_digits days_ago (pre +:+ dmy_text d rest) = VStr (isoformat d) /\
  calculate_months_on_market today
    (parse_date max_str_digits days_ago (pre +:+ dmy_text d rest)) =
    Ok (VInt (months_between today d)).
Proof.
  intros Hv Hpre. destruct (valid_date_bounds d Hv) as (Hy & Hm & Hd).
  assert (E : parse_date max_str_digits days_ago (pre +:+ dmy_text d rest) =
              VStr (isoformat d)).
  { unfold parse_date. rewrite append_dmy_nonempty. cbn zeta.
    destruct (dmy_text_head d rest ltac:(lia)) as (c & r & Et & Hc).
    rewrite Et, (decode_app pre c r Hc), <- Et.
    rewrite (re_search_dmy_skip _ _ Hpre).
    rewrite (re_search_head re_dmy _ (isoformat d) (utf8_decode rest) []);
      [reflexivity |].
    apply re_dmy_text; lia. }
  split; [exact E |].
  rewrite E, calculate_months_spec, strptime_isoformat by exact Hv. reflexivity.
Qed.

End DateTheorems.

(** ** Prices without a unit *)

Lemma no_t_lower (s : string) : no_t_byte (lower s) = no_unit s.
Proof.
  unfold no_t_byte, no_unit. induction s as [|c s IH]; [reflexivity |].
  cbn [lower list_ascii_of_string forallb]. now rewrite IH.
Qed.

Lemma no_t_replace (s : string) :
  no_t_byte s = true -> no_t_byte (replace_char "," "." s) = true.
Proof.
  unfold no_t_byte. induction s as [|c s IH]; [reflexivity |].
  cbn [replace_char list_ascii_of_string forallb]. intros H.
  apply andb_prop in H as [Hc H]. rewrite (IH H), andb_true_r.
  destruct (Ascii.eqb c ","); [reflexivity | exact Hc].
Qed.

Lemma no_t_remove (s : string) :
  no_t_byte s = true -> no_t_byte (remove_char " " s) = true.
Proof.
  unfold no_t_byte. induction s as [|c s IH]; [reflexivity |].
  cbn [remove_char list_ascii_of_string forallb]. intros H.
  apply andb_prop in H as [Hc H].
  destruct (Ascii.eqb c " "); [exact (IH H) |].
  cbn [list_ascii_of_string forallb]. now rewrite Hc, (IH H).
Qed.

Lemma no_t_tail (cp : N) (s : list N) : no_t (cp :: s) = true -> no_t s = true.
Proof.
  unfold no_t. cbn [forallb]. intros H. now apply andb_prop in H as [_ H].
Qed.

Lemma m_plus_rest (class : N -> bool) (s amount rest : list N) :
  In (amount, rest) (m_plus class s) -> no_t s = true -> no_t rest = true.
Proof.
  revert amount rest. induction s as [|c s IH]; intros amount rest Hin Hs; [destruct Hin |].
  cbn [m_plus] in Hin. destruct (class c); [| destruct Hin].
  apply in_app_or in Hin as [Hin | [[= _ <-] | []]].
  - apply in_map_iff in Hin as ([a r] & [= _ <-] & Hin).
    exact (IH a r Hin (no_t_tail c s Hs)).
  - exact (no_t_tail c s Hs).
Qed.

Lemma m_star_rest (class : N -> bool) (s amount rest : list N) :
  In (amount, rest) (m_star class s) -> no_t s = true -> no_t rest = true.
Proof.
  unfold m_star. intros Hin Hs. apply in_app_or in Hin as [Hin | [[= _ <-] | []]].
  - exact (m_plus_rest class s amount rest Hin Hs).
  - exact Hs.
Qed.

Lemma unit_needs_t (s : list N) :
  no_t s = true -> m_alt (m_text "triệu") (m_text "tr") s = [].
Proof.
  destruct s as [|cp s]; [reflexivity |].
  unfold no_t. cbn [forallb]. intros H.
  apply andb_prop in H as [Hc _]. apply negb_true_iff in Hc.
  rewrite N.eqb_sym in Hc.
  assert (L : m_class (N.eqb 0x74) (cp :: s) = []) by (unfold m_class; now rewrite Hc).
  unfold m_alt, m_text.
  change (utf8_decode "triệu") with [0x74; 0x72; 0x69; 0x1EC7; 0x75]%N.
  change (utf8_decode "tr") with [0x74; 0x72]%N.
  cbn [m_points]. unfold m_bind at 1. rewrite L. cbn [flat_map app].
  unfold m_bind at 1. rewrite L. reflexivity.
Qed.

Lemma flat_map_nil {A B} (f : A -> list B) (l : list A) :
  (forall x, In x l -> f x = []) -> flat_map f l = [].
Proof.
  induction l as [|a l IH]; intros H; [reflexivity |].
  cbn [flat_map]. rewrite (H a (or_introl eq_refl)), IH; [reflexivity |].
  intros x Hx. apply H. now right.
Qed.

Section UnitTheorems.
Context {P : Platform}.

Lemma re_price_needs_t (s : list N) : no_t s = true -> re_price s = [].
Proof.
  intros Hs. unfold re_price, m_bind at 1.
  apply flat_map_nil. intros [amount rest] Hin. cbn [fst snd].
  pose proof (m_plus_rest _ _ _ _ Hin Hs) as Hrest.
  unfold m_bind at 1. apply flat_map_nil. intros [spaces rest'] Hin'. cbn [fst snd].
  pose proof (m_star_rest _ _ _ _ Hin' Hrest) as Hrest'.
  unfold m_bind. now rewrite (unit_needs_t rest' Hrest').
Qed.

Lemma re_search_price_needs_t (s : list N) :
  no_t s = true -> re_search re_price s = None.
Proof.
  induction s as [|c s IH]; intros Hs.
  - reflexivity.
  - rewrite re_search_cons by now apply re_price_needs_t.
    exact (IH (no_t_tail c s Hs)).
Qed.

(** A price text without the letter [t], in either case, names no unit:
    the parser of alonhadat, chotot, homedy and muaban returns [None]
    for it, whatever number it holds. *)
Theorem price_without_unit (text : string) :
  no_unit text = true -> parse_price text = Ok VNone.
Proof.
  intros H. unfold parse_price.
  destruct (String.eqb text ""); [reflexivity |].
  rewrite re_search_price_needs_t; [reflexivity |].
  apply decode_no_t, no_t_remove, no_t_replace. now rewrite no_t_lower.
Qed.

End UnitTheorems.

(** ** Relative dates *)

Section RelativeDates.
Context {P : Platform}.
Context (max_str_digits : option nat).
Context (days_ago : Z -> res string).

Lemma counts_read :
  forallb count_read (map Z.of_nat (seq 0 (Z.to_nat 1000))) = true.
Proof. vm_compute. reflexivity. Qed.

Lemma int_of_digits_limit (limit : option nat) (s : list N) (n : Z) :
  int_of_digits (Some 3%nat) s = Ok n ->
  (forall k, limit = Some k -> (3 <= k)%nat) ->
  int_of_digits limit s = Ok n.
Proof.
  unfold int_of_digits. intros H Hl.
  destruct (digits_value s 0); [| discriminate].
  destruct s as [|cp s]; [discriminate |].
  destruct limit as [k|]; [| now destruct (3 <? length (cp :: s))%nat].
  specialize (Hl k eq_refl).
  destruct (Nat.ltb_spec 3 (length (cp :: s))); [discriminate |].
  destruct (Nat.ltb_spec k (length (cp :: s))); [lia | exact H].
Qed.

(** A relative date, ["<n> ngày trước"] or ["<n> tháng trước"] with
    [n] below a thousand, is read as the day [n] days, or [30 * n] days,
    before now: a month counts for thirty days, and a day that cannot be
    computed gives [None]. *)
Theorem relative_posting_date (n : Z) :
  0 <= n < 1000 ->
  (forall k, max_str_digits = Some k -> (3 <= k)%nat) ->
  parse_date max_str_digits days_ago (pretty n +:+ " ngày trước") =
    match days_ago n with Ok day => VStr day | Raise _ => VNone end /\
  parse_date max_str_digits days_ago (pretty n +:+ " tháng trước") =
    match days_ago (n * 30) with Ok day => VStr day | Raise _ => VNone end.
Proof.
  intros Hn Hl. pose proof counts_read as H.
  rewrite forallb_forall in H.
  specialize (H n (range_elem 0 (Z.to_nat 1000) n ltac:(lia))).
  unfold count_read in H. cbn zeta in H.
  destruct (re_search re_dmy (utf8_decode (pretty n +:+ " ngày trước"))) eqn:E1;
    [discriminate |].
  destruct (re_search (re_count "ngày") (utf8_decode (pretty n +:+ " ngày trước")))
    as [c1|] eqn:E2; [| discriminate].
  destruct (re_search re_dmy (utf8_decode (pretty n +:+ " tháng trước"))) eqn:E3;
    [discriminate |].
  destruct (re_search (re_count "ngày") (utf8_decode (pretty n +:+ " tháng trước")))
    eqn:E4; [discriminate |].
  destruct (re_search (re_count "tháng") (utf8_decode (pretty n +:+ " tháng trước")))
    as [c2|] eqn:E5; [| discriminate].
  destruct (int_of_digits (Some 3%nat) c1) as [k1|] eqn:E6; [| discriminate].
  destruct (int_of_digits (Some 3%nat) c2) as [k2|] eqn:E7; [| discriminate].
  apply andb_prop in H as [H1 H2]. apply Z.eqb_eq in H1, H2. subst k1 k2.
  apply (int_of_digits_limit max_str_digits) in E6; [| exact Hl].
  apply (int_of_digits_limit max_str_digits) in E7; [| exact Hl].
  assert (N1 : String.eqb (pretty n +:+ " ngày trước") "" = false).
  { destruct (pretty n +:+ " ngày trước"); [discriminate E2 | reflexivity]. }
  assert (N2 : String.eqb (pretty n +:+ " tháng trước") "" = false).
  { destruct (pretty n +:+ " tháng trước"); [discriminate E5 | reflexivity]. }
  unfold parse_date. rewrite N1, N2. cbn zeta.
  rewrite E1, E2, E3, E4, E5, E6, E7. split; reflexivity.
Qed.

End RelativeDates.

(** ** The records of the adapters *)

Lemma first_chars_count (n : nat) (s : string) :
  (char_count (first_chars n s) <= n)%nat.
Proof.
  revert n. induction s as [|c s IH]; intros n; cbn [first_chars char_count];
    [lia |].
  destruct (is_continuation (N_of_ascii c)) eqn:E.
  - cbn [char_count]. rewrite E. apply IH.
  - destruct n as [|n]; cbn [char_count]; [lia |]. rewrite E.
    specialize (IH n). lia.
Qed.

Lemma first_chars_empty (n : nat) (s : string) :
  String.eqb s "" = false -> String.eqb (first_chars (S n) s) "" = false.
Proof.
  destruct s as [|c s]; [discriminate |]. intros _. cbn [first_chars].
  now destruct (is_continuation (N_of_ascii c)).
Qed.

Lemma prefix_append (p a b : string) :
  String.prefix p a = true -> String.prefix p (a +:+ b) = true.
Proof.
  revert a. induction p as [|c p IH]; intros a H; [now destruct (a +:+ b) |].
  destruct a as [|c' a]; [discriminate |].
  change (String c' a +:+ b) with (String c' (a +:+ b)).
  cbn [String.prefix] in H |- *.
  destruct (ascii_dec c c'); [now apply IH | discriminate].
Qed.

Lemma absolute_link_is_link (base link : string) :
  starts_with "http" base = true -> is_link (absolute_link base link) = true.
Proof.
  intros Hb. unfold absolute_link, is_link.
  destruct (String.eqb link "") eqn:E; cbn [negb andb]; [now rewrite E |].
  destruct (starts_with "http" link) eqn:S; cbn [negb].
  - rewrite S. apply orb_true_r.
  - unfold starts_with in *. rewrite (prefix_append _ _ _ Hb). apply orb_true_r.
Qed.

Section ParserValues.
Context {P : Platform}.

Lemma millions_int (amount : list N) (v : value) :
  millions amount = Ok v -> none_or_int v = true.
Proof.
  unfold millions. intros H.
  apply res_bind_inv in H as (x & _ & H). apply res_bind_inv in H as (n & _ & H).
  now injection H as <-.
Qed.

Lemma parse_price_int (text : string) (v : value) :
  parse_price text = Ok v -> none_or_int v = true.
Proof.
  unfold parse_price. destruct (String.eqb text ""); [now intros [= <-] |].
  destruct (re_search re_price _); [apply millions_int | now intros [= <-]].
Qed.

Lemma parse_price_batdongsan_int (limit : option nat) (text : string) (v : value) :
  parse_price_batdongsan limit text = Ok v -> none_or_int v = true.
Proof.
  unfold parse_price_batdongsan. destruct (String.eqb text ""); [now intros [= <-] |].
  set (t := remove_char _ _).
  assert (B : forall w, parse_price_body limit t = Ok w -> none_or_int w = true).
  { unfold parse_price_body. intros w.
    destruct (re_search re_price _); [apply millions_int |].
    destruct (re_search re_number _) as [amount|]; [| now intros [= <-]].
    destruct (6 <? length amount)%nat; [| now intros [= <-]].
    intros H. apply res_bind_inv in H as (n & _ & H). now injection H as <-. }
  destruct (parse_price_body limit t) as [w|e] eqn:E.
  - intros [= <-]. now apply B.
  - destruct e; try discriminate; now intros [= <-].
Qed.

Lemma parse_area_int (text : string) (v : value) :
  parse_area text = Ok v -> none_or_int v = true.
Proof.
  unfold parse_area. destruct (String.eqb text ""); [now intros [= <-] |].
  destruct (re_search re_area _); [| now intros [= <-]].
  intros H. apply res_bind_inv in H as (x & _ & H).
  apply res_bind_inv in H as (n & _ & H). now injection H as <-.
Qed.

End ParserValues.

Lemma parse_if_int (parse : string -> res value) (text : option string) (v : value) :
  (forall t w, parse t = Ok w -> none_or_int w = true) ->
  parse_if parse text = Ok v -> none_or_int v = true.
Proof.
  intros Hp. destruct text as [t|]; cbn; [apply Hp | now intros [= <-]].
Qed.

Lemma parse_date_str {P : Platform} (limit : option nat) (days_ago : Z -> res string)
    (text : string) :
  none_or_str (parse_date limit days_ago text) = true.
Proof.
  unfold parse_date. cbn zeta.
  repeat match goal with
         | |- context [match ?x with _ => _ end] => destruct x
         | |- context [if ?x then _ else _] => destruct x
         end; reflexivity.
Qed.

Lemma str_truthy (s : string) : truthy (VStr s) = negb (String.eqb s "").
Proof. now destruct s. Qed.

Lemma site_record_is_shaped (name address link : string) (price area : value) :
  String.eqb name "" && String.eqb address "" = false ->
  is_link link = true -> none_or_int price = true -> none_or_int area = true ->
  site_record_shape (site_record name address link price area).
Proof.
  intros Hn Hl Hp Ha. split; try reflexivity.
  - exists (first_chars 100 name). split; [reflexivity | apply first_chars_count].
  - now exists address.
  - change (truthy (VStr (first_chars 100 name)) || truthy (VStr address) = true).
    rewrite !str_truthy. destruct (String.eqb name "") eqn:E.
    + cbn in Hn. rewrite Hn. apply orb_true_r.
    + now rewrite first_chars_empty.
  - now exists link.
  - exact Hp.
  - exact Ha.
Qed.

Lemma finish_listing_shaped {P : Platform} (item : card) (name link : string) (r : dict) :
  is_link link = true ->
  finish_listing item name link = Ok (Some r) -> site_record_shape r.
Proof.
  intros Hl H. unfold finish_listing in H.
  apply res_bind_inv in H as (price & Hp & H).
  apply res_bind_inv in H as (area & Ha & H).
  destruct (String.eqb name "" && String.eqb _ "") eqn:E; [discriminate |].
  injection H as <-. apply site_record_is_shaped; [exact E | exact Hl | |].
  - exact (parse_if_int _ _ _ parse_price_int Hp).
  - exact (parse_if_int _ _ _ parse_area_int Ha).
Qed.

Section SiteTheorems.
Context {P : Platform}.
Context (max_str_digits : option nat).
Context (days_ago : Z -> res string).
Context (nominatim : string -> geo_reply).
Context (today : date).

Abbreviation parse := (parse_listing max_str_digits days_ago).
Abbreviation normalize := (normalize_listing nominatim today).

Lemma adapter_record_shape_holds (s : site) (item : card) (r : dict) :
  parse s item = Ok (Some r) -> site_record_shape r.
Proof.
  destruct s; cbn [parse_listing]; intros H.
  - unfold parse_listing_alonhadat in H.
    eapply finish_listing_shaped; [| exact H].
    destruct (inner_href item); [now apply absolute_link_is_link | reflexivity].
  - unfold parse_listing_batdongsan in H.
    apply res_bind_inv in H as (price & Hp & H).
    apply res_bind_inv in H as (area & Ha & H).
    destruct (String.eqb _ "" && String.eqb _ "") eqn:E; [discriminate |].
    injection H as <-.
    pose proof (site_record_is_shaped _ _ _ price area E
      (absolute_link_is_link "https://batdongsan.com.vn" (own_or_inner_link item) eq_refl)
      (parse_if_int _ _ _ (parse_price_batdongsan_int max_str_digits) Hp)
      (parse_if_int _ _ _ parse_area_int Ha)) as [].
    split; try assumption; try reflexivity.
    change (none_or_str (match date_text item with
                         | Some t => parse_date max_str_digits days_ago t
                         | None => VNone
                         end) = true).
    destruct (date_text item); [apply parse_date_str | reflexivity].
  - unfold parse_html_listing in H.
    apply res_bind_inv in H as (price & Hp & H).
    destruct (String.eqb _ "") eqn:E; [discriminate |].
    injection H as <-. split; try reflexivity.
    + exists (first_chars 100 (default EmptyString (title item))).
      split; [reflexivity | apply first_chars_count].
    + now exists EmptyString.
    + change (truthy (VStr (first_chars 100 (default EmptyString (title item)))) ||
              truthy (VStr "") = true).
      now rewrite str_truthy, first_chars_empty.
    + exists (absolute_link "https://www.chotot.com" (own_or_inner_link item)).
      split; [reflexivity |]. now apply absolute_link_is_link.
    + exact (parse_if_int _ _ _ parse_price_int Hp).
  - unfold parse_listing_homedy in H.
    eapply finish_listing_shaped; [| exact H]. now apply absolute_link_is_link.
  - unfold parse_listing_muaban in H.
    eapply finish_listing_shaped; [| exact H]. now apply absolute_link_is_link.
Qed.

(** Whatever the item, the record an adapter returns for it has no
    coordinates and no month count, a name of at most 100 characters and
    an address that are strings and not both empty, a link that is empty
    or absolute, a price and an area that are [None] or integers, and a
    posting date that is [None] or a string. *)
Theorem adapter_record_shape (s : site) (item : card) (r : dict) :
  parse s item = Ok (Some r) -> site_record_shape r.
Proof. apply adapter_record_shape_holds. Qed.

Lemma geocode_address_floats (address : value) :
  geocode_address nominatim address = (VNone, VNone) \/
  exists la lo, geocode_address nominatim address = (VFloat la, VFloat lo).
Proof.
  unfold geocode_address.
  destruct (nominatim (py_str address +:+ _)) as [la lo| |];
    [right; now exists la, lo | | now left].
  destruct address as [| | | |a| |]; try now left.
  destruct (nominatim (strip (before_comma a) +:+ _)) as [la lo| |];
    [right; now exists la, lo | now left..].
Qed.

Lemma shaped_resolve (r : dict) :
  site_record_shape r ->
  resolve_coordinates nominatim r =
  if truthy (get r "address") then geocode_address nominatim (get r "address")
  else (VNone, VNone).
Proof.
  intros [Hlat Hlng _ _ (address & Ha) _ _ _ _ _].
  unfold resolve_coordinates, get, get_or. rewrite Hlat, Hlng, Ha. reflexivity.
Qed.

Lemma shaped_normalizes (r : dict) (source : string) :
  site_record_shape r ->
  normalize r source = Ok None \/
  exists la lo,
    truthy (get r "address") = true /\
    geocode_address nominatim (get r "address") = (VFloat la, VFloat lo) /\
    normalize r source =
      Ok (Some (listing_of today r source
                  (VFloat (float_round la 7)) (VFloat (float_round lo 7)))).
Proof.
  intros H. rewrite normalize_listing_eq, (shaped_resolve r H). cbn zeta.
  destruct (truthy (get r "address")) eqn:Ea; [| now left].
  destruct (geocode_address_floats (get r "address")) as [E | (la & lo & E)];
    rewrite E; cbn [fst snd]; [now left |].
  destruct (truthy (VFloat la) && truthy (VFloat lo)); [| now left].
  right. exists la, lo. repeat split.
Qed.

(** Normalizing a record of an adapter never raises; it gives a listing
    only when the record has an address that the geocoding service finds,
    and the listing then carries the service's coordinates, rounded. *)
Theorem adapter_record_normalizes (s : site) (item : card) (r : dict) (source : string) :
  parse s item = Ok (Some r) ->
  normalize r source = Ok None \/
  exists la lo,
    truthy (get r "address") = true /\
    geocode_address nominatim (get r "address") = (VFloat la, VFloat lo) /\
    normalize r source =
      Ok (Some (listing_of today r source
                  (VFloat (float_round la 7)) (VFloat (float_round lo 7)))).
Proof.
  intros H. apply shaped_normalizes. exact (adapter_record_shape_holds s item r H).
Qed.

End SiteTheorems.

(** ** The loop over the items of a page *)

Lemma collect_items_spec (parse : card -> res (option dict)) (items : list card)
    (listings : list dict) :
  collect_items parse items listings = listings ++ omap (item_listing parse) items.
Proof.
  revert listings. induction items as [|item items IH]; intros listings; cbn.
  - now rewrite app_nil_r.
  - rewrite IH. unfold item_listing.
    destruct (parse item) as [[l|]|e]; [destruct (dict_truthy l) |..];
      now rewrite <- ?app_assoc.
Qed.

Lemma collect_items_elem (parse : card -> res (option dict)) (items : list card)
    (r : dict) :
  r ∈ collect_items parse items [] ->
  exists item, item ∈ items /\ parse item = Ok (Some r).
Proof.
  rewrite collect_items_spec. cbn [app]. intros H.
  apply list_elem_of_omap in H as (item & Hin & H). exists item. split; [exact Hin |].
  unfold item_listing in H. destruct (parse item) as [[l|]|e]; try discriminate.
  destruct (dict_truthy l); [now injection H as -> | discriminate].
Qed.

(** An item whose parsing raises costs only itself: the records of the
    items before and after it are collected as if it were not there. *)
Theorem items_isolated (parse : card -> res (option dict))
    (before after : list card) (item : card) :
  is_ok (parse item) = false ->
  collect_items parse (before ++ item :: after) [] =
    collect_items parse before [] ++ collect_items parse after [] /\
  collect_items parse (before ++ item :: after) [] =
    collect_items parse (before ++ after) [].
Proof.
  intros H.
  assert (E : omap (item_listing parse) (item :: after) =
              omap (item_listing parse) after).
  { cbn. unfold item_listing at 1. now destruct (parse item). }
  rewrite !collect_items_spec. cbn [app]. rewrite !omap_app, E. split; reflexivity.
Qed.

Section SourceTheorems.
Context {P : Platform}.
Context (max_str_digits : option nat).
Context (days_ago : Z -> res string).
Context (nominatim : string -> geo_reply).
Context (today : date).
Context (scrape : string -> res (list dict)).

Abbreviation parse := (parse_listing max_str_digits days_ago).
Abbreviation normalize := (normalize_listing nominatim today).

Lemma normalize_all_total (source : string) (raws acc : list dict) :
  Forall (fun raw => is_ok (normalize raw source) = true) raws ->
  exists r, normalize_all nominatim today source raws acc = Ok r.
Proof.
  revert acc. induction raws as [|raw raws IH]; intros acc H; cbn.
  - now exists acc.
  - apply Forall_cons in H as [Hraw H].
    destruct (normalize raw source) as [o|e]; [| discriminate Hraw]. cbn.
    apply IH, H.
Qed.

Lemma normalize_all_none (source : string) (raws acc : list dict) :
  Forall (fun raw => normalize raw source = Ok None) raws ->
  normalize_all nominatim today source raws acc = Ok acc.
Proof.
  revert acc. induction raws as [|raw raws IH]; intros acc H; cbn; [reflexivity |].
  apply Forall_cons in H as [Hraw H]. rewrite Hraw. cbn. apply IH, H.
Qed.

(** A source whose raw records are what an adapter collects from the
    items of its pages is never recorded as an error by the
    normalization. *)
Theorem adapter_source_never_fails (s : site) (items : list card) (source : string) :
  scrape source = Ok (collect_items (parse s) items []) ->
  failure nominatim today scrape source = None.
Proof.
  intros Hs. unfold failure, scrape_source. rewrite Hs. cbn.
  destruct (normalize_all_total source (collect_items (parse s) items []) [])
    as (r & ->); [| reflexivity].
  apply Forall_forall. intros raw Hin.
  apply collect_items_elem in Hin as (item & _ & Hitem).
  destruct (shaped_normalizes nominatim today raw source
              (adapter_record_shape_holds max_str_digits days_ago s item raw Hitem))
    as [-> | (la & lo & _ & _ & ->)]; reflexivity.
Qed.

(** The records of chotot's HTML fallback have an empty address and no
    coordinates: a source that returns only such records contributes
    nothing, and without an error. *)
Theorem chotot_html_never_listed (items : list card) (source : string) :
  scrape source = Ok (collect_items parse_html_listing items []) ->
  contribution nominatim today scrape source = [] /\
  failure nominatim today scrape source = None.
Proof.
  intros Hs. unfold contribution, failure, scrape_source. rewrite Hs. cbn.
  rewrite normalize_all_none; [now split |].
  apply Forall_forall. intros raw Hin.
  apply collect_items_elem in Hin as (item & _ & Hitem).
  unfold parse_html_listing in Hitem.
  apply res_bind_inv in Hitem as (price & _ & Hitem).
  destruct (String.eqb _ ""); [discriminate |]. injection Hitem as <-.
  rewrite normalize_listing_eq. reflexivity.
Qed.

End SourceTheorems.

(** * Examples on the sample platform *)

Section Examples.
Local Existing Instance Sample.platform.

Abbreviation normalize_sample := (normalize_listing no_match mid_july).

Lemma coordinates_resolved_witness :
  normalize_sample ∅ "chotot.com" = Ok None /\
  normalize_sample raw_located "chotot.com" = Ok (Some (listed raw_located "chotot.com")) /\
  is_number (get (listed raw_located "chotot.com") "lat") = true /\
  is_number (get (listed raw_located "chotot.com") "lng") = true.
Proof.
  assert (H : normalize_sample raw_located "chotot.com" =
              Ok (Some (listed raw_located "chotot.com")))
    by (vm_compute; reflexivity).
  split; [apply (proj1 (coordinates_resolved no_match mid_july ∅ "chotot.com"));
          vm_compute; reflexivity |].
  split; [exact H |].
  destruct (proj2 (coordinates_resolved no_match mid_july raw_located "chotot.com")
              _ H) as (_ & _ & rlat & rlng & _ & _ & Hlat & Hlng & Nlat & Nlng).
  unfold get. rewrite Hlat, Hlng. split; assumption.
Defined.

(** C1 as stated fails: coordinates of 500 and 500 are returned as they
    are, outside the ranges of a latitude and of a longitude. *)
Lemma coordinates_out_of_range :
  normalize_sample raw_out_of_range "chotot.com" =
    Ok (Some (listing_of mid_july raw_out_of_range "chotot.com" (VInt 500) (VInt 500))) /\
  listing_of mid_july raw_out_of_range "chotot.com" (VInt 500) (VInt 500) !! "lat" =
    Some (VInt 500) /\
  listing_of mid_july raw_out_of_range "chotot.com" (VInt 500) (VInt 500) !! "lng" =
    Some (VInt 500) /\
  ~ (-90 <= 500 <= 90) /\ ~ (-180 <= 500 <= 180).
Proof.
  split; [vm_compute; reflexivity |].
  split; [reflexivity |]. split; [reflexivity |]. split; lia.
Qed.

Lemma remerge_idempotent_witness :
  Forall (fun x => duplicate_of x x = true) [office_a; office_b; office_c] /\
  merge_with_existing (File (Decoded (JArray [office_a; office_b; office_c])))
    [office_a; office_b; office_c] = Ok [office_a; office_c].
Proof.
  assert (H : Forall (fun x => duplicate_of x x = true) [office_a; office_b; office_c])
    by (repeat constructor; vm_compute; reflexivity).
  split; [exact H |].
  rewrite (remerge_idempotent [office_a; office_b; office_c] H).
  vm_compute. reflexivity.
Defined.

(** C2 as stated fails: a listing at latitude 0 has coordinates that are
    not null, and merging the one-element collection with itself keeps it
    twice. *)
Lemma remerge_zero_latitude :
  get on_equator "lat" = VInt 0 /\
  get on_equator "lng" = VFloat 108.2022 /\
  merge_with_existing (File (Decoded (JArray [on_equator]))) [on_equator] =
    Ok [on_equator; on_equator] /\
  deduplicate [on_equator] = Ok [on_equator].
Proof. repeat split; vm_compute; reflexivity. Qed.

Lemma first_seen_wins_witness :
  comparable ([office_a; office_b] ++ [office_c]) = true /\
  duplicate_of office_b office_a = true /\
  duplicate_of office_a office_b = true /\
  deduplicate [office_a; office_b] = Ok [office_a] /\
  deduplicate ([office_a; office_b] ++ [office_c]) = Ok [office_a; office_c] /\
  merge_with_existing (File (Decoded (JArray [office_a]))) [office_b] = Ok [office_a] /\
  merge_with_existing (File (Decoded (JArray [office_b]))) [office_a] = Ok [office_b].
Proof.
  assert (H1 : comparable ([office_a; office_b] ++ [office_c]) = true)
    by (vm_compute; reflexivity).
  assert (H2 : duplicate_of office_b office_a = true) by (vm_compute; reflexivity).
  assert (H3 : duplicate_of office_a office_b = true) by (vm_compute; reflexivity).
  destruct (first_seen_wins [office_a; office_b] office_c office_a office_b H1 H2 H3)
    as ((u & Hu & _ & Hstep) & _ & _ & Hm1 & Hm2).
  assert (Eu : u = [office_a]).
  { assert (E : deduplicate [office_a; office_b] = Ok [office_a])
      by (vm_compute; reflexivity).
    rewrite E in Hu. now injection Hu as <-. }
  subst u.
  split; [exact H1 |]. split; [exact H2 |]. split; [exact H3 |].
  split; [exact Hu |]. split; [| split; [exact Hm1 | exact Hm2]].
  rewrite Hstep. vm_compute. reflexivity.
Defined.

(** C3 as stated fails: the second of two listings at the same place on
    the equator is at distance 0 from the first, which was accepted, and
    is kept. *)
Lemma later_duplicate_kept :
  distance on_equator on_equator = Ok 0%float /\
  PrimFloat.ltb 0 0.1 = true /\
  deduplicate [on_equator; on_equator] = Ok [on_equator; on_equator].
Proof. repeat split; vm_compute; reflexivity. Qed.

Lemma proximity_threshold_witness :
  located near_base = true /\ located near_50 = true /\ located near_150 = true /\
  distance near_50 near_base = Ok 0.05%float /\
  distance near_150 near_base = Ok 0.15%float /\
  comparable [office_b; office_a] = true /\
  deduplicate [near_base; near_50] = Ok [near_base] /\
  deduplicate [near_base; near_150] = Ok [near_base; near_150] /\
  scan_unique office_b [office_a] = Ok true.
Proof.
  assert (Ha : located near_base = true) by reflexivity.
  assert (Hb : located near_50 = true) by reflexivity.
  assert (Hc : located near_150 = true) by reflexivity.
  assert (H50 : distance near_50 near_base = Ok 0.05%float) by (vm_compute; reflexivity).
  assert (H150 : distance near_150 near_base = Ok 0.15%float) by (vm_compute; reflexivity).
  assert (Hcmp : comparable [office_b; office_a] = true) by (vm_compute; reflexivity).
  destruct (proximity_threshold near_base near_50 office_b 0.05 [office_a]
              Ha Hb H50 Hcmp) as (_ & _ & Hmerged & Hscan).
  destruct (proximity_threshold near_base near_150 office_b 0.15 [office_a]
              Ha Hc H150 Hcmp) as (_ & Hapart & _ & _).
  split; [exact Ha |]. split; [exact Hb |]. split; [exact Hc |].
  split; [exact H50 |]. split; [exact H150 |]. split; [exact Hcmp |].
  split; [exact (Hmerged eq_refl) |]. split; [exact (Hapart eq_refl) |].
  apply Hscan. exists office_a, 0.050037716989850267%float.
  split; [left |]. split; [reflexivity |]. split; [reflexivity |].
  split; vm_compute; reflexivity.
Defined.

(** C4 as stated fails: [north_50] lies 0.05 km from [on_equator], whose
    coordinates are a valid latitude and longitude, and the two are not
    merged; the scan does not classify it as a duplicate. *)
Lemma equator_not_merged :
  distance north_50 on_equator = Ok 0.05%float /\
  PrimFloat.ltb 0.05 0.1 = true /\
  deduplicate [on_equator; north_50] = Ok [on_equator; north_50] /\
  scan_unique north_50 [on_equator] = Ok false.
Proof. repeat split; vm_compute; reflexivity. Qed.

Lemma months_on_market_witness :
  normalize_sample raw_posted "batdongsan.com.vn" =
    Ok (Some (listed raw_posted "batdongsan.com.vn")) /\
  listed raw_posted "batdongsan.com.vn" !! "monthsOnMarket" = Some (VInt 6) /\
  strptime_ymd (VStr "２０２４-01-15") = Ok (mkdate 2024 1 15) /\
  strptime_ymd (VStr "2024-０1-15") = Raise ValueError.
Proof.
  assert (H : normalize_sample raw_posted "batdongsan.com.vn" =
              Ok (Some (listed raw_posted "batdongsan.com.vn")))
    by (vm_compute; reflexivity).
  split; [exact H |].
  destruct (months_on_market no_match mid_july raw_posted "batdongsan.com.vn" _ H)
    as (Hm & _ & Hiso & _).
  split; [| split; vm_compute; reflexivity].
  rewrite Hm. apply f_equal.
  exact (Hiso (mkdate 2024 1 15) eq_refl eq_refl eq_refl).
Defined.

Lemma single_floor_derived_witness :
  normalize_sample raw_one_floor "homedy.com" =
    Ok (Some (listed raw_one_floor "homedy.com")) /\
  listed raw_one_floor "homedy.com" !! "singleFloor" = Some (VBool true).
Proof.
  assert (H : normalize_sample raw_one_floor "homedy.com" =
              Ok (Some (listed raw_one_floor "homedy.com")))
    by (vm_compute; reflexivity).
  split; [exact H |].
  destruct (single_floor_derived no_match mid_july raw_one_floor "homedy.com" _ H)
    as (Hs & _ & Hint & _).
  rewrite Hs. apply f_equal.
  apply (Hint 1); [reflexivity | reflexivity | lia].
Defined.

(** C6 as stated fails: with a floor count of 0 and no explicit flag the
    field is null, not false. *)
Lemma zero_floors_null :
  get raw_no_floor "floors" = VInt 0 /\
  normalize_sample raw_no_floor "homedy.com" =
    Ok (Some (listed raw_no_floor "homedy.com")) /\
  listed raw_no_floor "homedy.com" !! "singleFloor" = Some VNone.
Proof. repeat split; vm_compute; reflexivity. Qed.

Lemma name_and_address_witness :
  normalize_sample raw_cut_name "muaban.net" =
    Ok (Some (listed raw_cut_name "muaban.net")) /\
  listed raw_cut_name "muaban.net" !! "address" = Some (VStr "Hai Chau") /\
  exists name, listed raw_cut_name "muaban.net" !! "name" = Some (VStr name) /\
    (String.length name <= 100)%nat.
Proof.
  assert (H : normalize_sample raw_cut_name "muaban.net" =
              Ok (Some (listed raw_cut_name "muaban.net")))
    by (vm_compute; reflexivity).
  split; [exact H |].
  destruct (name_and_address no_match mid_july raw_cut_name "muaban.net" _ H)
    as (_ & _ & _ & _ & Hcut & Haddr).
  split; [apply Haddr; reflexivity |].
  apply (Hcut long_name). reflexivity.
Defined.

(** C7 as stated fails: a name of 108 characters is returned whole, and an
    address that is present and null stays null. *)
Lemma long_name_and_null_address :
  normalize_sample raw_long_name "chotot.com" =
    Ok (Some (listed raw_long_name "chotot.com")) /\
  listed raw_long_name "chotot.com" !! "name" = Some (VStr long_name) /\
  String.length long_name = 108%nat /\
  listed raw_long_name "chotot.com" !! "address" = Some VNone.
Proof. repeat split; vm_compute; reflexivity. Qed.

(** C9 as stated fails: coordinates that are text, or a list, reach
    [round], which raises. *)
Lemma text_coordinates_raise :
  normalize_sample raw_text_coordinates "chotot.com" = Raise TypeError /\
  normalize_sample raw_list_coordinates "chotot.com" = Raise TypeError.
Proof. split; vm_compute; reflexivity. Qed.

Lemma merge_degrades_witness :
  merge_with_existing (File Undecodable) [office_a; office_b] = Ok [office_a] /\
  merge_with_existing NoFile [office_a; office_b] = Ok [office_a] /\
  merge_with_existing (File (Decoded (JArray [office_c]))) [office_a; office_b] =
    Ok [office_c; office_a].
Proof.
  destruct (merge_degrades (File Undecodable) [office_c] [office_a; office_b])
    as (Hfail & Hok).
  destruct (merge_degrades NoFile [office_c] [office_a; office_b]) as (Hnone & _).
  destruct (Hfail ltac:(right; right; left; reflexivity)) as (E1 & _).
  destruct (Hnone ltac:(left; reflexivity)) as (E2 & _).
  rewrite E1, E2, Hok. repeat split; vm_compute; reflexivity.
Defined.

Lemma zero_coordinate_is_absent_witness :
  zero_coordinate raw_zero_with_address = true /\
  zero_coordinate raw_zero_latitude = true /\
  zero_coordinate on_equator = true /\
  normalize_listing one_place mid_july raw_zero_with_address "chotot.com" =
    Ok (Some (listed raw_zero_with_address "chotot.com")) /\
  listed raw_zero_with_address "chotot.com" !! "lat" =
    Some (VFloat (Sample.round_scaled 16.0544 7)) /\
  normalize_listing no_match mid_july raw_zero_with_address "chotot.com" = Ok None /\
  normalize_sample raw_zero_latitude "chotot.com" = Ok None /\
  normalize_sample raw_zero_latitude "chotot.com" =
    normalize_sample (delete "lat" raw_zero_latitude) "chotot.com" /\
  scan_unique on_equator [on_equator] = Ok false.
Proof.
  assert (H0 : zero_coordinate raw_zero_with_address = true) by reflexivity.
  assert (H1 : zero_coordinate raw_zero_latitude = true) by reflexivity.
  assert (H2 : zero_coordinate on_equator = true) by reflexivity.
  destruct (zero_coordinate_is_absent one_place mid_july raw_zero_with_address
              "chotot.com" on_equator H0 H2)
    as (_ & _ & _ & Hfound & _).
  destruct (zero_coordinate_is_absent no_match mid_july raw_zero_with_address
              "chotot.com" on_equator H0 H2)
    as (_ & _ & _ & _ & Hnone & _).
  destruct (zero_coordinate_is_absent no_match mid_july raw_zero_latitude
              "chotot.com" on_equator H1 H2)
    as (Hlat & _ & _ & _ & _ & Hdiscard & _ & Hscan & _).
  split; [exact H0 |]. split; [exact H1 |]. split; [exact H2 |].
  split; [exact (Hfound 16.0544%float 108.2022%float eq_refl eq_refl eq_refl) |].
  split; [reflexivity |].
  split; [apply Hnone; reflexivity |].
  split; [apply Hdiscard; reflexivity |].
  split; [apply Hlat; reflexivity | apply Hscan].
Defined.

Lemma discard_without_location_witness :
  truthy (get (∅ : dict) "lat") && truthy (get (∅ : dict) "lng") = false /\
  truthy (get_or (∅ : dict) "address" (VStr "")) = false /\
  normalize_sample ∅ "alonhadat.com.vn" = Ok None.
Proof.
  split; [reflexivity |]. split; [reflexivity |].
  apply (discard_without_location no_match mid_july ∅ "alonhadat.com.vn");
    reflexivity.
Defined.

Lemma merge_keeps_existing_witness :
  merge_with_existing (File (Decoded (JArray [office_c]))) [office_a; office_b] =
    Ok [office_c; office_a] /\
  exists kept, deduplicate [office_c] = Ok kept /\
    kept `prefix_of` [office_c; office_a].
Proof.
  assert (H : merge_with_existing (File (Decoded (JArray [office_c])))
                [office_a; office_b] = Ok [office_c; office_a])
    by (vm_compute; reflexivity).
  split; [exact H |].
  exact (merge_keeps_existing [office_c] [office_a; office_b] _ H).
Defined.

Lemma deduplicate_separated_witness :
  comparable [office_a; office_b; office_c] = true /\
  deduplicate [office_a; office_b; office_c] = Ok [office_a; office_c] /\
  duplicate_of office_c office_a = false.
Proof.
  assert (Hc : comparable [office_a; office_b; office_c] = true)
    by (vm_compute; reflexivity).
  assert (H : deduplicate [office_a; office_b; office_c] = Ok [office_a; office_c])
    by (vm_compute; reflexivity).
  split; [exact Hc |]. split; [exact H |].
  apply (deduplicate_separated [office_a; office_b; office_c] [office_a; office_c]
           0 1 office_c office_a Hc H); [lia | reflexivity | reflexivity].
Defined.

Lemma self_distance_zero_witness :
  distance office_a office_a = Ok 0%float /\
  duplicate_of office_a office_a = true.
Proof.
  destruct (self_distance_zero office_a 16.0544 108.2022) as (E & D);
    try (vm_compute; reflexivity).
  split; [exact E | now rewrite D].
Defined.

Lemma apart_separated : separated [office_a; office_c].
Proof.
  intros i j y z Hij Hi Hj.
  destruct i as [|i]; [| destruct i; destruct j as [|[|j]]; try lia; discriminate].
  destruct j as [|[|j]]; [lia | | discriminate].
  injection Hi as <-. injection Hj as <-. vm_compute. reflexivity.
Qed.

Lemma deduplicate_distinct_kept_witness :
  comparable [office_a; office_c] = true /\
  deduplicate [office_a; office_c] = Ok [office_a; office_c].
Proof.
  assert (Hc : comparable [office_a; office_c] = true) by (vm_compute; reflexivity).
  split; [exact Hc |].
  exact (deduplicate_distinct_kept [office_a; office_c] Hc apart_separated).
Defined.

Lemma deduplicate_idempotent_witness :
  comparable [office_a; office_b; office_c] = true /\
  deduplicate [office_a; office_b; office_c] = Ok [office_a; office_c] /\
  deduplicate [office_a; office_c] = Ok [office_a; office_c].
Proof.
  assert (Hc : comparable [office_a; office_b; office_c] = true)
    by (vm_compute; reflexivity).
  assert (H : deduplicate [office_a; office_b; office_c] = Ok [office_a; office_c])
    by (vm_compute; reflexivity).
  split; [exact Hc |]. split; [exact H |].
  exact (deduplicate_idempotent _ _ Hc H).
Defined.

Lemma deduplicate_covers_witness :
  deduplicate [office_a; office_b; office_c] = Ok [office_a; office_c] /\
  (office_b ∈ [office_a; office_c] \/
   exists y, y ∈ [office_a; office_c] /\ duplicate_of office_b y = true).
Proof.
  assert (H : deduplicate [office_a; office_b; office_c] = Ok [office_a; office_c])
    by (vm_compute; reflexivity).
  split; [exact H |].
  apply (deduplicate_covers _ _ office_b H). right. left.
Defined.

Lemma text_coordinate_aborts_witness :
  get text_listing "lat" = VStr "16.0544" /\
  located office_a = true /\
  merge_with_existing (File (Decoded (JArray [office_a]))) [text_listing] =
    Raise TypeError.
Proof.
  split; [reflexivity |]. split; [reflexivity |].
  apply (text_coordinate_aborts text_listing office_a "16.0544" []);
    [reflexivity | discriminate | reflexivity | reflexivity].
Defined.

Lemma given_coordinates_used_witness :
  truthy (get raw_located "lat") && truthy (get raw_located "lng") = true /\
  normalize_listing one_place mid_july raw_located "chotot.com" =
    normalize_listing no_match mid_july raw_located "chotot.com".
Proof.
  split; [reflexivity |].
  apply (given_coordinates_used mid_july one_place no_match raw_located "chotot.com").
  reflexivity.
Defined.

Lemma geocoding_failure_discards_witness :
  truthy (get raw_address "lat") && truthy (get raw_address "lng") = false /\
  normalize_listing no_match mid_july raw_address "muaban.net" = Ok None.
Proof.
  split; [reflexivity |].
  apply (geocoding_failure_discards mid_july no_match raw_address "muaban.net");
    [reflexivity | discriminate].
Defined.


Lemma listing_schema_witness :
  normalize_sample raw_located "chotot.com" =
    Ok (Some (listed raw_located "chotot.com")) /\
  dom (listed raw_located "chotot.com") = listing_fields /\
  listed raw_located "chotot.com" !! "source" = Some (VStr "chotot.com").
Proof.
  assert (H : normalize_sample raw_located "chotot.com" =
              Ok (Some (listed raw_located "chotot.com")))
    by (vm_compute; reflexivity).
  split; [exact H |].
  destruct (listing_schema mid_july no_match raw_located "chotot.com" _ H)
    as (Hdom & Hsrc & _).
  split; [exact Hdom | exact Hsrc].
Defined.

Lemma sample_batch :
  run_sources no_match mid_july sample_scrape SCRAPERS [] [] =
  ([listed raw_one_floor "homedy.com"],
   [("chotot.com"%string, TypeError); ("dothi.net"%string, OSError)]).
Proof. vm_compute. reflexivity. Qed.

Lemma batch_provenance_witness :
  listed raw_one_floor "homedy.com" ∈
    fst (run_sources no_match mid_july sample_scrape SCRAPERS [] []) /\
  exists source raws raw,
    source ∈ SCRAPERS /\ sample_scrape source = Ok raws /\ raw ∈ raws /\
    Forall (fun raw' => is_ok (normalize_sample raw' source) = true) raws /\
    listed raw_one_floor "homedy.com" !! "source" = Some (VStr source).
Proof.
  assert (H : listed raw_one_floor "homedy.com" ∈
                fst (run_sources no_match mid_july sample_scrape SCRAPERS [] []))
    by (rewrite sample_batch; left).
  split; [exact H |].
  destruct (batch_provenance no_match mid_july sample_scrape SCRAPERS _ H)
    as (source & raws & raw & Hs & Hscrape & Hraw & _ & Hall & Hsrc & _).
  exists source, raws, raw. repeat split; assumption.
Defined.

Lemma failing_record_drops_source_witness :
  sample_scrape "chotot.com" = Ok [raw_located; raw_text_coordinates] /\
  is_ok (normalize_sample raw_located "chotot.com") = true /\
  is_ok (normalize_sample raw_text_coordinates "chotot.com") = false /\
  contribution no_match mid_july sample_scrape "chotot.com" = [] /\
  failure no_match mid_july sample_scrape "chotot.com" =
    Some ("chotot.com"%string, TypeError).
Proof.
  assert (Hfail : is_ok (normalize_sample raw_text_coordinates "chotot.com") = false)
    by (vm_compute; reflexivity).
  destruct (failing_record_drops_source no_match mid_july sample_scrape SCRAPERS
              "chotot.com" [raw_located; raw_text_coordinates] raw_text_coordinates
              eq_refl ltac:(right; left) Hfail) as (Hc & Hf & _).
  split; [reflexivity |]. split; [vm_compute; reflexivity |].
  split; [exact Hfail |]. split; [exact Hc | exact Hf].
Defined.

Lemma main_outcome_witness :
  main no_match mid_july sample_scrape Written NoFile =
    (File (Decoded (JArray [listed raw_one_floor "homedy.com"])), Ok 1) /\
  main no_match mid_july sample_scrape OpenFails NoFile = (NoFile, Raise OSError) /\
  main no_match mid_july sample_scrape (Interrupted Undecodable)
       (File (Decoded (JArray [office_a]))) =
    (File Undecodable, Raise OSError) /\
  main no_match mid_july no_records Written NoFile = (File (Decoded (JArray [])), Ok 0).
Proof.
  assert (H1 : main no_match mid_july sample_scrape Written NoFile =
            (File (Decoded (JArray [listed raw_one_floor "homedy.com"])), Ok 1))
    by (vm_compute; reflexivity).
  split; [exact H1 |].
  destruct (main_outcome no_match mid_july sample_scrape OpenFails NoFile)
    as (_ & Hraise & _).
  destruct (main_outcome no_match mid_july sample_scrape (Interrupted Undecodable)
              (File (Decoded (JArray [office_a])))) as (_ & _ & Hcut).
  split; [| split].
  - destruct (main no_match mid_july sample_scrape OpenFails NoFile)
      as [st' [c|e]] eqn:E.
    + vm_compute in E. discriminate E.
    + rewrite (Hraise st' e eq_refl). f_equal.
      vm_compute in E. now injection E as _ <-.
  - apply (Hcut Undecodable eq_refl). vm_compute. reflexivity.
  - vm_compute. reflexivity.
Defined.

Lemma empty_rerun_keeps_store_witness :
  main no_match mid_july sample_scrape Written NoFile =
    (File (Decoded (JArray [listed raw_one_floor "homedy.com"])), Ok 1) /\
  main no_match mid_july no_records Written
       (File (Decoded (JArray [listed raw_one_floor "homedy.com"]))) =
    (File (Decoded (JArray [listed raw_one_floor "homedy.com"])), Ok 0).
Proof.
  assert (H1 : main no_match mid_july sample_scrape Written NoFile =
            (File (Decoded (JArray [listed raw_one_floor "homedy.com"])), Ok 1))
    by (vm_compute; reflexivity).
  split; [exact H1 |].
  apply (empty_rerun_keeps_store no_match mid_july sample_scrape no_records
           NoFile _ 1 H1); [vm_compute; reflexivity | reflexivity].
Defined.

Lemma whole_millions_read_witness :
  parse_price "15 triệu/tháng" = Ok (VInt 15000000) /\
  parse_price "15tr" = Ok (VInt 15000000) /\
  parse_price_batdongsan None "15 triệu/tháng" = Ok (VInt 15000000).
Proof. apply (whole_millions_read None 15). lia. Defined.

Lemma decimal_price_truncated_witness :
  exists price,
    parse_price "4,1 triệu" = Ok (VInt price) /\ 4099999 <= price <= 4100000.
Proof. apply (decimal_price_truncated 4 1); lia. Defined.

Lemma area_floor_read_witness :
  parse_area "45 m²" = Ok (VInt 45) /\
  parse_area "45m2" = Ok (VInt 45) /\
  parse_area "45,5 m2" = Ok (VInt 45).
Proof. apply (area_floor_read 45 5); lia. Defined.

Lemma posting_date_round_trip_witness :
  parse_date None sample_days_ago "Ngày đăng: 05/03/2024 (tin VIP)" =
    VStr "2024-03-05" /\
  calculate_months_on_market mid_july
    (parse_date None sample_days_ago "Ngày đăng: 05/03/2024 (tin VIP)") =
    Ok (VInt 4).
Proof.
  apply (posting_date_round_trip None sample_days_ago mid_july
           (mkdate 2024 3 5) "Ngày đăng: " " (tin VIP)"); reflexivity.
Defined.

Lemma price_without_unit_witness :
  no_unit "15.000.000 đ" = true /\ parse_price "15.000.000 đ" = Ok VNone.
Proof.
  split; [reflexivity | apply (price_without_unit "15.000.000 đ"); reflexivity].
Defined.

Lemma relative_posting_date_witness :
  parse_date (Some 640%nat) sample_days_ago "3 ngày trước" = VStr "2024-07-12" /\
  parse_date (Some 640%nat) sample_days_ago "3 tháng trước" = VStr "2024-04-16".
Proof.
  apply (relative_posting_date (Some 640%nat) sample_days_ago 3); [lia |].
  intros k [= <-]. lia.
Defined.

Lemma adapter_record_shape_witness :
  parse_listing None sample_days_ago Homedy sample_card = Ok (Some sample_record) /\
  site_record_shape sample_record.
Proof.
  assert (E : parse_listing None sample_days_ago Homedy sample_card =
              Ok (Some sample_record)) by (vm_compute; reflexivity).
  split; [exact E |].
  exact (adapter_record_shape None sample_days_ago Homedy sample_card sample_record E).
Defined.

Lemma adapter_record_normalizes_witness :
  parse_listing None sample_days_ago Homedy sample_card = Ok (Some sample_record) /\
  (normalize_listing one_place mid_july sample_record "homedy.com" = Ok None \/
   exists la lo,
     truthy (get sample_record "address") = true /\
     geocode_address one_place (get sample_record "address") =
       (VFloat la, VFloat lo) /\
     normalize_listing one_place mid_july sample_record "homedy.com" =
       Ok (Some (listing_of mid_july sample_record "homedy.com"
                   (VFloat (float_round la 7)) (VFloat (float_round lo 7))))).
Proof.
  assert (E : parse_listing None sample_days_ago Homedy sample_card =
              Ok (Some sample_record)) by (vm_compute; reflexivity).
  split; [exact E |].
  exact (adapter_record_normalizes None sample_days_ago one_place mid_july
           Homedy sample_card sample_record "homedy.com" E).
Defined.

Lemma items_isolated_witness :
  is_ok (parse_listing_homedy bad_card) = false /\
  collect_items parse_listing_homedy [sample_card; bad_card; sample_card] [] =
    collect_items parse_listing_homedy [sample_card] [] ++
    collect_items parse_listing_homedy [sample_card] [] /\
  collect_items parse_listing_homedy [sample_card; bad_card; sample_card] [] =
    collect_items parse_listing_homedy [sample_card; sample_card] [].
Proof.
  assert (E : is_ok (parse_listing_homedy bad_card) = false) by (vm_compute; reflexivity).
  split; [exact E |].
  exact (items_isolated parse_listing_homedy [sample_card] [sample_card] bad_card E).
Defined.

Lemma adapter_source_never_fails_witness :
  failure one_place mid_july homedy_scrape "homedy.com" = None.
Proof.
  exact (adapter_source_never_fails None sample_days_ago one_place mid_july
           homedy_scrape Homedy [sample_card; bad_card] "homedy.com" eq_refl).
Defined.

Lemma chotot_html_never_listed_witness :
  contribution one_place mid_july html_scrape "chotot.com" = [] /\
  failure one_place mid_july html_scrape "chotot.com" = None.
Proof.
  exact (chotot_html_never_listed one_place mid_july html_scrape
           [sample_card; bad_card] "chotot.com" eq_refl).
Defined.

End Examples.
